(** * Levity persistence layer: a shallow embedding of package [db]

    The development follows the Go sources of the repository:
    - [db/database.go]           : the row and request structs, [ListOptions],
                                   the migration entry points,
    - [db/charger_repository.go] : the charger repository,
    - [db/repository_manager.go] : the transaction repository,
    - [db/other_repositories.go] : the meter value and charger error
                                   repositories, the [Executor] interface,
    - the initial migration      : the schema (keys, defaults).

    Go's [int] is taken at its 64-bit width and modelled as [Z] with the
    wrap-around written out; [time.Time] is a [Z] instant; a statement run
    through the [Executor] either fails at the driver or is evaluated on
    the tables. *)

From Stdlib Require Import ZArith List String Bool Lia.
From Stdlib Require Import Floats.SpecFloat.
From Stdlib Require Import Sorting.Sorted Sorting.Permutation.
Import ListNotations.
Local Open Scope string_scope.
Local Open Scope Z_scope.

(** ** Go integers *)

Module GoInt.

Definition MinInt64 : Z := - 2 ^ 63.
Definition MaxInt64 : Z := 2 ^ 63 - 1.

(** Two's complement wrap-around of a mathematical integer to [int64]. *)
Definition wrap64 (z : Z) : Z := (z + 2 ^ 63) mod 2 ^ 64 - 2 ^ 63.

Definition in_int64 (z : Z) : Prop := MinInt64 <= z <= MaxInt64.

(** [a - b] on Go ints. *)
Definition sub (a b : Z) : Z := wrap64 (a - b).
(** [a*b + c] on [int64]. *)
Definition muladd (a b c : Z) : Z := wrap64 (wrap64 (a * b) + c).

End GoInt.

(** ** Errors

    The repositories build their errors with [fmt.Errorf]; the format
    string is kept verbatim and [%w] keeps the wrapped cause. *)

Inductive error : Type :=
| ErrNoRows                                   (* sql.ErrNoRows *)
| ErrDriver                                   (* any other failure of the driver *)
| ErrConstraint (what : string)               (* a constraint of the schema refused the row *)
| ErrNilVersion                               (* migrate.ErrNilVersion *)
| ErrNoChange                                 (* migrate.ErrNoChange *)
| ErrDirty (version : Z)                      (* migrate.ErrDirty{Version} *)
| ErrInvalidVersion                           (* migrate.ErrInvalidVersion *)
| ErrNotExist                                 (* os.ErrNotExist: no such migration *)
| ErrMigration (version : Z)                  (* a migration script failed *)
| Errorf (format : string)                     (* fmt.Errorf without %w *)
| Wrapf (format : string) (cause : error).     (* fmt.Errorf with %w *)

Inductive result (A : Type) : Type :=
| Ok (a : A)
| Err (e : error).
Arguments Ok {A} a.
Arguments Err {A} e.

Definition Time := Z.

(** ** List options (db/database.go) *)

Module ListOptions.
Record t : Type := mk {
  Limit : Z;
  Offset : Z;
  OrderBy : string;
  SortDir : string
}.

(** [func (opts *ListOptions) ValidateSortDirection()] *)
Definition ValidateSortDirection (opts : t) : t :=
  if negb (SortDir opts =? "ASC")%string && negb (SortDir opts =? "DESC")%string
  then mk (Limit opts) (Offset opts) (OrderBy opts) "DESC"
  else opts.
End ListOptions.

(** A Go [map[string]bool] literal; indexing a missing key yields [false]. *)
Fixpoint map_index (m : list (string * bool)) (k : string) : bool :=
  match m with
  | [] => false
  | (k', v) :: m' => if (k' =? k)%string then v else map_index m' k
  end.

(** [fmt.Sprintf] of a format with two [%s] verbs, split at the verbs. *)
Definition Sprintf2 (before between after a b : string) : string :=
  before ++ a ++ between ++ b ++ after.

(** ** Rows (db/database.go) and tables (the initial migration) *)

Module Charger.
Record t : Type := mk {
  ID : string;
  Name : string;
  Vendor : string;
  Model : string;
  SerialNumber : string;
  FirmwareVersion : string;
  ICCID : string;
  IMSI : string;
  Status : string;
  IsConnected : bool;
  LastHeartbeatAt : option Time;
  LastBootAt : option Time;
  LastConnectAt : option Time;
  LastTxStartAt : option Time;
  LastTxStopAt : option Time;
  CreatedAt : Time;
  UpdatedAt : Time
}.
End Charger.

Module Transaction.
Record t : Type := mk {
  ID : Z;
  TransactionID : option Z;
  ChargerID : string;
  ConnectorID : Z;
  IDTag : string;
  StartTime : Time;
  StopTime : option Time;
  MeterStart : Z;
  MeterStop : option Z;
  EnergyDelivered : Z;
  StopReason : string;
  Status : string;
  CreatedAt : Time;
  UpdatedAt : Time
}.
End Transaction.

Module MeterValue.
Record t : Type := mk {
  ID : Z;
  TransactionID : option Z;
  ChargerID : string;
  ConnectorID : Z;
  Timestamp : Time;
  Measurand : string;
  Value : spec_float;
  Unit : string;
  Context : string;
  Location : string;
  Phase : string;
  Format : string;
  CreatedAt : Time
}.
End MeterValue.

Module ChargerError.
Record t : Type := mk {
  ID : Z;
  ChargerID : string;
  ConnectorID : option Z;
  ErrorCode : string;
  VendorErrorCode : string;
  ErrorDescription : string;
  VendorErrorInfo : string;
  Timestamp : Time;
  ResolvedAt : option Time;
  CreatedAt : Time
}.
End ChargerError.

Module UpdateChargerRequest.
Record t : Type := mk {
  Name : option string;
  Vendor : option string;
  Model : option string;
  SerialNumber : option string;
  FirmwareVersion : option string;
  ICCID : option string;
  IMSI : option string;
  Status : option string;
  IsConnected : option bool
}.
End UpdateChargerRequest.

Module CreateTransactionRequest.
Record t : Type := mk {
  TransactionID : option Z;
  ChargerID : string;
  ConnectorID : Z;
  IDTag : string;
  MeterStart : Z
}.
End CreateTransactionRequest.

Module UpdateTransactionRequest.
Record t : Type := mk {
  MeterStop : option Z;
  StopTime : option Time;
  EnergyDelivered : option Z;
  StopReason : option string;
  Status : option string
}.
End UpdateTransactionRequest.

Module ChargerConnector.
Record t : Type := mk {
  ID : Z;
  ChargerID : string;
  ConnectorID : Z;
  Status : string;
  ErrorCode : string;
  VendorErrorCode : string;
  CreatedAt : Time;
  UpdatedAt : Time
}.
End ChargerConnector.

Module CreateChargerRequest.
Record t : Type := mk {
  ID : string;
  Name : string;
  Vendor : string;
  Model : string;
  SerialNumber : string;
  FirmwareVersion : string;
  ICCID : string;
  IMSI : string
}.
End CreateChargerRequest.

Module CreateMeterValueRequest.
Record t : Type := mk {
  TransactionID : option Z;
  ChargerID : string;
  ConnectorID : Z;
  Timestamp : Time;
  Measurand : string;
  Value : spec_float;
  Unit : string;
  Context : string;
  Location : string;
  Phase : string;
  Format : string
}.
End CreateMeterValueRequest.

Module CreateChargerErrorRequest.
Record t : Type := mk {
  ChargerID : string;
  ConnectorID : option Z;
  ErrorCode : string;
  VendorErrorCode : string;
  ErrorDescription : string;
  VendorErrorInfo : string;
  Timestamp : Time
}.
End CreateChargerErrorRequest.

(** The tables the repositories below read and write.  [transactions_seq]
    is the AUTOINCREMENT counter of [transactions.id]. *)
Record DB : Type := mkDB {
  chargers : list Charger.t;
  transactions : list Transaction.t;
  transactions_seq : Z;
  meter_values : list MeterValue.t;
  charger_errors : list ChargerError.t
}.

(** ** The [Executor] (db/other_repositories.go)

    [*sql.DB] and [*sql.Tx] both run a statement against the tables; the
    driver may refuse any statement (busy timeout, I/O failure, closed
    handle).  [faults] schedules these refusals: its head tells whether
    the next statement fails at the driver, and an exhausted schedule means
    a healthy connection. *)
Record Executor : Type := mkExecutor {
  db : DB;
  faults : list bool
}.

Definition next_statement (ex : Executor) : bool * Executor :=
  match faults ex with
  | [] => (false, ex)
  | f :: fs => (f, mkExecutor (db ex) fs)
  end.

(** [QueryRowContext(...).Scan(...)] of a statement that only reads:
    [rows] is the result set in the order the statement asks for, [Scan]
    takes its first row and reports [sql.ErrNoRows] on an empty set. *)
Definition QueryRowContext {A} (ex : Executor) (rows : DB -> list A)
  : result A * Executor :=
  let (failed, ex') := next_statement ex in
  if failed then (Err ErrDriver, ex')
  else match rows (db ex') with
       | [] => (Err ErrNoRows, ex')
       | r :: _ => (Ok r, ex')
       end.

(** [QueryRowContext(...).Scan(...)] of a statement that writes and has a
    RETURNING clause: [stmt] gives the new tables and the returned rows, or
    the constraint that refuses the statement.  A refused or failed
    statement leaves the tables as they were. *)
Definition QueryRowContext_returning {A} (ex : Executor)
    (stmt : DB -> result (DB * list A)) : result A * Executor :=
  let (failed, ex') := next_statement ex in
  if failed then (Err ErrDriver, ex')
  else match stmt (db ex') with
       | Err e => (Err e, ex')
       | Ok (d, []) => (Err ErrNoRows, mkExecutor d (faults ex'))
       | Ok (d, r :: _) => (Ok r, mkExecutor d (faults ex'))
       end.

(** [ExecContext] followed by [result.RowsAffected()]: [stmt] gives the new
    tables and the number of rows changed.  Once the statement has run the
    driver always knows that number. *)
Definition ExecContext (ex : Executor) (stmt : DB -> DB * Z)
  : result Z * Executor :=
  let (failed, ex') := next_statement ex in
  if failed then (Err ErrDriver, ex')
  else let (d, n) := stmt (db ex') in (Ok n, mkExecutor d (faults ex')).

(** Rows of a result set under [ORDER BY key DESC LIMIT 1]: the first row
    among those with the greatest key. *)
Fixpoint order_desc_limit1 {A} (key : A -> Z) (rows : list A) : list A :=
  match rows with
  | [] => []
  | r :: rest =>
      match order_desc_limit1 key rest with
      | [] => [r]
      | m :: _ => if key r <? key m then [m] else [r]
      end
  end.

Definition count_rows {A} (p : A -> bool) (rows : list A) : Z :=
  Z.of_nat (List.length (filter p rows)).

(** [UPDATE table SET ... WHERE p]: every row that satisfies [p] is
    rewritten by [set]. *)
Definition update_where {A} (p : A -> bool) (set : A -> A) (rows : list A)
  : list A :=
  map (fun r => if p r then set r else r) rows.

Definition option_eqb {A} (eqb : A -> A -> bool) (a b : option A) : bool :=
  match a, b with
  | Some x, Some y => eqb x y
  | None, None => true
  | _, _ => false
  end.

(** ** The whole schema

    [DB] holds the tables the functions above it need.  The schema has a
    fifth table, [charger_connectors], and AUTOINCREMENT counters for the
    ids of connectors, meter values and charger errors; [Store] adds them,
    and [StoreExecutor] is the executor of the functions that touch them. *)
Record Store : Type := mkStore {
  core : DB;
  charger_connectors : list ChargerConnector.t;
  charger_connectors_seq : Z;
  meter_values_seq : Z;
  charger_errors_seq : Z
}.

Record StoreExecutor : Type := mkStoreExecutor {
  store : Store;
  store_faults : list bool
}.

(** The executor of the functions that stay within [DB]. *)
Definition narrow (sx : StoreExecutor) : Executor :=
  mkExecutor (core (store sx)) (store_faults sx).

Definition store_next_statement (sx : StoreExecutor) : bool * StoreExecutor :=
  match store_faults sx with
  | [] => (false, sx)
  | f :: fs => (f, mkStoreExecutor (store sx) fs)
  end.

(** The three calls of the [Executor] interface on the whole schema; they
    read like [QueryRowContext], [QueryRowContext_returning] and
    [ExecContext] above. *)
Definition Store_QueryRowContext {A} (sx : StoreExecutor) (rows : Store -> list A)
  : result A * StoreExecutor :=
  let (failed, sx') := store_next_statement sx in
  if failed then (Err ErrDriver, sx')
  else match rows (store sx') with
       | [] => (Err ErrNoRows, sx')
       | r :: _ => (Ok r, sx')
       end.

Definition Store_QueryRowContext_returning {A} (sx : StoreExecutor)
    (stmt : Store -> result (Store * list A)) : result A * StoreExecutor :=
  let (failed, sx') := store_next_statement sx in
  if failed then (Err ErrDriver, sx')
  else match stmt (store sx') with
       | Err e => (Err e, sx')
       | Ok (s, []) => (Err ErrNoRows, mkStoreExecutor s (store_faults sx'))
       | Ok (s, r :: _) => (Ok r, mkStoreExecutor s (store_faults sx'))
       end.

Definition Store_ExecContext (sx : StoreExecutor) (stmt : Store -> Store * Z)
  : result Z * StoreExecutor :=
  let (failed, sx') := store_next_statement sx in
  if failed then (Err ErrDriver, sx')
  else let (s, n) := stmt (store sx') in (Ok n, mkStoreExecutor s (store_faults sx')).

(** [QueryContext] followed by the [rows.Next] loop: all the rows of a
    statement that only reads. *)
Definition QueryContext {A} (ex : Executor) (rows : DB -> list A)
  : result (list A) * Executor :=
  let (failed, ex') := next_statement ex in
  if failed then (Err ErrDriver, ex') else (Ok (rows (db ex')), ex').

(** Rows of a result set under [ORDER BY key DESC]; rows with equal keys
    stay in table order. *)
Fixpoint insert_desc {A} (key : A -> Z) (r : A) (sorted : list A) : list A :=
  match sorted with
  | [] => [r]
  | s :: rest =>
      if key r <? key s then s :: insert_desc key r rest else r :: sorted
  end.

Fixpoint order_by_desc {A} (key : A -> Z) (rows : list A) : list A :=
  match rows with
  | [] => []
  | r :: rest => insert_desc key r (order_by_desc key rest)
  end.

(** [t.IsZero()]: instants are counted from the zero [time.Time]. *)
Definition Time_IsZero (t : Time) : bool := t =? 0.

(** The greatest id of a table, for AUTOINCREMENT. *)
Definition max_id {A} (id : A -> Z) (rows : list A) : Z :=
  fold_right Z.max 0 (map id rows).

(** A [time.Time] bound to a statement reaches the store as text:
    go-sqlite3 writes the wall clock of the time in its own zone, then the
    fraction of the second when there is one, then the zone offset (the
    layout [2006-01-02 15:04:05.999999999-07:00]), and the store compares
    texts byte by byte.  [BoundTime] keeps what such a comparison can read
    of the time: the second of its instant and the offset of its zone, in
    seconds east of UTC. *)
Record BoundTime : Type := mkBoundTime {
  unix : Time;
  zone_offset : Z
}.

(** The second the wall clock of a bound time shows. *)
Definition wall_clock (t : BoundTime) : Z := unix t + zone_offset t.

(** [column < ?] for a column written by [CURRENT_TIMESTAMP], which is the
    text [YYYY-MM-DD HH:MM:SS] of the UTC second [column]: its 19
    characters are compared with the first 19 of the bound text, and when
    they agree the column, being the shorter text, is the smaller.  While
    both years have four digits these texts are ordered as the seconds they
    show, so the column is below the bound text exactly when its second is
    not after the one on the wall clock of the bound time. *)
Definition current_timestamp_before (column : Time) (bound : BoundTime) : bool :=
  column <=? wall_clock bound.

Definition with_transactions (d : DB) (txs : list Transaction.t) : DB :=
  mkDB (chargers d) txs (transactions_seq d) (meter_values d) (charger_errors d).

Definition with_chargers (d : DB) (cs : list Charger.t) : DB :=
  mkDB cs (transactions d) (transactions_seq d) (meter_values d) (charger_errors d).

Definition with_charger_errors (d : DB) (es : list ChargerError.t) : DB :=
  mkDB (chargers d) (transactions d) (transactions_seq d) (meter_values d) es.

(** ** The transaction repository (db/repository_manager.go) *)

Module transactionRepository.

Import Transaction.

(** What one pass of the loop of [GenerateTransactionID] reads from
    outside: [time.Now().Unix()], [rand.Int31n(1000)] and the second
    [time.Now().Unix()] of the fallback. *)
Record Reading : Type := mkReading {
  now : Z;
  random : Z;
  now_again : Z
}.

Definition candidateID (r : Reading) : Z :=
  let candidateID := GoInt.muladd (now r) 1000 (random r) in
  if candidateID <=? 0 then Z.rem (now_again r) 2147483647 else candidateID.

Definition has_transaction_id (candidateID : Z) (tx : t) : bool :=
  option_eqb Z.eqb (TransactionID tx) (Some candidateID).

(** The loop [for attempts := 0; attempts < 10; attempts++], entered at
    [attempts] with [remaining] passes left. *)
Fixpoint GenerateTransactionID_loop (src : nat -> Reading) (ex : Executor)
    (attempts remaining : nat) : result Z * Executor :=
  match remaining with
  | O => (Err (Errorf "failed to generate unique transaction ID after 10 attempts"), ex)
  | S remaining' =>
      let candidateID := candidateID (src attempts) in
      match QueryRowContext ex (fun d =>
              [count_rows (has_transaction_id candidateID) (transactions d)]) with
      | (Err _, ex') =>
          GenerateTransactionID_loop src ex' (S attempts) remaining'
      | (Ok count, ex') =>
          if count =? 0 then (Ok candidateID, ex')
          else GenerateTransactionID_loop src ex' (S attempts) remaining'
      end
  end.

Definition GenerateTransactionID (src : nat -> Reading) (ex : Executor)
  : result Z * Executor :=
  GenerateTransactionID_loop src ex 0 10.

(** The id AUTOINCREMENT gives to the next row. *)
Definition next_rowid (d : DB) : Z :=
  Z.max (transactions_seq d) (fold_right Z.max 0 (map ID (transactions d))) + 1.

(** The INSERT of [Create], under the constraints of the schema:
    [transaction_id INTEGER UNIQUE] and the foreign key on [charger_id]. *)
Definition insert_transaction (current_timestamp : Time) (ocppTxID : Z)
    (req : CreateTransactionRequest.t) (d : DB)
  : result (DB * list t) :=
  if existsb (has_transaction_id ocppTxID) (transactions d)
  then Err (ErrConstraint "UNIQUE constraint failed: transactions.transaction_id")
  else if negb (existsb (fun c => Charger.ID c =? CreateTransactionRequest.ChargerID req)%string
                        (chargers d))
  then Err (ErrConstraint "FOREIGN KEY constraint failed")
  else
    let tx := mk (next_rowid d) (Some ocppTxID)
                 (CreateTransactionRequest.ChargerID req)
                 (CreateTransactionRequest.ConnectorID req)
                 (CreateTransactionRequest.IDTag req)
                 current_timestamp None
                 (CreateTransactionRequest.MeterStart req) None
                 0 "" "Active" current_timestamp current_timestamp in
    Ok (mkDB (chargers d) (transactions d ++ [tx])%list (ID tx)
             (meter_values d) (charger_errors d),
        [tx]).

(** The first block of [Create]: the id of the request, or a generated one. *)
Definition Create_ocppTxID (src : nat -> Reading) (ex : Executor)
    (req : CreateTransactionRequest.t) : result Z * Executor :=
  match CreateTransactionRequest.TransactionID req with
  | Some ocppTxID => (Ok ocppTxID, ex)
  | None => GenerateTransactionID src ex
  end.

Definition Create (src : nat -> Reading) (current_timestamp : Time)
    (ex : Executor) (req : CreateTransactionRequest.t)
  : result t * Executor :=
  let (generated, ex1) := Create_ocppTxID src ex req in
  match generated with
  | Err e => (Err (Wrapf "failed to generate transaction ID: %w" e), ex1)
  | Ok ocppTxID =>
      match QueryRowContext_returning ex1
              (insert_transaction current_timestamp ocppTxID req) with
      | (Err e, ex2) => (Err (Wrapf "failed to create transaction: %w" e), ex2)
      | (Ok tx, ex2) => (Ok tx, ex2)
      end
  end.

Definition GetByID (ex : Executor) (id : Z) : result t * Executor :=
  match QueryRowContext ex (fun d =>
          filter (fun tx => ID tx =? id) (transactions d)) with
  | (Err ErrNoRows, ex') => (Err (Errorf "transaction not found: %d"), ex')
  | (Err e, ex') => (Err (Wrapf "failed to get transaction: %w" e), ex')
  | (Ok tx, ex') => (Ok tx, ex')
  end.

(** One entry of [setParts] together with its entry of [args]. *)
Inductive setPart : Type :=
| meter_stop (v : Z)
| stop_time (v : Time)
| energy_delivered (v : Z)
| stop_reason (v : string)
| status (v : string)
| updated_at_CURRENT_TIMESTAMP.

Definition assign (current_timestamp : Time) (tx : t) (p : setPart) : t :=
  match p with
  | meter_stop v =>
      mk (ID tx) (TransactionID tx) (ChargerID tx) (ConnectorID tx) (IDTag tx)
         (StartTime tx) (StopTime tx) (MeterStart tx) (Some v)
         (EnergyDelivered tx) (StopReason tx) (Status tx) (CreatedAt tx) (UpdatedAt tx)
  | stop_time v =>
      mk (ID tx) (TransactionID tx) (ChargerID tx) (ConnectorID tx) (IDTag tx)
         (StartTime tx) (Some v) (MeterStart tx) (MeterStop tx)
         (EnergyDelivered tx) (StopReason tx) (Status tx) (CreatedAt tx) (UpdatedAt tx)
  | energy_delivered v =>
      mk (ID tx) (TransactionID tx) (ChargerID tx) (ConnectorID tx) (IDTag tx)
         (StartTime tx) (StopTime tx) (MeterStart tx) (MeterStop tx)
         v (StopReason tx) (Status tx) (CreatedAt tx) (UpdatedAt tx)
  | stop_reason v =>
      mk (ID tx) (TransactionID tx) (ChargerID tx) (ConnectorID tx) (IDTag tx)
         (StartTime tx) (StopTime tx) (MeterStart tx) (MeterStop tx)
         (EnergyDelivered tx) v (Status tx) (CreatedAt tx) (UpdatedAt tx)
  | status v =>
      mk (ID tx) (TransactionID tx) (ChargerID tx) (ConnectorID tx) (IDTag tx)
         (StartTime tx) (StopTime tx) (MeterStart tx) (MeterStop tx)
         (EnergyDelivered tx) (StopReason tx) v (CreatedAt tx) (UpdatedAt tx)
  | updated_at_CURRENT_TIMESTAMP =>
      mk (ID tx) (TransactionID tx) (ChargerID tx) (ConnectorID tx) (IDTag tx)
         (StartTime tx) (StopTime tx) (MeterStart tx) (MeterStop tx)
         (EnergyDelivered tx) (StopReason tx) (Status tx) (CreatedAt tx)
         current_timestamp
  end.

(** [if req.F != nil { setParts = append(setParts, ...) }] *)
Definition append_if {A} (setParts : list setPart) (field : option A)
    (part : A -> setPart) : list setPart :=
  match field with
  | Some v => (setParts ++ [part v])%list
  | None => setParts
  end.

(** [UPDATE transactions SET setParts WHERE id = ? RETURNING ...] *)
Definition update_returning (current_timestamp : Time)
    (setParts : list setPart) (id : Z) (d : DB) : result (DB * list t) :=
  let set := fun tx => fold_left (assign current_timestamp) setParts tx in
  let hit := fun tx => ID tx =? id in
  Ok (with_transactions d (update_where hit set (transactions d)),
      map set (filter hit (transactions d))).

(** The [setParts] of [Update] before the check of their number. *)
Definition Update_setParts (req : UpdateTransactionRequest.t) : list setPart :=
  let setParts := [] in
  let setParts := append_if setParts (UpdateTransactionRequest.MeterStop req) meter_stop in
  let setParts := append_if setParts (UpdateTransactionRequest.StopTime req) stop_time in
  let setParts := append_if setParts (UpdateTransactionRequest.EnergyDelivered req) energy_delivered in
  let setParts := append_if setParts (UpdateTransactionRequest.StopReason req) stop_reason in
  let setParts := append_if setParts (UpdateTransactionRequest.Status req) status in
  setParts.

Definition Update (current_timestamp : Time) (ex : Executor) (id : Z)
    (req : UpdateTransactionRequest.t) : result t * Executor :=
  let setParts := Update_setParts req in
  if (List.length setParts =? 0)%nat then GetByID ex id
  else
    let setParts := (setParts ++ [updated_at_CURRENT_TIMESTAMP])%list in
    match QueryRowContext_returning ex
            (update_returning current_timestamp setParts id) with
    | (Err ErrNoRows, ex') => (Err (Errorf "transaction not found: %d"), ex')
    | (Err e, ex') => (Err (Wrapf "failed to update transaction: %w" e), ex')
    | (Ok tx, ex') => (Ok tx, ex')
    end.

Definition validOrderFields : list (string * bool) :=
  [("id", true); ("transaction_id", true); ("charger_id", true);
   ("connector_id", true); ("id_tag", true); ("start_time", true);
   ("stop_time", true); ("status", true); ("created_at", true);
   ("updated_at", true)].

Definition List_select : string :=
  "SELECT id, transaction_id, charger_id, connector_id, id_tag, start_time, stop_time, meter_start, meter_stop, energy_delivered, stop_reason, status, created_at, updated_at FROM transactions ORDER BY ".

Definition List_limit : string := " LIMIT ? OFFSET ?".

(** The options [List] works with after its two validations. *)
Definition List_opts (opts : ListOptions.t) : ListOptions.t :=
  let opts := ListOptions.ValidateSortDirection opts in
  if negb (map_index validOrderFields (ListOptions.OrderBy opts))
  then ListOptions.mk (ListOptions.Limit opts) (ListOptions.Offset opts)
                      "created_at" (ListOptions.SortDir opts)
  else opts.

(** The text [List] hands to [QueryContext]; [opts.Limit] and
    [opts.Offset] travel as bound arguments. *)
Definition List_query (opts : ListOptions.t) : string :=
  let opts := List_opts opts in
  Sprintf2 List_select " " List_limit
           (ListOptions.OrderBy opts) (ListOptions.SortDir opts).

Definition active_on (chargerID : string) (connectorID : Z) (tx : t) : bool :=
  (ChargerID tx =? chargerID)%string && (ConnectorID tx =? connectorID)
  && (Status tx =? "Active")%string.

Definition GetActiveByConnector (ex : Executor) (chargerID : string)
    (connectorID : Z) : result (option t) * Executor :=
  match QueryRowContext ex (fun d =>
          order_desc_limit1 StartTime
            (filter (active_on chargerID connectorID) (transactions d))) with
  | (Err ErrNoRows, ex') => (Ok None, ex')
  | (Err e, ex') =>
      (Err (Wrapf "failed to get active transaction by connector: %w" e), ex')
  | (Ok tx, ex') => (Ok (Some tx), ex')
  end.

(** The SET clause of [Stop]. *)
Definition stopped (current_timestamp : Time) (meterStop : Z) (stopTime : Time)
    (stopReason : string) (energyDelivered : Z) (tx : t) : t :=
  mk (ID tx) (TransactionID tx) (ChargerID tx) (ConnectorID tx) (IDTag tx)
     (StartTime tx) (Some stopTime) (MeterStart tx) (Some meterStop)
     energyDelivered stopReason "Completed" (CreatedAt tx) current_timestamp.

Definition Stop (current_timestamp : Time) (ex : Executor) (id : Z)
    (meterStop : Z) (stopTime : Time) (stopReason : string)
  : result unit * Executor :=
  match QueryRowContext ex (fun d =>
          map MeterStart (filter (fun tx => ID tx =? id) (transactions d))) with
  | (Err e, ex1) => (Err (Wrapf "failed to get meter start: %w" e), ex1)
  | (Ok meterStart, ex1) =>
      let energyDelivered := GoInt.sub meterStop meterStart in
      let energyDelivered := if energyDelivered <? 0 then 0 else energyDelivered in
      match ExecContext ex1 (fun d =>
              (with_transactions d
                 (update_where (fun tx => ID tx =? id)
                    (stopped current_timestamp meterStop stopTime stopReason
                             energyDelivered)
                    (transactions d)),
               count_rows (fun tx => ID tx =? id) (transactions d))) with
      | (Err e, ex2) => (Err (Wrapf "failed to stop transaction: %w" e), ex2)
      | (Ok rowsAffected, ex2) =>
          if rowsAffected =? 0
          then (Err (Errorf "transaction not found: %d"), ex2)
          else (Ok tt, ex2)
      end
  end.

Definition GetByTransactionID (ex : Executor) (transactionID : Z)
  : result t * Executor :=
  match QueryRowContext ex (fun d =>
          filter (has_transaction_id transactionID) (transactions d)) with
  | (Err ErrNoRows, ex') =>
      (Err (Errorf "transaction not found with OCPP ID: %d"), ex')
  | (Err e, ex') =>
      (Err (Wrapf "failed to get transaction by OCPP ID: %w" e), ex')
  | (Ok tx, ex') => (Ok tx, ex')
  end.

(** [DELETE FROM transactions WHERE id = ?]: the meter values that
    reference a deleted transaction go with it (ON DELETE CASCADE); the
    rows counted are those of [transactions]. *)
Definition delete_where_id (id : Z) (d : DB) : DB * Z :=
  let hit := fun tx => ID tx =? id in
  let linked := fun mv =>
    existsb hit (transactions d)
    && option_eqb Z.eqb (MeterValue.TransactionID mv) (Some id) in
  (mkDB (chargers d)
        (filter (fun tx => negb (hit tx)) (transactions d))
        (transactions_seq d)
        (filter (fun mv => negb (linked mv)) (meter_values d))
        (charger_errors d),
   count_rows hit (transactions d)).

Definition Delete (ex : Executor) (id : Z) : result unit * Executor :=
  match ExecContext ex (delete_where_id id) with
  | (Err e, ex') => (Err (Wrapf "failed to delete transaction: %w" e), ex')
  | (Ok rowsAffected, ex') =>
      if rowsAffected =? 0
      then (Err (Errorf "transaction not found: %d"), ex')
      else (Ok tt, ex')
  end.

Definition is_active (tx : t) : bool := (Status tx =? "Active")%string.

Definition GetActive (ex : Executor) : result (list t) * Executor :=
  match QueryContext ex (fun d =>
          order_by_desc StartTime (filter is_active (transactions d))) with
  | (Err e, ex') => (Err (Wrapf "failed to get active transactions: %w" e), ex')
  | (Ok transactions, ex') => (Ok transactions, ex')
  end.

Definition Count (ex : Executor) : result Z * Executor :=
  match QueryRowContext ex (fun d =>
          [count_rows (fun _ => true) (transactions d)]) with
  | (Err e, ex') => (Err (Wrapf "failed to count transactions: %w" e), ex')
  | (Ok count, ex') => (Ok count, ex')
  end.

Definition CountByChargerID (ex : Executor) (chargerID : string)
  : result Z * Executor :=
  match QueryRowContext ex (fun d =>
          [count_rows (fun tx => (ChargerID tx =? chargerID)%string)
                      (transactions d)]) with
  | (Err e, ex') =>
      (Err (Wrapf "failed to count transactions by charger: %w" e), ex')
  | (Ok count, ex') => (Ok count, ex')
  end.

(** [GetByChargerID] validates its options against a map of its own. *)
Definition GetByChargerID_validOrderFields : list (string * bool) :=
  [("id", true); ("transaction_id", true); ("connector_id", true);
   ("id_tag", true); ("start_time", true); ("stop_time", true);
   ("status", true); ("created_at", true); ("updated_at", true)].

Definition GetByChargerID_select : string :=
  "SELECT id, transaction_id, charger_id, connector_id, id_tag, start_time, stop_time, meter_start, meter_stop, energy_delivered, stop_reason, status, created_at, updated_at FROM transactions WHERE charger_id = ? ORDER BY ".

Definition GetByChargerID_opts (opts : ListOptions.t) : ListOptions.t :=
  let opts := ListOptions.ValidateSortDirection opts in
  if negb (map_index GetByChargerID_validOrderFields (ListOptions.OrderBy opts))
  then ListOptions.mk (ListOptions.Limit opts) (ListOptions.Offset opts)
                      "created_at" (ListOptions.SortDir opts)
  else opts.

Definition GetByChargerID_query (opts : ListOptions.t) : string :=
  let opts := GetByChargerID_opts opts in
  Sprintf2 GetByChargerID_select " " List_limit
           (ListOptions.OrderBy opts) (ListOptions.SortDir opts).

End transactionRepository.

(** ** The charger repository (db/charger_repository.go) *)

Module chargerRepository.

Import Charger.

Definition GetByID (ex : Executor) (id : string) : result t * Executor :=
  match QueryRowContext ex (fun d =>
          filter (fun c => ID c =? id)%string (chargers d)) with
  | (Err ErrNoRows, ex') => (Err (Errorf "charger not found: %s"), ex')
  | (Err e, ex') => (Err (Wrapf "failed to get charger: %w" e), ex')
  | (Ok charger, ex') => (Ok charger, ex')
  end.

(** One entry of [setParts] together with its entry of [args];
    [is_connected] carries the integer 0 or 1 the code binds. *)
Inductive setPart : Type :=
| name (v : string)
| vendor (v : string)
| model (v : string)
| serial_number (v : string)
| firmware_version (v : string)
| iccid (v : string)
| imsi (v : string)
| status (v : string)
| is_connected (v : Z)
| updated_at_CURRENT_TIMESTAMP.

Definition assign (current_timestamp : Time) (c : t) (p : setPart) : t :=
  match p with
  | name v =>
      mk (ID c) v (Vendor c) (Model c) (SerialNumber c) (FirmwareVersion c)
         (ICCID c) (IMSI c) (Status c) (IsConnected c) (LastHeartbeatAt c)
         (LastBootAt c) (LastConnectAt c) (LastTxStartAt c) (LastTxStopAt c)
         (CreatedAt c) (UpdatedAt c)
  | vendor v =>
      mk (ID c) (Name c) v (Model c) (SerialNumber c) (FirmwareVersion c)
         (ICCID c) (IMSI c) (Status c) (IsConnected c) (LastHeartbeatAt c)
         (LastBootAt c) (LastConnectAt c) (LastTxStartAt c) (LastTxStopAt c)
         (CreatedAt c) (UpdatedAt c)
  | model v =>
      mk (ID c) (Name c) (Vendor c) v (SerialNumber c) (FirmwareVersion c)
         (ICCID c) (IMSI c) (Status c) (IsConnected c) (LastHeartbeatAt c)
         (LastBootAt c) (LastConnectAt c) (LastTxStartAt c) (LastTxStopAt c)
         (CreatedAt c) (UpdatedAt c)
  | serial_number v =>
      mk (ID c) (Name c) (Vendor c) (Model c) v (FirmwareVersion c)
         (ICCID c) (IMSI c) (Status c) (IsConnected c) (LastHeartbeatAt c)
         (LastBootAt c) (LastConnectAt c) (LastTxStartAt c) (LastTxStopAt c)
         (CreatedAt c) (UpdatedAt c)
  | firmware_version v =>
      mk (ID c) (Name c) (Vendor c) (Model c) (SerialNumber c) v
         (ICCID c) (IMSI c) (Status c) (IsConnected c) (LastHeartbeatAt c)
         (LastBootAt c) (LastConnectAt c) (LastTxStartAt c) (LastTxStopAt c)
         (CreatedAt c) (UpdatedAt c)
  | iccid v =>
      mk (ID c) (Name c) (Vendor c) (Model c) (SerialNumber c) (FirmwareVersion c)
         v (IMSI c) (Status c) (IsConnected c) (LastHeartbeatAt c)
         (LastBootAt c) (LastConnectAt c) (LastTxStartAt c) (LastTxStopAt c)
         (CreatedAt c) (UpdatedAt c)
  | imsi v =>
      mk (ID c) (Name c) (Vendor c) (Model c) (SerialNumber c) (FirmwareVersion c)
         (ICCID c) v (Status c) (IsConnected c) (LastHeartbeatAt c)
         (LastBootAt c) (LastConnectAt c) (LastTxStartAt c) (LastTxStopAt c)
         (CreatedAt c) (UpdatedAt c)
  | status v =>
      mk (ID c) (Name c) (Vendor c) (Model c) (SerialNumber c) (FirmwareVersion c)
         (ICCID c) (IMSI c) v (IsConnected c) (LastHeartbeatAt c)
         (LastBootAt c) (LastConnectAt c) (LastTxStartAt c) (LastTxStopAt c)
         (CreatedAt c) (UpdatedAt c)
  | is_connected v =>
      mk (ID c) (Name c) (Vendor c) (Model c) (SerialNumber c) (FirmwareVersion c)
         (ICCID c) (IMSI c) (Status c) (negb (v =? 0)) (LastHeartbeatAt c)
         (LastBootAt c) (LastConnectAt c) (LastTxStartAt c) (LastTxStopAt c)
         (CreatedAt c) (UpdatedAt c)
  | updated_at_CURRENT_TIMESTAMP =>
      mk (ID c) (Name c) (Vendor c) (Model c) (SerialNumber c) (FirmwareVersion c)
         (ICCID c) (IMSI c) (Status c) (IsConnected c) (LastHeartbeatAt c)
         (LastBootAt c) (LastConnectAt c) (LastTxStartAt c) (LastTxStopAt c)
         (CreatedAt c) current_timestamp
  end.

Definition append_if {A} (setParts : list setPart) (field : option A)
    (part : A -> setPart) : list setPart :=
  match field with
  | Some v => (setParts ++ [part v])%list
  | None => setParts
  end.

(** [connected := 0; if *req.IsConnected { connected = 1 }] *)
Definition connected (b : bool) : Z := if b then 1 else 0.

(** [UPDATE chargers SET setParts WHERE id = ? RETURNING ...] *)
Definition update_returning (current_timestamp : Time)
    (setParts : list setPart) (id : string) (d : DB) : result (DB * list t) :=
  let set := fun c => fold_left (assign current_timestamp) setParts c in
  let hit := fun c => (ID c =? id)%string in
  Ok (with_chargers d (update_where hit set (chargers d)),
      map set (filter hit (chargers d))).

(** The [setParts] of [Update] before the check of their number. *)
Definition Update_setParts (req : UpdateChargerRequest.t) : list setPart :=
  let setParts := [] in
  let setParts := append_if setParts (UpdateChargerRequest.Name req) name in
  let setParts := append_if setParts (UpdateChargerRequest.Vendor req) vendor in
  let setParts := append_if setParts (UpdateChargerRequest.Model req) model in
  let setParts := append_if setParts (UpdateChargerRequest.SerialNumber req) serial_number in
  let setParts := append_if setParts (UpdateChargerRequest.FirmwareVersion req) firmware_version in
  let setParts := append_if setParts (UpdateChargerRequest.ICCID req) iccid in
  let setParts := append_if setParts (UpdateChargerRequest.IMSI req) imsi in
  let setParts := append_if setParts (UpdateChargerRequest.Status req) status in
  let setParts := append_if setParts (UpdateChargerRequest.IsConnected req)
                            (fun b => is_connected (connected b)) in
  setParts.

Definition Update (current_timestamp : Time) (ex : Executor) (id : string)
    (req : UpdateChargerRequest.t) : result t * Executor :=
  let setParts := Update_setParts req in
  if (List.length setParts =? 0)%nat then GetByID ex id
  else
    let setParts := (setParts ++ [updated_at_CURRENT_TIMESTAMP])%list in
    match QueryRowContext_returning ex
            (update_returning current_timestamp setParts id) with
    | (Err ErrNoRows, ex') => (Err (Errorf "charger not found: %s"), ex')
    | (Err e, ex') => (Err (Wrapf "failed to update charger: %w" e), ex')
    | (Ok charger, ex') => (Ok charger, ex')
    end.

(** The INSERT of [Create]: [id TEXT PRIMARY KEY] refuses a second row
    with the same id. *)
Definition insert_charger (current_timestamp : Time)
    (req : CreateChargerRequest.t) (d : DB) : result (DB * list t) :=
  if existsb (fun c => ID c =? CreateChargerRequest.ID req)%string (chargers d)
  then Err (ErrConstraint "UNIQUE constraint failed: chargers.id")
  else
    let charger :=
      mk (CreateChargerRequest.ID req) (CreateChargerRequest.Name req)
         (CreateChargerRequest.Vendor req) (CreateChargerRequest.Model req)
         (CreateChargerRequest.SerialNumber req)
         (CreateChargerRequest.FirmwareVersion req)
         (CreateChargerRequest.ICCID req) (CreateChargerRequest.IMSI req)
         "Unknown" false None None None None None
         current_timestamp current_timestamp in
    Ok (with_chargers d (chargers d ++ [charger])%list, [charger]).

Definition Create (current_timestamp : Time) (ex : Executor)
    (req : CreateChargerRequest.t) : result t * Executor :=
  match QueryRowContext_returning ex (insert_charger current_timestamp req) with
  | (Err e, ex') => (Err (Wrapf "failed to create charger: %w" e), ex')
  | (Ok charger, ex') => (Ok charger, ex')
  end.

(** [DELETE FROM chargers WHERE id = ?] with the cascades of the schema:
    the connectors, transactions, meter values and errors of the charger,
    and the meter values of its transactions. *)
Definition delete_where_id (id : string) (s : Store) : Store * Z :=
  let d := core s in
  let hit := fun c => (ID c =? id)%string in
  let deleting := existsb hit (chargers d) in
  let own_tx := fun tx =>
    deleting && (Transaction.ChargerID tx =? id)%string in
  let own_mv := fun mv =>
    deleting
    && ((MeterValue.ChargerID mv =? id)%string
        || existsb (fun tx => own_tx tx
                              && option_eqb Z.eqb (MeterValue.TransactionID mv)
                                            (Some (Transaction.ID tx)))
                   (transactions d)) in
  let own_error := fun e =>
    deleting && (ChargerError.ChargerID e =? id)%string in
  let own_connector := fun c =>
    deleting && (ChargerConnector.ChargerID c =? id)%string in
  (mkStore
     (mkDB (filter (fun c => negb (hit c)) (chargers d))
           (filter (fun tx => negb (own_tx tx)) (transactions d))
           (transactions_seq d)
           (filter (fun mv => negb (own_mv mv)) (meter_values d))
           (filter (fun e => negb (own_error e)) (charger_errors d)))
     (filter (fun c => negb (own_connector c)) (charger_connectors s))
     (charger_connectors_seq s) (meter_values_seq s) (charger_errors_seq s),
   count_rows hit (chargers d)).

Definition Delete (sx : StoreExecutor) (id : string)
  : result unit * StoreExecutor :=
  match Store_ExecContext sx (delete_where_id id) with
  | (Err e, sx') => (Err (Wrapf "failed to delete charger: %w" e), sx')
  | (Ok rowsAffected, sx') =>
      if rowsAffected =? 0
      then (Err (Errorf "charger not found: %s"), sx')
      else (Ok tt, sx')
  end.

Definition Count (ex : Executor) : result Z * Executor :=
  match QueryRowContext ex (fun d => [count_rows (fun _ => true) (chargers d)]) with
  | (Err e, ex') => (Err (Wrapf "failed to count chargers: %w" e), ex')
  | (Ok count, ex') => (Ok count, ex')
  end.

(** [UPDATE chargers SET ... WHERE id = ?] through [ExecContext], with the
    check of the rows affected; [format] is the text of the wrapped error. *)
Definition exec_update (ex : Executor) (id : string) (set : t -> t)
    (format : string) : result unit * Executor :=
  match ExecContext ex (fun d =>
          (with_chargers d (update_where (fun c => ID c =? id)%string set
                                         (chargers d)),
           count_rows (fun c => ID c =? id)%string (chargers d))) with
  | (Err e, ex') => (Err (Wrapf format e), ex')
  | (Ok rowsAffected, ex') =>
      if rowsAffected =? 0
      then (Err (Errorf "charger not found: %s"), ex')
      else (Ok tt, ex')
  end.

Definition with_timestamps (c : t)
    (heartbeat boot connect txStart txStop : option Time) (updated : Time) : t :=
  mk (ID c) (Name c) (Vendor c) (Model c) (SerialNumber c) (FirmwareVersion c)
     (ICCID c) (IMSI c) (Status c) (IsConnected c)
     heartbeat boot connect txStart txStop (CreatedAt c) updated.

(** [SET is_connected = ?, last_connect_at = CURRENT_TIMESTAMP,
     updated_at = CURRENT_TIMESTAMP] *)
Definition UpdateConnectionStatus (current_timestamp : Time) (ex : Executor)
    (id : string) (isConnected : bool) : result unit * Executor :=
  let connectedVal := connected isConnected in
  exec_update ex id
    (fun c =>
       mk (ID c) (Name c) (Vendor c) (Model c) (SerialNumber c)
          (FirmwareVersion c) (ICCID c) (IMSI c) (Status c)
          (negb (connectedVal =? 0)) (LastHeartbeatAt c) (LastBootAt c)
          (Some current_timestamp) (LastTxStartAt c) (LastTxStopAt c)
          (CreatedAt c) current_timestamp)
    "failed to update connection status: %w".

(** [SET status = ?, updated_at = CURRENT_TIMESTAMP] *)
Definition UpdateStatus (current_timestamp : Time) (ex : Executor)
    (id : string) (status : string) : result unit * Executor :=
  exec_update ex id
    (fun c =>
       mk (ID c) (Name c) (Vendor c) (Model c) (SerialNumber c)
          (FirmwareVersion c) (ICCID c) (IMSI c) status
          (IsConnected c) (LastHeartbeatAt c) (LastBootAt c)
          (LastConnectAt c) (LastTxStartAt c) (LastTxStopAt c)
          (CreatedAt c) current_timestamp)
    "failed to update status: %w".

Definition UpdateLastHeartbeat (current_timestamp : Time) (ex : Executor)
    (id : string) (timestamp : Time) : result unit * Executor :=
  exec_update ex id
    (fun c => with_timestamps c (Some timestamp) (LastBootAt c)
                (LastConnectAt c) (LastTxStartAt c) (LastTxStopAt c)
                current_timestamp)
    "failed to update last heartbeat: %w".

Definition UpdateLastBoot (current_timestamp : Time) (ex : Executor)
    (id : string) (timestamp : Time) : result unit * Executor :=
  exec_update ex id
    (fun c => with_timestamps c (LastHeartbeatAt c) (Some timestamp)
                (LastConnectAt c) (LastTxStartAt c) (LastTxStopAt c)
                current_timestamp)
    "failed to update last boot: %w".

Definition UpdateLastConnect (current_timestamp : Time) (ex : Executor)
    (id : string) (timestamp : Time) : result unit * Executor :=
  exec_update ex id
    (fun c => with_timestamps c (LastHeartbeatAt c) (LastBootAt c)
                (Some timestamp) (LastTxStartAt c) (LastTxStopAt c)
                current_timestamp)
    "failed to update last connect: %w".

Definition UpdateLastTxStart (current_timestamp : Time) (ex : Executor)
    (id : string) (timestamp : Time) : result unit * Executor :=
  exec_update ex id
    (fun c => with_timestamps c (LastHeartbeatAt c) (LastBootAt c)
                (LastConnectAt c) (Some timestamp) (LastTxStopAt c)
                current_timestamp)
    "failed to update last tx start: %w".

Definition UpdateLastTxStop (current_timestamp : Time) (ex : Executor)
    (id : string) (timestamp : Time) : result unit * Executor :=
  exec_update ex id
    (fun c => with_timestamps c (LastHeartbeatAt c) (LastBootAt c)
                (LastConnectAt c) (LastTxStartAt c) (Some timestamp)
                current_timestamp)
    "failed to update last tx stop: %w".

Definition validOrderFields : list (string * bool) :=
  [("id", true); ("name", true); ("vendor", true); ("model", true);
   ("status", true); ("is_connected", true); ("created_at", true);
   ("updated_at", true); ("last_heartbeat_at", true); ("last_boot_at", true);
   ("last_connect_at", true)].

Definition List_select : string :=
  "SELECT id, name, vendor, model, serial_number, firmware_version, iccid, imsi, status, is_connected, last_heartbeat_at, last_boot_at, last_connect_at, last_tx_start_at, last_tx_stop_at, created_at, updated_at FROM chargers ORDER BY ".

Definition List_opts (opts : ListOptions.t) : ListOptions.t :=
  let opts := ListOptions.ValidateSortDirection opts in
  if negb (map_index validOrderFields (ListOptions.OrderBy opts))
  then ListOptions.mk (ListOptions.Limit opts) (ListOptions.Offset opts)
                      "created_at" (ListOptions.SortDir opts)
  else opts.

Definition List_query (opts : ListOptions.t) : string :=
  let opts := List_opts opts in
  Sprintf2 List_select " " transactionRepository.List_limit
           (ListOptions.OrderBy opts) (ListOptions.SortDir opts).

End chargerRepository.

(** ** The meter value repository (db/other_repositories.go) *)

Module meterValueRepository.

Import MeterValue.

Definition on_connector (chargerID : string) (connectorID : Z) (mv : t) : bool :=
  (ChargerID mv =? chargerID)%string && (ConnectorID mv =? connectorID).

(** [ORDER BY timestamp DESC LIMIT 1].  The store orders the texts the
    driver wrote for the timestamps, each in the zone of its own time; the
    order of the instants taken here is that order when the meter values of
    the connector carry one zone offset, and on no row or a single row every
    order gives the same answer. *)
Definition GetLatestByConnector (ex : Executor) (chargerID : string)
    (connectorID : Z) : result (option t) * Executor :=
  match QueryRowContext ex (fun d =>
          order_desc_limit1 Timestamp
            (filter (on_connector chargerID connectorID) (meter_values d))) with
  | (Err ErrNoRows, ex') => (Ok None, ex')
  | (Err e, ex') => (Err (Wrapf "failed to get latest meter value: %w" e), ex')
  | (Ok mv, ex') => (Ok (Some mv), ex')
  end.

(** A [float64] that is not a number; the store takes it as NULL. *)
Definition is_nan (v : spec_float) : bool :=
  match v with
  | S754_nan => true
  | _ => false
  end.

(** The INSERT of [Create], under [value REAL NOT NULL], which a value
    that is not a number violates, and under the two foreign keys of
    [meter_values]: the charger must exist, and so must the transaction
    when one is given.  NOT NULL is checked when the row is written, the
    foreign keys when the statement ends. *)
Definition insert_meter_value (current_timestamp : Time)
    (req : CreateMeterValueRequest.t) (s : Store) : result (Store * list t) :=
  let d := core s in
  let transaction_known :=
    match CreateMeterValueRequest.TransactionID req with
    | None => true
    | Some id => existsb (fun tx => Transaction.ID tx =? id) (transactions d)
    end in
  if is_nan (CreateMeterValueRequest.Value req)
  then Err (ErrConstraint "NOT NULL constraint failed: meter_values.value")
  else if negb (existsb (fun c => Charger.ID c =? CreateMeterValueRequest.ChargerID req)%string
                        (chargers d))
          || negb transaction_known
  then Err (ErrConstraint "FOREIGN KEY constraint failed")
  else
    let mv :=
      mk (Z.max (meter_values_seq s) (max_id ID (meter_values d)) + 1)
         (CreateMeterValueRequest.TransactionID req)
         (CreateMeterValueRequest.ChargerID req)
         (CreateMeterValueRequest.ConnectorID req)
         (CreateMeterValueRequest.Timestamp req)
         (CreateMeterValueRequest.Measurand req)
         (CreateMeterValueRequest.Value req)
         (CreateMeterValueRequest.Unit req)
         (CreateMeterValueRequest.Context req)
         (CreateMeterValueRequest.Location req)
         (CreateMeterValueRequest.Phase req)
         (CreateMeterValueRequest.Format req)
         current_timestamp in
    Ok (mkStore
          (mkDB (chargers d) (transactions d) (transactions_seq d)
                (meter_values d ++ [mv])%list (charger_errors d))
          (charger_connectors s) (charger_connectors_seq s) (ID mv)
          (charger_errors_seq s),
        [mv]).

Definition Create (current_timestamp : Time) (sx : StoreExecutor)
    (req : CreateMeterValueRequest.t) : result t * StoreExecutor :=
  match Store_QueryRowContext_returning sx
          (insert_meter_value current_timestamp req) with
  | (Err e, sx') => (Err (Wrapf "failed to create meter value: %w" e), sx')
  | (Ok mv, sx') => (Ok mv, sx')
  end.

Definition GetByID (ex : Executor) (id : Z) : result t * Executor :=
  match QueryRowContext ex (fun d =>
          filter (fun mv => ID mv =? id) (meter_values d)) with
  | (Err ErrNoRows, ex') => (Err (Errorf "meter value not found: %d"), ex')
  | (Err e, ex') => (Err (Wrapf "failed to get meter value: %w" e), ex')
  | (Ok mv, ex') => (Ok mv, ex')
  end.

(** [DELETE FROM meter_values WHERE created_at < ?]; [created_at] is
    only ever written by [CURRENT_TIMESTAMP]. *)
Definition DeleteOlderThan (ex : Executor) (cutoff : BoundTime)
  : result Z * Executor :=
  match ExecContext ex (fun d =>
          (mkDB (chargers d) (transactions d) (transactions_seq d)
                (filter (fun mv => negb (current_timestamp_before (CreatedAt mv) cutoff))
                        (meter_values d))
                (charger_errors d),
           count_rows (fun mv => current_timestamp_before (CreatedAt mv) cutoff)
                      (meter_values d))) with
  | (Err e, ex') => (Err (Wrapf "failed to delete old meter values: %w" e), ex')
  | (Ok rowsAffected, ex') => (Ok rowsAffected, ex')
  end.

Definition Count (ex : Executor) : result Z * Executor :=
  match QueryRowContext ex (fun d =>
          [count_rows (fun _ => true) (meter_values d)]) with
  | (Err e, ex') => (Err (Wrapf "failed to count meter values: %w" e), ex')
  | (Ok count, ex') => (Ok count, ex')
  end.

End meterValueRepository.

(** ** The charger error repository (db/other_repositories.go) *)

Module chargerErrorRepository.

Import ChargerError.

Definition resolved (resolvedAt : Time) (e : t) : t :=
  mk (ID e) (ChargerID e) (ConnectorID e) (ErrorCode e) (VendorErrorCode e)
     (ErrorDescription e) (VendorErrorInfo e) (Timestamp e) (Some resolvedAt)
     (CreatedAt e).

Definition is_null {A} (v : option A) : bool :=
  match v with None => true | Some _ => false end.

(** [UPDATE charger_errors SET resolved_at = ? WHERE id = ?] *)
Definition Resolve (ex : Executor) (id : Z) (resolvedAt : Time)
  : result unit * Executor :=
  match ExecContext ex (fun d =>
          (with_charger_errors d
             (update_where (fun e => ID e =? id) (resolved resolvedAt)
                           (charger_errors d)),
           count_rows (fun e => ID e =? id) (charger_errors d))) with
  | (Err e, ex') => (Err (Wrapf "failed to resolve charger error: %w" e), ex')
  | (Ok rowsAffected, ex') =>
      if rowsAffected =? 0
      then (Err (Errorf "charger error not found: %d"), ex')
      else (Ok tt, ex')
  end.

Definition unresolved_with_code (chargerID errorCode : string) (e : t) : bool :=
  (ChargerID e =? chargerID)%string && (ErrorCode e =? errorCode)%string
  && is_null (ResolvedAt e).

(** [UPDATE charger_errors SET resolved_at = ?
     WHERE charger_id = ? AND error_code = ? AND resolved_at IS NULL] *)
Definition ResolveByErrorCode (ex : Executor) (chargerID errorCode : string)
    (resolvedAt : Time) : result Z * Executor :=
  match ExecContext ex (fun d =>
          (with_charger_errors d
             (update_where (unresolved_with_code chargerID errorCode)
                           (resolved resolvedAt) (charger_errors d)),
           count_rows (unresolved_with_code chargerID errorCode)
                      (charger_errors d))) with
  | (Err e, ex') =>
      (Err (Wrapf "failed to resolve charger errors by error code: %w" e), ex')
  | (Ok rowsAffected, ex') => (Ok rowsAffected, ex')
  end.

(** The INSERT of [Create], under the foreign key on [charger_id]. *)
Definition insert_charger_error (current_timestamp timestamp : Time)
    (req : CreateChargerErrorRequest.t) (s : Store) : result (Store * list t) :=
  let d := core s in
  if negb (existsb (fun c => Charger.ID c =? CreateChargerErrorRequest.ChargerID req)%string
                   (chargers d))
  then Err (ErrConstraint "FOREIGN KEY constraint failed")
  else
    let e :=
      mk (Z.max (charger_errors_seq s) (max_id ID (charger_errors d)) + 1)
         (CreateChargerErrorRequest.ChargerID req)
         (CreateChargerErrorRequest.ConnectorID req)
         (CreateChargerErrorRequest.ErrorCode req)
         (CreateChargerErrorRequest.VendorErrorCode req)
         (CreateChargerErrorRequest.ErrorDescription req)
         (CreateChargerErrorRequest.VendorErrorInfo req)
         timestamp None current_timestamp in
    Ok (mkStore
          (with_charger_errors d (charger_errors d ++ [e])%list)
          (charger_connectors s) (charger_connectors_seq s)
          (meter_values_seq s) (ID e),
        [e]).

(** [time_Now] is [time.Now()], [current_timestamp] the clock of the store. *)
Definition Create (time_Now current_timestamp : Time) (sx : StoreExecutor)
    (req : CreateChargerErrorRequest.t) : result t * StoreExecutor :=
  let timestamp := CreateChargerErrorRequest.Timestamp req in
  let timestamp := if Time_IsZero timestamp then time_Now else timestamp in
  match Store_QueryRowContext_returning sx
          (insert_charger_error current_timestamp timestamp req) with
  | (Err e, sx') => (Err (Wrapf "failed to create charger error: %w" e), sx')
  | (Ok err, sx') => (Ok err, sx')
  end.

Definition GetByID (ex : Executor) (id : Z) : result t * Executor :=
  match QueryRowContext ex (fun d =>
          filter (fun e => ID e =? id) (charger_errors d)) with
  | (Err ErrNoRows, ex') => (Err (Errorf "charger error not found: %d"), ex')
  | (Err e, ex') => (Err (Wrapf "failed to get charger error: %w" e), ex')
  | (Ok err, ex') => (Ok err, ex')
  end.

Definition unresolved (e : t) : bool := is_null (ResolvedAt e).

Definition Count (ex : Executor) : result Z * Executor :=
  match QueryRowContext ex (fun d =>
          [count_rows (fun _ => true) (charger_errors d)]) with
  | (Err e, ex') => (Err (Wrapf "failed to count charger errors: %w" e), ex')
  | (Ok count, ex') => (Ok count, ex')
  end.

Definition CountActive (ex : Executor) : result Z * Executor :=
  match QueryRowContext ex (fun d =>
          [count_rows unresolved (charger_errors d)]) with
  | (Err e, ex') => (Err (Wrapf "failed to count active charger errors: %w" e), ex')
  | (Ok count, ex') => (Ok count, ex')
  end.

End chargerErrorRepository.

(** ** The connector repository (db/other_repositories.go) *)

Module chargerConnectorRepository.

Import ChargerConnector.

Definition is_connector (chargerID : string) (connectorID : Z) (c : t) : bool :=
  (ChargerID c =? chargerID)%string && (ConnectorID c =? connectorID).

(** The INSERT of [Create], under the foreign key on [charger_id] and
    [UNIQUE(charger_id, connector_id)]. *)
Definition insert_connector (current_timestamp : Time) (chargerID : string)
    (connectorID : Z) (s : Store) : result (Store * list t) :=
  if negb (existsb (fun c => Charger.ID c =? chargerID)%string (chargers (core s)))
  then Err (ErrConstraint "FOREIGN KEY constraint failed")
  else if existsb (is_connector chargerID connectorID) (charger_connectors s)
  then Err (ErrConstraint
              "UNIQUE constraint failed: charger_connectors.charger_id, charger_connectors.connector_id")
  else
    let conn :=
      mk (Z.max (charger_connectors_seq s) (max_id ID (charger_connectors s)) + 1)
         chargerID connectorID "Available" "" ""
         current_timestamp current_timestamp in
    Ok (mkStore (core s) (charger_connectors s ++ [conn])%list (ID conn)
                (meter_values_seq s) (charger_errors_seq s),
        [conn]).

Definition Create (current_timestamp : Time) (sx : StoreExecutor)
    (chargerID : string) (connectorID : Z) : result t * StoreExecutor :=
  match Store_QueryRowContext_returning sx
          (insert_connector current_timestamp chargerID connectorID) with
  | (Err e, sx') => (Err (Wrapf "failed to create connector: %w" e), sx')
  | (Ok conn, sx') => (Ok conn, sx')
  end.

Definition GetByChargerAndConnector (sx : StoreExecutor) (chargerID : string)
    (connectorID : Z) : result t * StoreExecutor :=
  match Store_QueryRowContext sx (fun s =>
          filter (is_connector chargerID connectorID) (charger_connectors s)) with
  | (Err ErrNoRows, sx') => (Err (Errorf "connector not found: %s/%d"), sx')
  | (Err e, sx') => (Err (Wrapf "failed to get connector: %w" e), sx')
  | (Ok conn, sx') => (Ok conn, sx')
  end.

Definition with_connectors (s : Store) (cs : list t) : Store :=
  mkStore (core s) cs (charger_connectors_seq s) (meter_values_seq s)
          (charger_errors_seq s).

(** [UPDATE charger_connectors SET ... WHERE charger_id = ? AND
     connector_id = ?] with the check of the rows affected. *)
Definition exec_update (sx : StoreExecutor) (chargerID : string)
    (connectorID : Z) (set : t -> t) (format : string)
  : result unit * StoreExecutor :=
  match Store_ExecContext sx (fun s =>
          (with_connectors s
             (update_where (is_connector chargerID connectorID) set
                           (charger_connectors s)),
           count_rows (is_connector chargerID connectorID)
                      (charger_connectors s))) with
  | (Err e, sx') => (Err (Wrapf format e), sx')
  | (Ok rowsAffected, sx') =>
      if rowsAffected =? 0
      then (Err (Errorf "connector not found: %s/%d"), sx')
      else (Ok tt, sx')
  end.

Definition UpdateStatus (current_timestamp : Time) (sx : StoreExecutor)
    (chargerID : string) (connectorID : Z) (status : string)
  : result unit * StoreExecutor :=
  exec_update sx chargerID connectorID
    (fun c => mk (ID c) (ChargerID c) (ConnectorID c) status (ErrorCode c)
                 (VendorErrorCode c) (CreatedAt c) current_timestamp)
    "failed to update connector status: %w".

Definition UpdateError (current_timestamp : Time) (sx : StoreExecutor)
    (chargerID : string) (connectorID : Z) (errorCode vendorErrorCode : string)
  : result unit * StoreExecutor :=
  exec_update sx chargerID connectorID
    (fun c => mk (ID c) (ChargerID c) (ConnectorID c) (Status c) errorCode
                 vendorErrorCode (CreatedAt c) current_timestamp)
    "failed to update connector error: %w".

Definition ClearError (current_timestamp : Time) (sx : StoreExecutor)
    (chargerID : string) (connectorID : Z) : result unit * StoreExecutor :=
  UpdateError current_timestamp sx chargerID connectorID "" "".

(** [DELETE FROM charger_connectors WHERE charger_id = ?]; the error of
    [ExecContext] is returned as it is and the rows affected are not read. *)
Definition DeleteByChargerID (sx : StoreExecutor) (chargerID : string)
  : result unit * StoreExecutor :=
  match Store_ExecContext sx (fun s =>
          (with_connectors s
             (filter (fun c => negb (ChargerID c =? chargerID)%string)
                     (charger_connectors s)),
           count_rows (fun c => (ChargerID c =? chargerID)%string)
                      (charger_connectors s))) with
  | (Err e, sx') => (Err e, sx')
  | (Ok _, sx') => (Ok tt, sx')
  end.

End chargerConnectorRepository.

(** ** The migration engine

    Modelled from the spec: the engine behind [m.Version], [m.Force],
    [m.Up], [m.Down] and [m.Migrate] is the golang-migrate library, which
    the repository imports and does not contain.  It is modelled from
    section 4.1 of the spec (a stored version with a dirty marker, scripts
    applied in order, the marker left set by a failing script, [Force]
    overwriting the version and clearing the marker) and from the calls
    the code makes.  A script is abstracted to whether it succeeds; the
    effect of its SQL on the tables is not modelled. *)

Module migrate.

(** [database.NilVersion]: nothing applied yet. *)
Definition NilVersion : Z := -1.

(** One entry of the migration source: its version and whether its up
    and down scripts run through. *)
Record Migration : Type := mkMigration {
  migration_version : Z;
  up_ok : bool;
  down_ok : bool
}.

(** The source, in ascending order of version. *)
Definition Source := list Migration.

(** The stored state: the [schema_migrations] row. *)
Record Schema : Type := mkSchema {
  version : Z;
  dirty : bool
}.

Definition versionExists (src : Source) (v : Z) : bool :=
  existsb (fun m => migration_version m =? v) src.

(** The greatest version of the source below [v], or [NilVersion]. *)
Fixpoint Prev (src : Source) (v : Z) : Z :=
  match src with
  | [] => NilVersion
  | m :: rest =>
      if migration_version m <? v then Z.max (migration_version m) (Prev rest v) else Prev rest v
  end.

(** [m.Version()]: version, dirty, err. *)
Definition Version (s : Schema) : Z * bool * option error :=
  if version s =? NilVersion then (0, false, Some ErrNilVersion)
  else (version s, dirty s, None).

(** [m.Force(version)] *)
Definition Force (v : Z) (s : Schema) : option error * Schema :=
  if v <? -1 then (Some ErrInvalidVersion, s)
  else (None, mkSchema v false).

(** One step of a plan: the version the step leads to and whether its
    script succeeds.  The engine marks the target version dirty, runs the
    script, and clears the marker only after the script succeeded. *)
Fixpoint runMigrations (plan : list (Z * bool)) (s : Schema)
  : option error * Schema :=
  match plan with
  | [] => (None, s)
  | (target, ok) :: rest =>
      if ok then runMigrations rest (mkSchema target false)
      else (Some (ErrMigration target), mkSchema target true)
  end.

Definition up_plan (src : Source) (from to : Z) : list (Z * bool) :=
  map (fun m => (migration_version m, up_ok m))
      (filter (fun m => (from <? migration_version m) && (migration_version m <=? to)) src).

Definition up_all (src : Source) (from : Z) : list (Z * bool) :=
  map (fun m => (migration_version m, up_ok m))
      (filter (fun m => from <? migration_version m) src).

Definition down_plan (src : Source) (from to : Z) : list (Z * bool) :=
  map (fun m => (Prev src (migration_version m), down_ok m))
      (rev (filter (fun m => (to <? migration_version m) && (migration_version m <=? from)) src)).

Definition known (src : Source) (v : Z) : bool :=
  (v <? 0) || versionExists src v.

(** [m.Up()] *)
Definition Up (src : Source) (s : Schema) : option error * Schema :=
  if dirty s then (Some (ErrDirty (version s)), s)
  else if negb (known src (version s)) then (Some ErrNotExist, s)
  else match up_all src (version s) with
       | [] => if version s =? NilVersion then (Some ErrNotExist, s)
               else (Some ErrNoChange, s)
       | plan => runMigrations plan s
       end.

(** [m.Down()] *)
Definition Down (src : Source) (s : Schema) : option error * Schema :=
  if dirty s then (Some (ErrDirty (version s)), s)
  else if negb (known src (version s)) then (Some ErrNotExist, s)
  else if version s =? NilVersion then (Some ErrNoChange, s)
  else runMigrations (down_plan src (version s) NilVersion) s.

(** [m.Migrate(version)] *)
Definition Migrate (src : Source) (to : Z) (s : Schema)
  : option error * Schema :=
  if dirty s then (Some (ErrDirty (version s)), s)
  else if negb (known src (version s)) then (Some ErrNotExist, s)
  else if negb (known src to) then (Some ErrNotExist, s)
  else if version s =? to then (Some ErrNoChange, s)
  else if version s <? to then runMigrations (up_plan src (version s) to) s
  else runMigrations (down_plan src (version s) to) s.

End migrate.

(** ** Migration entry points (db/database.go)

    Each entry point first opens the sqlite3 driver and the engine on the
    migration directory; both are taken to succeed, so that a function
    starts at its first call of the engine. *)

Module Database.

Record MigrationResult : Type := mkMigrationResult {
  FromVersion : Z;
  ToVersion : Z;
  Applied : bool;
  Error : option error
}.

Definition error_eqb (err : option error) (e : error) : bool :=
  match err, e with
  | Some ErrNilVersion, ErrNilVersion => true
  | Some ErrNoChange, ErrNoChange => true
  | _, _ => false
  end.

Definition is_nil (err : option error) : bool :=
  match err with None => true | Some _ => false end.

(** [if err != nil && err != sentinel]: the error the branch reports. *)
Definition unless (sentinel : error) (err : option error) : option error :=
  if negb (is_nil err) && negb (error_eqb err sentinel) then err else None.

(** [RunMigrationsWithCallback]: the error returned, the stored state
    afterwards and the results handed to the callback. *)
Definition RunMigrationsWithCallback (src : migrate.Source) (s : migrate.Schema)
  : result unit * migrate.Schema * list MigrationResult :=
  let '(currentVersion, dirty, err) := migrate.Version s in
  match unless ErrNilVersion err with
  | Some e => (Err (Wrapf "failed to get current migration version: %w" e), s, [])
  | None =>
      let (forced, s1) :=
        if dirty then migrate.Force currentVersion s else (None, s) in
      match forced with
      | Some e => (Err (Wrapf "failed to force clean migration state: %w" e), s1, [])
      | None =>
          let currentVersion :=
            if error_eqb err ErrNilVersion then 0 else currentVersion in
          let (err, s2) := migrate.Up src s1 in
          match unless ErrNoChange err with
          | Some e =>
              (Err (Wrapf "failed to run migrations: %w" e), s2,
               [mkMigrationResult currentVersion currentVersion false (Some e)])
          | None =>
              let '(finalVersion, _, err) := migrate.Version s2 in
              match unless ErrNilVersion err with
              | Some e =>
                  (Err (Wrapf "failed to get final migration version: %w" e), s2, [])
              | None =>
                  let finalVersion :=
                    if error_eqb err ErrNilVersion then 0 else finalVersion in
                  (Ok tt, s2,
                   [mkMigrationResult currentVersion finalVersion
                      (negb (error_eqb err ErrNoChange)) None])
              end
          end
      end
  end.

(** [RunMigrations] is [RunMigrationsWithCallback(nil)]. *)
Definition RunMigrations (src : migrate.Source) (s : migrate.Schema)
  : result unit * migrate.Schema :=
  fst (RunMigrationsWithCallback src s).

Definition MigrateDown (src : migrate.Source) (steps : Z) (s : migrate.Schema)
  : result unit * migrate.Schema :=
  let '(currentVersion, dirty, err) := migrate.Version s in
  match err with
  | Some ErrNilVersion => (Ok tt, s)
  | Some e => (Err (Wrapf "failed to get current migration version: %w" e), s)
  | None =>
      if dirty
      then (Err (Errorf "database is in dirty state, cannot rollback safely"), s)
      else
        let targetVersion := GoInt.sub currentVersion steps in
        let targetVersion := if targetVersion <? 0 then 0 else targetVersion in
        let (err, s') :=
          if targetVersion =? 0 then migrate.Down src s
          else migrate.Migrate src targetVersion s in
        match unless ErrNoChange err with
        | Some e => (Err (Wrapf "failed to rollback migrations: %w" e), s')
        | None => (Ok tt, s')
        end
  end.

Definition GetMigrationVersion (s : migrate.Schema) : result (Z * bool) :=
  let '(version, dirty, err) := migrate.Version s in
  match err with
  | Some ErrNilVersion => Ok (0, false)
  | Some e => Err (Wrapf "failed to get migration version: %w" e)
  | None => Ok (version, dirty)
  end.

Definition ForceMigrationVersion (version : Z) (s : migrate.Schema)
  : result unit * migrate.Schema :=
  match migrate.Force version s with
  | (Some e, s') => (Err (Wrapf "failed to force migration version: %w" e), s')
  | (None, s') => (Ok tt, s')
  end.

(** [config.DatabaseConfig], as far as [NewDatabase] sizes the pool. *)
Record DatabaseConfig : Type := mkDatabaseConfig {
  MaxOpenConns : Z;
  MaxIdleConns : Z
}.

(** The values [NewDatabase] hands to [SetMaxOpenConns] and
    [SetMaxIdleConns]. *)
Definition NewDatabase_pool (cfg : DatabaseConfig) : Z * Z :=
  let maxOpenConns := MaxOpenConns cfg in
  let maxOpenConns := if maxOpenConns <=? 0 then 25 else maxOpenConns in
  let maxIdleConns := MaxIdleConns cfg in
  let maxIdleConns := if maxIdleConns <=? 0 then 5 else maxIdleConns in
  let maxIdleConns :=
    if maxOpenConns <? maxIdleConns then maxOpenConns else maxIdleConns in
  (maxOpenConns, maxIdleConns).

End Database.

(** ** The migration commands of the command line (package main) *)

Module main.

(** An argument of a [Printf]. *)
Inductive arg : Type :=
| int (v : Z)
| str (s : string).

(** A line written to standard output: the format and its arguments. *)
Definition line : Type := (string * list arg)%type.

(** [main] hands over to [handleMigrationCommands] when a migration flag
    is set; the flags default to false, 0, -1, false. *)
Definition is_migration_command (migrateUp : bool) (migrateDown migrateForce : Z)
    (migrateStatus : bool) : bool :=
  migrateUp || (0 <? migrateDown) || (0 <=? migrateForce) || migrateStatus.

(** The callback [handleMigrationCommands] gives to
    [RunMigrationsWithCallback]: what it prints for one result (a failed
    result goes to the logger). *)
Definition up_callback (r : Database.MigrationResult) : list line :=
  match Database.Error r with
  | Some _ => []
  | None =>
      if Database.Applied r
      then [("Migration applied: %d -> %d",
             [int (Database.FromVersion r); int (Database.ToVersion r)])]
      else [("No new migrations to apply", [])]
  end.

(** [handleMigrationCommands]: the lines printed, the exit status (0 for a
    plain return, 1 for [os.Exit(1)]) and the stored state afterwards. *)
Definition handleMigrationCommands (src : migrate.Source) (up : bool)
    (down force : Z) (status : bool) (s : migrate.Schema)
  : list line * Z * migrate.Schema :=
  if status then
    match Database.GetMigrationVersion s with
    | Err _ => ([], 1, s)
    | Ok (version, dirty) =>
        if version =? 0 then ([("No migrations have been applied", [])], 0, s)
        else
          let dirtyStr :=
            if dirty then " (DIRTY - needs manual intervention)" else "" in
          ([("Current migration version: %d%s", [int version; str dirtyStr])], 0, s)
    end
  else if 0 <=? force then
    match Database.ForceMigrationVersion force s with
    | (Err _, s') => ([], 1, s')
    | (Ok _, s') =>
        ([("Successfully forced migration version to: %d", [int force])], 0, s')
    end
  else if 0 <? down then
    match Database.MigrateDown src down s with
    | (Err _, s') => ([], 1, s')
    | (Ok _, s') =>
        ([("Successfully rolled back %d migration steps", [int down])], 0, s')
    end
  else if up then
    match Database.RunMigrationsWithCallback src s with
    | (Err _, s', results) => (flat_map up_callback results, 1, s')
    | (Ok _, s', results) =>
        ((flat_map up_callback results
            ++ [("Migration completed successfully", [])])%list, 0, s')
    end
  else ([], 0, s).

End main.

(** ** Vocabulary of the statements *)

(** The next statement reaches the tables. *)
Definition reaches_tables (ex : Executor) : Prop := hd false (faults ex) = false.

(** The columns [List] lets a caller order transactions by. *)
Definition permitted_columns : list string :=
  ["id"; "transaction_id"; "charger_id"; "connector_id"; "id_tag";
   "start_time"; "stop_time"; "status"; "created_at"; "updated_at"].

Definition permitted_directions : list string := ["ASC"; "DESC"].

(** Every text [List] can send when column and direction come from the
    two fixed lists. *)
Definition permitted_queries : list string :=
  flat_map (fun column =>
    map (fun direction =>
           (transactionRepository.List_select ++ column ++ " " ++ direction
              ++ transactionRepository.List_limit)%string)
        permitted_directions)
    permitted_columns.

(** Number of Active transactions on a connector. *)
Definition active_count (d : DB) (chargerID : string) (connectorID : Z) : Z :=
  count_rows (transactionRepository.active_on chargerID connectorID)
             (transactions d).

Definition charger_known (d : DB) (chargerID : string) : bool :=
  existsb (fun c => Charger.ID c =? chargerID)%string (chargers d).

Definition transaction_id_used (d : DB) (ocppTxID : Z) : bool :=
  existsb (transactionRepository.has_transaction_id ocppTxID) (transactions d).

(** The executor once its next statement has run without changing the
    tables. *)
Definition after_statement (ex : Executor) : Executor := snd (next_statement ex).

(** The next [n] statements reach the tables. *)
Definition statements_reach_tables (n : nat) (ex : Executor) : Prop :=
  forall k, (k < n)%nat -> nth k (faults ex) false = false.

(** The row a key lookup finds. *)
Definition transaction_with_id (d : DB) (id : Z) : option Transaction.t :=
  find (fun tx => Transaction.ID tx =? id) (transactions d).

Definition charger_with_id (d : DB) (id : string) : option Charger.t :=
  find (fun c => Charger.ID c =? id)%string (chargers d).








(** Pass [k] of the loop of [GenerateTransactionID] does not deliver its
    candidate: the check fails at the driver or finds the candidate taken. *)
Definition attempt_fails (src : nat -> transactionRepository.Reading)
    (ex : Executor) (k : nat) : bool :=
  nth k (faults ex) false
  || negb (count_rows
             (transactionRepository.has_transaction_id
                (transactionRepository.candidateID (src k)))
             (transactions (db ex)) =? 0).

(** The source numbers its migrations k, k+1, k+2, ... without a gap; the
    repository numbers them from 001. *)
Fixpoint numbered_from (k : Z) (src : migrate.Source) : bool :=
  match src with
  | [] => true
  | m :: rest => (migrate.migration_version m =? k) && numbered_from (k + 1) rest
  end.

(** The stored version is nil or one the source has. *)
Definition version_in_source (src : migrate.Source) (s : migrate.Schema) : Prop :=
  migrate.version s = migrate.NilVersion
  \/ 1 <= migrate.version s <= Z.of_nat (List.length src).




(** A list in descending order of a key. *)
Definition descending {A} (key : A -> Z) (rows : list A) : Prop :=
  StronglySorted (fun earlier later => key later <= key earlier) rows.

(** The external ids in use; a transaction may have none. *)
Definition external_ids (d : DB) : list Z :=
  flat_map (fun tx => match Transaction.TransactionID tx with
                      | Some id => [id]
                      | None => []
                      end)
           (transactions d).

(** The keys the schema declares for [transactions]: the primary key [id]
    and the unique [transaction_id]. *)
Definition transaction_keys_unique (d : DB) : Prop :=
  NoDup (map Transaction.ID (transactions d)) /\ NoDup (external_ids d).

(** The executor of the whole schema once its next statement has run
    without changing the tables, and the statements that reach them. *)
Definition store_after_statement (sx : StoreExecutor) : StoreExecutor :=
  snd (store_next_statement sx).

Definition store_reaches_tables (sx : StoreExecutor) : Prop :=
  hd false (store_faults sx) = false.

(** No row of any table belongs to the charger. *)
Definition charger_absent (s : Store) (id : string) : Prop :=
  (forall c, In c (chargers (core s)) -> Charger.ID c <> id)
  /\ (forall c, In c (charger_connectors s) -> ChargerConnector.ChargerID c <> id)
  /\ (forall tx, In tx (transactions (core s)) -> Transaction.ChargerID tx <> id)
  /\ (forall mv, In mv (meter_values (core s)) -> MeterValue.ChargerID mv <> id)
  /\ (forall e, In e (charger_errors (core s)) -> ChargerError.ChargerID e <> id).

(** The columns callers may order chargers by, and those of the
    transactions of one charger. *)
Definition charger_columns : list string :=
  ["id"; "name"; "vendor"; "model"; "status"; "is_connected"; "created_at";
   "updated_at"; "last_heartbeat_at"; "last_boot_at"; "last_connect_at"].

Definition charger_transaction_columns : list string :=
  ["id"; "transaction_id"; "connector_id"; "id_tag"; "start_time";
   "stop_time"; "status"; "created_at"; "updated_at"].

(** The timestamp columns of [chargers] that have a setter of their own,
    the value a charger has in each, and the setter of each. *)
Inductive timestamp_column : Type :=
| last_heartbeat_at
| last_boot_at
| last_connect_at
| last_tx_start_at
| last_tx_stop_at.

Definition column_value (col : timestamp_column) (c : Charger.t) : option Time :=
  match col with
  | last_heartbeat_at => Charger.LastHeartbeatAt c
  | last_boot_at => Charger.LastBootAt c
  | last_connect_at => Charger.LastConnectAt c
  | last_tx_start_at => Charger.LastTxStartAt c
  | last_tx_stop_at => Charger.LastTxStopAt c
  end.

Definition column_setter (col : timestamp_column)
  : Time -> Executor -> string -> Time -> result unit * Executor :=
  match col with
  | last_heartbeat_at => chargerRepository.UpdateLastHeartbeat
  | last_boot_at => chargerRepository.UpdateLastBoot
  | last_connect_at => chargerRepository.UpdateLastConnect
  | last_tx_start_at => chargerRepository.UpdateLastTxStart
  | last_tx_stop_at => chargerRepository.UpdateLastTxStop
  end.

(** The columns of a charger that no setter of a timestamp writes. *)
Definition charger_identity (c : Charger.t) :=
  (Charger.ID c, Charger.Name c, Charger.Vendor c, Charger.Model c,
   Charger.SerialNumber c, Charger.FirmwareVersion c, Charger.ICCID c,
   Charger.IMSI c, Charger.CreatedAt c).

(** The next [n] statements on the whole schema reach the tables. *)
Definition store_statements_reach_tables (n : nat) (sx : StoreExecutor) : Prop :=
  forall k, (k < n)%nat -> nth k (store_faults sx) false = false.

Definition connector_known (s : Store) (chargerID : string) (connectorID : Z)
  : bool :=
  existsb (chargerConnectorRepository.is_connector chargerID connectorID)
          (charger_connectors s).

(** The connector a lookup by charger and number finds. *)
Definition connector_with_number (s : Store) (chargerID : string)
    (connectorID : Z) : option ChargerConnector.t :=
  find (chargerConnectorRepository.is_connector chargerID connectorID)
       (charger_connectors s).

(** The rows a new meter value refers to exist: its charger, and its
    transaction when it names one. *)
Definition meter_value_references_hold (d : DB) (req : CreateMeterValueRequest.t)
  : bool :=
  charger_known d (CreateMeterValueRequest.ChargerID req)
  && match CreateMeterValueRequest.TransactionID req with
     | None => true
     | Some id => existsb (fun tx => Transaction.ID tx =? id) (transactions d)
     end.

(** A second of a year of four digits, 0000 to 9999, counted from the
    epoch: the years in which the texts of the store have a fixed width. *)
Definition four_digit_year (second : Z) : Prop :=
  -62167219200 <= second < 253402300800.

(** ** Concrete stores for the examples *)

Module Sample.

Definition CP1 : Charger.t :=
  Charger.mk "CP1" "Depot 1" "" "" "" "" "" "" "Unknown" true
             None None None None None 5 5.

(** An Active session on connector 1 of CP1, started at meter 1000. *)
Definition T1 : Transaction.t :=
  Transaction.mk 1 (Some 1001) "CP1" 1 "abc" 10 None 1000 None 0 ""
                 "Active" 10 10.

(** A Completed session on connector 2 of CP1. *)
Definition T2 : Transaction.t :=
  Transaction.mk 2 (Some 1002) "CP1" 2 "def" 20 (Some 30) 500 (Some 800) 300
                 "Local" "Completed" 20 30.

Definition M1 : MeterValue.t :=
  MeterValue.mk 1 (Some 1) "CP1" 1 15 "Energy.Active.Import.Register"
                (S754_finite false 1200 0) "Wh" "Sample.Periodic" "Outlet" ""
                "Raw" 15.

(** An error of CP1 resolved at instant 100, and one still open. *)
Definition E1 : ChargerError.t :=
  ChargerError.mk 1 "CP1" (Some 1) "GroundFailure" "" "" "" 50 (Some 100) 50.

Definition E2 : ChargerError.t :=
  ChargerError.mk 2 "CP1" (Some 1) "GroundFailure" "" "" "" 60 None 60.

Definition idle : DB := mkDB [CP1] [T2] 2 [] [E1; E2].
Definition busy : DB := mkDB [CP1] [T1; T2] 2 [M1] [E1; E2].

(** A connection on which no statement fails. *)
Definition healthy (d : DB) : Executor := mkExecutor d [].

(** Readings that all give the same candidate, 1001. *)
Definition stuck (_ : nat) : transactionRepository.Reading :=
  transactionRepository.mkReading 1 1 0.

(** Readings whose candidates are 1001, 1002, 1003, ... *)
Definition fresh (attempt : nat) : transactionRepository.Reading :=
  transactionRepository.mkReading 1 (1 + Z.of_nat attempt) 0.


Definition three_migrations : migrate.Source :=
  [migrate.mkMigration 1 true true; migrate.mkMigration 2 true true;
   migrate.mkMigration 3 true true].



Definition K1 : ChargerConnector.t :=
  ChargerConnector.mk 1 "CP1" 1 "Charging" "" "" 6 12.

Definition CP2 : Charger.t :=
  Charger.mk "CP2" "Depot 2" "" "" "" "" "" "" "Unknown" false
             None None None None None 7 7.

(** A session and a meter value of CP2. *)
Definition T3 : Transaction.t :=
  Transaction.mk 3 (Some 1003) "CP2" 1 "ghi" 25 None 40 None 0 ""
                 "Active" 25 25.

Definition M2 : MeterValue.t :=
  MeterValue.mk 2 (Some 3) "CP2" 1 26 "Energy.Active.Import.Register"
                (S754_finite false 45 0) "Wh" "Sample.Periodic" "Outlet" ""
                "Raw" 26.

Definition two_chargers : DB :=
  mkDB [CP1; CP2] [T1; T2; T3] 3 [M1; M2] [E1; E2].

(** The whole schema over [two_chargers], with the connector of CP1. *)
Definition depot : Store := mkStore two_chargers [K1] 1 2 2.

Definition healthy_store (s : Store) : StoreExecutor := mkStoreExecutor s [].

End Sample.

(** * Properties *)

(** ** Reading helpers *)

Lemma filter_none {A} (p : A -> bool) (l : list A) :
  (forall x, In x l -> p x = false) -> filter p l = [].
Proof.
  induction l as [|a l IH]; simpl; intros H; [reflexivity|].
  rewrite (H a (or_introl eq_refl)). apply IH. intros x Hx. apply H. now right.
Qed.


(** ** Absent rows *)



(** ** The ORDER BY clause of [List] *)

Lemma map_index_true (m : list (string * bool)) (k : string) :
  map_index m k = true -> In k (map fst m).
Proof.
  induction m as [|[k' v] m IH]; simpl; [discriminate|].
  destruct (String.eqb_spec k' k) as [->|_]; auto.
Qed.

Lemma map_index_listed (m : list (string * bool)) (k : string) :
  (forall kv, In kv m -> snd kv = true) -> In k (map fst m) ->
  map_index m k = true.
Proof.
  induction m as [|[k' v] m IH]; simpl; intros Hall Hin; [contradiction|].
  destruct (String.eqb_spec k' k) as [->|Hne].
  - exact (Hall (k, v) (or_introl eq_refl)).
  - destruct Hin as [Heq|Hin]; [contradiction|]. apply IH; auto.
Qed.

Lemma validOrderFields_iff (k : string) :
  map_index transactionRepository.validOrderFields k = true <-> In k permitted_columns.
Proof.
  change permitted_columns with (map fst transactionRepository.validOrderFields).
  split.
  - apply map_index_true.
  - apply map_index_listed. intros kv Hin.
    repeat (destruct Hin as [<-|Hin]; [reflexivity|]). contradiction.
Qed.

Lemma ValidateSortDirection_spec (opts : ListOptions.t) :
  let o := ListOptions.ValidateSortDirection opts in
  ListOptions.Limit o = ListOptions.Limit opts
  /\ ListOptions.Offset o = ListOptions.Offset opts
  /\ ListOptions.OrderBy o = ListOptions.OrderBy opts
  /\ In (ListOptions.SortDir o) permitted_directions
  /\ (In (ListOptions.SortDir opts) permitted_directions ->
      ListOptions.SortDir o = ListOptions.SortDir opts)
  /\ (~ In (ListOptions.SortDir opts) permitted_directions ->
      ListOptions.SortDir o = "DESC").
Proof.
  unfold ListOptions.ValidateSortDirection, permitted_directions.
  destruct (String.eqb_spec (ListOptions.SortDir opts) "ASC") as [Ha|Ha];
    destruct (String.eqb_spec (ListOptions.SortDir opts) "DESC") as [Hd|Hd];
    simpl; intuition (auto; congruence).
Qed.

(** C9.  Whatever the caller's options, the ORDER BY clause [List] builds
    names a column of the allow-list and a direction among ASC and DESC:
    a column outside the allow-list is replaced by [created_at], a
    direction other than ASC or DESC by DESC, and the text sent is one of
    the fixed texts built from the two lists. *)
Theorem List_orders_by_allow_list_only (opts : ListOptions.t) :
  let o := transactionRepository.List_opts opts in
  transactionRepository.List_query opts
    = (transactionRepository.List_select ++ ListOptions.OrderBy o ++ " " ++ ListOptions.SortDir o
         ++ transactionRepository.List_limit)%string
  /\ In (ListOptions.OrderBy o) permitted_columns
  /\ In (ListOptions.SortDir o) permitted_directions
  /\ (In (ListOptions.OrderBy opts) permitted_columns ->
      ListOptions.OrderBy o = ListOptions.OrderBy opts)
  /\ (~ In (ListOptions.OrderBy opts) permitted_columns ->
      ListOptions.OrderBy o = "created_at")
  /\ (In (ListOptions.SortDir opts) permitted_directions ->
      ListOptions.SortDir o = ListOptions.SortDir opts)
  /\ (~ In (ListOptions.SortDir opts) permitted_directions ->
      ListOptions.SortDir o = "DESC")
  /\ In (transactionRepository.List_query opts) permitted_queries.
Proof.
  intros o.
  destruct (ValidateSortDirection_spec opts) as (_ & _ & Hob & Hdir & Hkeep & Hdef).
  assert (Hcol : In (ListOptions.OrderBy o) permitted_columns
                 /\ ListOptions.SortDir o
                    = ListOptions.SortDir (ListOptions.ValidateSortDirection opts)
                 /\ (In (ListOptions.OrderBy opts) permitted_columns ->
                     ListOptions.OrderBy o = ListOptions.OrderBy opts)
                 /\ (~ In (ListOptions.OrderBy opts) permitted_columns ->
                     ListOptions.OrderBy o = "created_at")).
  { subst o. unfold transactionRepository.List_opts. rewrite Hob.
    destruct (map_index transactionRepository.validOrderFields (ListOptions.OrderBy opts)) eqn:Hm; simpl.
    - apply validOrderFields_iff in Hm. rewrite Hob.
      repeat split; auto. intros Hn. contradiction.
    - assert (~ In (ListOptions.OrderBy opts) permitted_columns).
      { intros Hin. apply validOrderFields_iff in Hin. congruence. }
      repeat split; auto; try contradiction.
      unfold permitted_columns. simpl. tauto. }
  destruct Hcol as (Hin & Hsd & Hc1 & Hc2).
  assert (Hq : transactionRepository.List_query opts
    = (transactionRepository.List_select ++ ListOptions.OrderBy o ++ " " ++ ListOptions.SortDir o
         ++ transactionRepository.List_limit)%string) by reflexivity.
  rewrite Hsd. repeat split; auto.
  - rewrite Hq, Hsd. reflexivity.
  - rewrite Hq, Hsd. unfold permitted_queries.
    apply in_flat_map. exists (ListOptions.OrderBy o). split; [exact Hin|].
    apply in_map_iff. exists (ListOptions.SortDir (ListOptions.ValidateSortDirection opts)).
    split; [reflexivity|exact Hdir].
Qed.

(** ** Statements that reach the tables *)

Lemma after_statement_db (ex : Executor) : db (after_statement ex) = db ex.
Proof. destruct ex as [d [|f fs]]; reflexivity. Qed.

Lemma after_statement_faults (ex : Executor) :
  faults (after_statement ex) = tl (faults ex).
Proof. destruct ex as [d [|f fs]]; reflexivity. Qed.

Lemma next_statement_ok (ex : Executor) :
  reaches_tables ex -> next_statement ex = (false, after_statement ex).
Proof.
  unfold reaches_tables, after_statement, next_statement.
  destruct ex as [d [|f fs]]; simpl; intros H; [reflexivity|now subst f].
Qed.

Lemma reaches_tables_first (n : nat) (ex : Executor) :
  statements_reach_tables (S n) ex -> reaches_tables ex.
Proof.
  intros H. unfold reaches_tables. specialize (H O (Nat.lt_0_succ n)).
  destruct (faults ex); [reflexivity|exact H].
Qed.

Lemma reaches_tables_next (n : nat) (ex : Executor) (d : DB) :
  statements_reach_tables (S n) ex ->
  statements_reach_tables n (mkExecutor d (faults (after_statement ex))).
Proof.
  intros H k Hk. simpl. rewrite after_statement_faults.
  specialize (H (S k) (proj1 (Nat.succ_lt_mono k n) Hk)).
  destruct (faults ex) as [|f fs]; simpl in *; [now destruct k|exact H].
Qed.

Lemma QueryRowContext_first {A} (ex : Executor) (rows : DB -> list A) r rest :
  reaches_tables ex -> rows (db ex) = r :: rest ->
  QueryRowContext ex rows = (Ok r, after_statement ex).
Proof.
  intros Hf Hr. unfold QueryRowContext. rewrite (next_statement_ok ex Hf).
  now rewrite after_statement_db, Hr.
Qed.

Lemma ExecContext_ok (ex : Executor) (stmt : DB -> DB * Z) :
  reaches_tables ex ->
  ExecContext ex stmt
  = (Ok (snd (stmt (db ex))),
     mkExecutor (fst (stmt (db ex))) (faults (after_statement ex))).
Proof.
  intros Hf. unfold ExecContext. rewrite (next_statement_ok ex Hf).
  rewrite after_statement_db. now destruct (stmt (db ex)).
Qed.

Lemma find_filter {A} (p : A -> bool) (l : list A) (x : A) :
  find p l = Some x -> exists rest, filter p l = x :: rest.
Proof.
  induction l as [|a l IH]; simpl; [discriminate|].
  destruct (p a) eqn:Hp.
  - intros [= ->]. now eexists.
  - exact IH.
Qed.

Lemma find_update_where {A} (p : A -> bool) (set : A -> A) (l : list A) (x : A) :
  (forall r, p r = true -> p (set r) = true) ->
  find p l = Some x -> find p (update_where p set l) = Some (set x).
Proof.
  intros Hset. induction l as [|a l IH]; simpl; [discriminate|].
  destruct (p a) eqn:Hp.
  - intros [= ->]. now rewrite (Hset x Hp).
  - rewrite Hp. exact IH.
Qed.

Lemma update_where_others {A} (p : A -> bool) (set : A -> A) (l : list A) (r : A) :
  In r l -> p r = false -> In r (update_where p set l).
Proof.
  intros Hin Hp. unfold update_where. apply in_map_iff. exists r.
  now rewrite Hp.
Qed.

Lemma count_rows_found {A} (p : A -> bool) (l : list A) (x : A) :
  find p l = Some x -> (count_rows p l =? 0) = false.
Proof.
  intros H. destruct (find_filter p l x H) as [rest Hr].
  unfold count_rows. rewrite Hr. simpl List.length. apply Z.eqb_neq. lia.
Qed.

Lemma wrap64_in_range (z : Z) : GoInt.in_int64 z -> GoInt.wrap64 z = z.
Proof.
  unfold GoInt.in_int64, GoInt.MinInt64, GoInt.MaxInt64, GoInt.wrap64.
  intros H. rewrite Z.mod_small; lia.
Qed.

(** ** Stop *)

(** C3, as stated, fails on the code: the subtraction is done on Go ints
    and wraps.  Stopping the session of [Sample.busy] (meter start 1000)
    at the least int gives a stop reading below the start reading and a
    stored energy of 9223372036854774808, not 0. *)
Lemma Stop_wraps_around :
  exists ex' tx',
    transactionRepository.Stop 50 (Sample.healthy Sample.busy) 1
        GoInt.MinInt64 49 "Local" = (Ok tt, ex')
    /\ transaction_with_id (db ex') 1 = Some tx'
    /\ GoInt.MinInt64 < Transaction.MeterStart Sample.T1
    /\ Transaction.EnergyDelivered tx' = 9223372036854774808
    /\ Transaction.EnergyDelivered tx'
       <> Z.max 0 (GoInt.MinInt64 - Transaction.MeterStart Sample.T1).
Proof.
  eexists. eexists. split; [reflexivity|]. split; [reflexivity|].
  split; [reflexivity|]. split; [reflexivity|]. discriminate.
Qed.

(** C3, amended.  When the transaction with the given internal id exists
    and the two statements of [Stop] reach the tables, [Stop] succeeds and
    the row it leaves has the given stop reading, stop time and stop
    reason, status Completed, and an energy that is never negative; the
    energy is max(0, meterStop - meterStart) whenever that difference fits
    a Go int (always so for non-negative readings).  The other columns but
    the last-modified time, and the other rows, are as before. *)
Theorem Stop_completes_transaction (current_timestamp : Time) (ex : Executor)
    (id meterStop : Z) (stopTime : Time) (stopReason : string)
    (tx : Transaction.t) :
  statements_reach_tables 2 ex ->
  transaction_with_id (db ex) id = Some tx ->
  exists ex' tx',
    transactionRepository.Stop current_timestamp ex id meterStop stopTime stopReason
    = (Ok tt, ex')
    /\ transaction_with_id (db ex') id = Some tx'
    /\ Transaction.MeterStop tx' = Some meterStop
    /\ Transaction.StopTime tx' = Some stopTime
    /\ Transaction.StopReason tx' = stopReason
    /\ Transaction.Status tx' = "Completed"
    /\ 0 <= Transaction.EnergyDelivered tx'
    /\ (GoInt.in_int64 (meterStop - Transaction.MeterStart tx) ->
        Transaction.EnergyDelivered tx'
        = Z.max 0 (meterStop - Transaction.MeterStart tx))
    /\ (Transaction.ID tx', Transaction.TransactionID tx', Transaction.ChargerID tx',
        Transaction.ConnectorID tx', Transaction.IDTag tx', Transaction.StartTime tx',
        Transaction.MeterStart tx', Transaction.CreatedAt tx')
       = (Transaction.ID tx, Transaction.TransactionID tx, Transaction.ChargerID tx,
          Transaction.ConnectorID tx, Transaction.IDTag tx, Transaction.StartTime tx,
          Transaction.MeterStart tx, Transaction.CreatedAt tx)
    /\ Transaction.UpdatedAt tx' = current_timestamp
    /\ (forall other, In other (transactions (db ex)) ->
                      Transaction.ID other <> id ->
                      In other (transactions (db ex'))).
Proof.
  intros Hf Hfind. unfold transaction_with_id in *.
  destruct (find_filter _ _ _ Hfind) as [rest Hrows].
  unfold transactionRepository.Stop.
  rewrite (QueryRowContext_first ex _ (Transaction.MeterStart tx)
             (map Transaction.MeterStart rest) (reaches_tables_first 1 ex Hf))
    by (now rewrite Hrows).
  set (energy := if GoInt.sub meterStop (Transaction.MeterStart tx) <? 0
                 then 0 else GoInt.sub meterStop (Transaction.MeterStart tx)).
  assert (Hnext : reaches_tables (after_statement ex)).
  { apply (reaches_tables_first 0).
    pose proof (reaches_tables_next 1 ex (db ex) Hf) as H.
    intros k Hk. specialize (H k Hk). exact H. }
  rewrite (ExecContext_ok _ _ Hnext). cbn [fst snd].
  rewrite after_statement_db, (count_rows_found _ _ _ Hfind).
  eexists. exists (transactionRepository.stopped current_timestamp meterStop
                     stopTime stopReason energy tx).
  split; [reflexivity|]. cbn [db transactions with_transactions].
  split; [now apply find_update_where|].
  cbn [transactionRepository.stopped Transaction.MeterStop Transaction.StopTime
       Transaction.StopReason Transaction.Status Transaction.EnergyDelivered
       Transaction.ID Transaction.TransactionID Transaction.ChargerID
       Transaction.ConnectorID Transaction.IDTag Transaction.StartTime
       Transaction.MeterStart Transaction.CreatedAt Transaction.UpdatedAt].
  repeat (split; [reflexivity|]).
  split; [|split; [|repeat (split; [reflexivity|])]].
  - subst energy. destruct (Z.ltb_spec (GoInt.sub meterStop (Transaction.MeterStart tx)) 0); lia.
  - intros Hrange. subst energy. unfold GoInt.sub.
    rewrite (wrap64_in_range _ Hrange).
    destruct (Z.ltb_spec (meterStop - Transaction.MeterStart tx) 0); lia.
  - intros other Hin Hid. apply update_where_others; [exact Hin|].
    now apply Z.eqb_neq.
Qed.

Lemma Stop_completes_transaction_witness :
  statements_reach_tables 2 (Sample.healthy Sample.busy)
  /\ transaction_with_id Sample.busy 1 = Some Sample.T1
  /\ exists ex' tx',
       transactionRepository.Stop 50 (Sample.healthy Sample.busy) 1 1500 49 "Local"
       = (Ok tt, ex')
       /\ transaction_with_id (db ex') 1 = Some tx'
       /\ Transaction.Status tx' = "Completed"
       /\ Transaction.EnergyDelivered tx' = 500.
Proof.
  assert (Hf : statements_reach_tables 2 (Sample.healthy Sample.busy)).
  { intros k _. destruct k as [|[|k]]; reflexivity. }
  split; [exact Hf|]. split; [reflexivity|].
  destruct (Stop_completes_transaction 50 (Sample.healthy Sample.busy) 1 1500 49
              "Local" Sample.T1 Hf eq_refl)
    as (ex' & tx' & Hstop & Hrow & _ & _ & _ & Hstatus & _ & Henergy & _).
  exists ex', tx'. repeat split; try assumption.
  rewrite Henergy; [reflexivity|].
  unfold GoInt.in_int64, GoInt.MinInt64, GoInt.MaxInt64. simpl. lia.
Defined.

(** ** Resolving charger errors *)

(** [ResolveByErrorCode] only touches rows whose resolution time is null
    and reports how many there were. *)
Lemma ResolveByErrorCode_keeps_resolved (ex : Executor)
    (chargerID errorCode : string) (resolvedAt : Time) :
  reaches_tables ex ->
  exists ex',
    chargerErrorRepository.ResolveByErrorCode ex chargerID errorCode resolvedAt
    = (Ok (count_rows (chargerErrorRepository.unresolved_with_code chargerID errorCode)
                      (charger_errors (db ex))), ex')
    /\ forall e at0, In e (charger_errors (db ex)) ->
                     ChargerError.ResolvedAt e = Some at0 ->
                     In e (charger_errors (db ex')).
Proof.
  intros Hf. unfold chargerErrorRepository.ResolveByErrorCode.
  rewrite (ExecContext_ok _ _ Hf). cbn [fst snd].
  eexists. split; [reflexivity|].
  intros e at0 Hin Hres. cbn [db charger_errors with_charger_errors].
  apply update_where_others; [exact Hin|].
  unfold chargerErrorRepository.unresolved_with_code. rewrite Hres.
  cbn [chargerErrorRepository.is_null]. now rewrite andb_false_r.
Qed.

(** C8, at the failing input.  [Resolve] has no guard on the resolution
    time: on the error of [Sample.busy] that was resolved at instant 100,
    [Resolve(1, 200)] succeeds and stores 200 over 100.  On the same store
    [ResolveByErrorCode] leaves that row alone and resolves, and counts,
    only the open one. *)
Theorem Resolve_overwrites_resolution_time :
  ChargerError.ResolvedAt Sample.E1 = Some 100
  /\ (exists ex',
        chargerErrorRepository.Resolve (Sample.healthy Sample.busy) 1 200
        = (Ok tt, ex')
        /\ map (fun e => (ChargerError.ID e, ChargerError.ResolvedAt e))
               (charger_errors (db ex'))
           = [(1, Some 200); (2, None)])
  /\ (exists ex',
        chargerErrorRepository.ResolveByErrorCode (Sample.healthy Sample.busy)
          "CP1" "GroundFailure" 200 = (Ok 1, ex')
        /\ map (fun e => (ChargerError.ID e, ChargerError.ResolvedAt e))
               (charger_errors (db ex'))
           = [(1, Some 100); (2, Some 200)]).
Proof.
  split; [reflexivity|].
  split; eexists; split; reflexivity.
Qed.

(** ** Partial updates *)

Lemma QueryRowContext_returning_first {A} (ex : Executor)
    (stmt : DB -> result (DB * list A)) (d : DB) (r : A) (rest : list A) :
  reaches_tables ex -> stmt (db ex) = Ok (d, r :: rest) ->
  QueryRowContext_returning ex stmt
  = (Ok r, mkExecutor d (faults (after_statement ex))).
Proof.
  intros Hf Hs. unfold QueryRowContext_returning.
  rewrite (next_statement_ok ex Hf). now rewrite after_statement_db, Hs.
Qed.










(** ** Session identifiers *)

Lemma next_statement_eq (ex : Executor) :
  next_statement ex = (hd false (faults ex), after_statement ex).
Proof. destruct ex as [d [|f fs]]; reflexivity. Qed.

Lemma count_rows_zero {A} (p : A -> bool) (l : list A) :
  count_rows p l = 0 -> existsb p l = false.
Proof.
  unfold count_rows. induction l as [|a l IH]; simpl; [reflexivity|].
  destruct (p a); simpl; [lia|exact IH].
Qed.

Lemma nth_tl {A} (l : list A) (k : nat) (d : A) : nth k (tl l) d = nth (S k) l d.
Proof. destruct l; [now destruct k|reflexivity]. Qed.

Lemma skipn_tl {A} (l : list A) (k : nat) : skipn k (tl l) = skipn (S k) l.
Proof. destruct l; [now rewrite skipn_nil|reflexivity]. Qed.

(** The loop entered at pass [a] with [n] passes left, on an executor
    whose fault schedule starts at that pass. *)
Lemma GenerateTransactionID_loop_spec (src : nat -> transactionRepository.Reading)
    (n : nat) : forall (ex : Executor) (a : nat),
  let fails := fun k =>
    nth k (faults ex) false
    || negb (count_rows
               (transactionRepository.has_transaction_id
                  (transactionRepository.candidateID (src (a + k)%nat)))
               (transactions (db ex)) =? 0) in
  match transactionRepository.GenerateTransactionID_loop src ex a n with
  | (Ok id, ex') =>
      exists k, (k < n)%nat
        /\ id = transactionRepository.candidateID (src (a + k)%nat)
        /\ fails k = false
        /\ (forall j, (j < k)%nat -> fails j = true)
        /\ db ex' = db ex /\ faults ex' = skipn (S k) (faults ex)
  | (Err e, ex') =>
      e = Errorf "failed to generate unique transaction ID after 10 attempts"
      /\ (forall j, (j < n)%nat -> fails j = true)
      /\ db ex' = db ex /\ faults ex' = skipn n (faults ex)
  end.
Proof.
  induction n as [|n IH]; intros ex a fails.
  - simpl. repeat split; auto. intros j Hj. lia.
  - cbn [transactionRepository.GenerateTransactionID_loop].
    unfold QueryRowContext. rewrite next_statement_eq.
    assert (Hstep : forall k,
              nth k (faults (after_statement ex)) false
              || negb (count_rows
                         (transactionRepository.has_transaction_id
                            (transactionRepository.candidateID (src (S a + k)%nat)))
                         (transactions (db (after_statement ex))) =? 0)
              = fails (S k)).
    { intros k. subst fails. cbv beta.
      rewrite after_statement_db, after_statement_faults, nth_tl.
      now replace (a + S k)%nat with (S a + k)%nat by lia. }
    assert (Hhere : fails O
              = hd false (faults ex)
                || negb (count_rows
                           (transactionRepository.has_transaction_id
                              (transactionRepository.candidateID (src a)))
                           (transactions (db ex)) =? 0)).
    { subst fails. cbv beta. rewrite Nat.add_0_r. now destruct (faults ex). }
    assert (Hrec :
      match transactionRepository.GenerateTransactionID_loop src
              (after_statement ex) (S a) n with
      | (Ok id, ex') =>
          fails O = true ->
          exists k, (k < S n)%nat
            /\ id = transactionRepository.candidateID (src (a + k)%nat)
            /\ fails k = false
            /\ (forall j, (j < k)%nat -> fails j = true)
            /\ db ex' = db ex /\ faults ex' = skipn (S k) (faults ex)
      | (Err e, ex') =>
          fails O = true ->
          e = Errorf "failed to generate unique transaction ID after 10 attempts"
          /\ (forall j, (j < S n)%nat -> fails j = true)
          /\ db ex' = db ex /\ faults ex' = skipn (S n) (faults ex)
      end).
    { specialize (IH (after_statement ex) (S a)). cbv zeta in IH.
      destruct (transactionRepository.GenerateTransactionID_loop src
                  (after_statement ex) (S a) n) as [[id|e] ex'].
      - destruct IH as (k & Hk & Hid & Hok & Hbefore & Hdb & Hfaults).
        intros H0. exists (S k). repeat split.
        + lia.
        + now replace (a + S k)%nat with (S a + k)%nat by lia.
        + now rewrite <- Hstep.
        + intros [|j] Hj; [exact H0|]. rewrite <- Hstep. apply Hbefore. lia.
        + now rewrite Hdb, after_statement_db.
        + now rewrite Hfaults, after_statement_faults, skipn_tl.
      - destruct IH as (He & Hall & Hdb & Hfaults).
        intros H0. repeat split.
        + exact He.
        + intros [|j] Hj; [exact H0|]. rewrite <- Hstep. apply Hall. lia.
        + now rewrite Hdb, after_statement_db.
        + now rewrite Hfaults, after_statement_faults, skipn_tl. }
    destruct (hd false (faults ex)) eqn:Hfault.
    + destruct (transactionRepository.GenerateTransactionID_loop src
                  (after_statement ex) (S a) n) as [[id|e] ex'];
        apply Hrec; now rewrite Hhere.
    + rewrite after_statement_db.
      destruct (count_rows _ (transactions (db ex)) =? 0) eqn:Hcount.
      * exists O. repeat split.
        -- lia.
        -- now rewrite Nat.add_0_r.
        -- now rewrite Hhere.
        -- intros j Hj. lia.
        -- apply after_statement_db.
        -- rewrite after_statement_faults. now destruct (faults ex).
      * destruct (transactionRepository.GenerateTransactionID_loop src
                    (after_statement ex) (S a) n) as [[id|e] ex'];
          apply Hrec; now rewrite Hhere.
Qed.

(** C4.  [GenerateTransactionID] runs at most ten checks.  When it
    returns an identifier, that identifier is the candidate of a pass
    k < 10 whose check reached the tables and counted no row with this
    external id, every earlier pass having failed by collision or by a
    failed check; when all ten passes fail it returns the exhaustion
    error.  Either way it ends, writes nothing, and has run k + 1, resp.
    ten, statements. *)
Theorem GenerateTransactionID_bounded (src : nat -> transactionRepository.Reading)
    (ex : Executor) :
  match transactionRepository.GenerateTransactionID src ex with
  | (Ok id, ex') =>
      exists k, (k < 10)%nat
        /\ id = transactionRepository.candidateID (src k)
        /\ attempt_fails src ex k = false
        /\ (forall j, (j < k)%nat -> attempt_fails src ex j = true)
        /\ transaction_id_used (db ex) id = false
        /\ db ex' = db ex /\ faults ex' = skipn (S k) (faults ex)
  | (Err e, ex') =>
      e = Errorf "failed to generate unique transaction ID after 10 attempts"
      /\ (forall j, (j < 10)%nat -> attempt_fails src ex j = true)
      /\ db ex' = db ex /\ faults ex' = skipn 10 (faults ex)
  end.
Proof.
  unfold transactionRepository.GenerateTransactionID.
  pose proof (GenerateTransactionID_loop_spec src 10 ex 0) as H. cbv zeta in H.
  destruct (transactionRepository.GenerateTransactionID_loop src ex 0 10)
    as [[id|e] ex'].
  - destruct H as (k & Hk & Hid & Hok & Hbefore & Hdb & Hfaults).
    exists k. change (0 + k)%nat with k in *.
    repeat split; auto.
    unfold transaction_id_used. apply count_rows_zero.
    apply orb_false_elim in Hok. destruct Hok as [_ Hcount].
    apply negb_false_iff, Z.eqb_eq in Hcount. now rewrite Hid.
  - exact H.
Qed.

(** The bound is met: readings that keep giving a taken candidate exhaust
    the ten passes, and fresh readings deliver the first free candidate. *)
Example GenerateTransactionID_exhausted :
  fst (transactionRepository.GenerateTransactionID Sample.stuck
         (Sample.healthy Sample.busy))
  = Err (Errorf "failed to generate unique transaction ID after 10 attempts").
Proof. reflexivity. Qed.

Example GenerateTransactionID_third_pass :
  fst (transactionRepository.GenerateTransactionID Sample.fresh
         (Sample.healthy Sample.busy)) = Ok 1003.
Proof. reflexivity. Qed.

(** ** Create *)

Lemma GenerateTransactionID_reads_only (src : nat -> transactionRepository.Reading)
    (ex : Executor) :
  db (snd (transactionRepository.GenerateTransactionID src ex)) = db ex.
Proof.
  unfold transactionRepository.GenerateTransactionID.
  pose proof (GenerateTransactionID_loop_spec src 10 ex 0) as H. cbv zeta in H.
  destruct (transactionRepository.GenerateTransactionID_loop src ex 0 10)
    as [[id|e] ex']; cbn [snd].
  - now destruct H as (k & _ & _ & _ & _ & Hdb & _).
  - now destruct H as (_ & _ & Hdb & _).
Qed.

Lemma Create_ocppTxID_reads_only (src : nat -> transactionRepository.Reading)
    (ex : Executor) (req : CreateTransactionRequest.t) :
  db (snd (transactionRepository.Create_ocppTxID src ex req)) = db ex.
Proof.
  unfold transactionRepository.Create_ocppTxID.
  destruct (CreateTransactionRequest.TransactionID req); [reflexivity|].
  apply GenerateTransactionID_reads_only.
Qed.

Lemma count_rows_app {A} (p : A -> bool) (l : list A) (x : A) :
  count_rows p (l ++ [x])%list = count_rows p l + (if p x then 1 else 0).
Proof.
  unfold count_rows. rewrite filter_app, length_app. simpl.
  destruct (p x); simpl; lia.
Qed.

(** What [Create] returns and leaves behind, in terms of its insert. *)
Lemma Create_outcome (src : nat -> transactionRepository.Reading)
    (current_timestamp : Time) (ex : Executor) (req : CreateTransactionRequest.t) :
  match transactionRepository.Create src current_timestamp ex req with
  | (Ok tx, ex') =>
      exists ocppTxID,
        tx = Transaction.mk (transactionRepository.next_rowid (db ex))
               (Some ocppTxID)
               (CreateTransactionRequest.ChargerID req)
               (CreateTransactionRequest.ConnectorID req)
               (CreateTransactionRequest.IDTag req)
               current_timestamp None
               (CreateTransactionRequest.MeterStart req) None
               0 "" "Active" current_timestamp current_timestamp
        /\ db ex' = mkDB (chargers (db ex)) (transactions (db ex) ++ [tx])%list
                         (Transaction.ID tx) (meter_values (db ex))
                         (charger_errors (db ex))
  | (Err _, ex') => db ex' = db ex
  end.
Proof.
  unfold transactionRepository.Create.
  pose proof (Create_ocppTxID_reads_only src ex req) as Hdb.
  destruct (transactionRepository.Create_ocppTxID src ex req) as [[ocppTxID|e] ex1];
    cbn [snd] in Hdb; [|exact Hdb].
  unfold QueryRowContext_returning. rewrite next_statement_eq.
  destruct (hd false (faults ex1)).
  - now rewrite after_statement_db.
  - rewrite after_statement_db, Hdb.
    unfold transactionRepository.insert_transaction.
    destruct (existsb _ (transactions (db ex))); [now rewrite after_statement_db|].
    destruct (existsb _ (chargers (db ex))); cbn [negb];
      [|now rewrite after_statement_db].
    exists ocppTxID. split; reflexivity.
Qed.

Lemma count_rows_nonneg {A} (p : A -> bool) (l : list A) : 0 <= count_rows p l.
Proof. unfold count_rows. lia. Qed.

(** C1, as stated, fails on the code: on [Sample.busy], where connector 1
    of CP1 has an Active transaction, a further [Create] for that connector
    returns no error and leaves two Active rows on it. *)
Lemma Create_on_busy_connector_succeeds :
  active_count Sample.busy "CP1" 1 = 1
  /\ exists tx ex',
       transactionRepository.Create Sample.fresh 40 (Sample.healthy Sample.busy)
         (CreateTransactionRequest.mk None "CP1" 1 "xyz" 2000) = (Ok tx, ex')
       /\ Transaction.Status tx = "Active"
       /\ active_count (db ex') "CP1" 1 = 2.
Proof.
  split; [reflexivity|]. eexists. eexists.
  split; [reflexivity|]. split; reflexivity.
Qed.

(** C1, amended.  [Create] does not look at the transactions already on
    the connector and has no busy failure: once the external id is at hand
    and free, the charger exists and the insert reaches the tables,
    [Create] succeeds with an Active row for the requested connector, and
    the number of Active rows of that connector grows by exactly one,
    whatever it was.  The connector has at most one Active row afterwards
    only if it had none before. *)
Theorem Create_ignores_active_transactions
    (src : nat -> transactionRepository.Reading) (current_timestamp : Time)
    (ex ex1 : Executor) (req : CreateTransactionRequest.t) (ocppTxID : Z) :
  transactionRepository.Create_ocppTxID src ex req = (Ok ocppTxID, ex1) ->
  reaches_tables ex1 ->
  transaction_id_used (db ex) ocppTxID = false ->
  charger_known (db ex) (CreateTransactionRequest.ChargerID req) = true ->
  let chargerID := CreateTransactionRequest.ChargerID req in
  let connectorID := CreateTransactionRequest.ConnectorID req in
  exists tx ex',
    transactionRepository.Create src current_timestamp ex req = (Ok tx, ex')
    /\ Transaction.Status tx = "Active"
    /\ Transaction.TransactionID tx = Some ocppTxID
    /\ Transaction.ChargerID tx = chargerID
    /\ Transaction.ConnectorID tx = connectorID
    /\ active_count (db ex') chargerID connectorID
       = active_count (db ex) chargerID connectorID + 1
    /\ (active_count (db ex') chargerID connectorID <= 1
        <-> active_count (db ex) chargerID connectorID = 0).
Proof.
  intros Hid Hf Hfree Hcharger chargerID connectorID.
  pose proof (Create_ocppTxID_reads_only src ex req) as Hdb.
  rewrite Hid in Hdb. cbn [snd] in Hdb.
  unfold transactionRepository.Create. rewrite Hid.
  erewrite QueryRowContext_returning_first; [|exact Hf|].
  2:{ unfold transactionRepository.insert_transaction. rewrite Hdb.
      unfold transaction_id_used, charger_known in Hfree, Hcharger.
      rewrite Hfree, Hcharger. cbn [negb]. reflexivity. }
  eexists. eexists. split; [reflexivity|].
  cbn [Transaction.Status Transaction.TransactionID Transaction.ChargerID
       Transaction.ConnectorID].
  repeat (split; [reflexivity|]).
  assert (Hcount : forall d' tx seq,
            transactionRepository.active_on chargerID connectorID tx = true ->
            active_count
              (mkDB (chargers d') (transactions (db ex) ++ [tx])%list seq
                    (meter_values d') (charger_errors d'))
              chargerID connectorID
            = active_count (db ex) chargerID connectorID + 1).
  { intros d' tx seq Hactive. unfold active_count. cbn [transactions].
    now rewrite count_rows_app, Hactive. }
  cbn [db]. rewrite Hcount.
  - pose proof (count_rows_nonneg
                  (transactionRepository.active_on chargerID connectorID)
                  (transactions (db ex))) as Hge.
    unfold active_count. split; [reflexivity|lia].
  - unfold transactionRepository.active_on.
    cbn [Transaction.ChargerID Transaction.ConnectorID Transaction.Status].
    now rewrite String.eqb_refl, Z.eqb_refl.
Qed.

Lemma Create_ignores_active_transactions_witness :
  reaches_tables (Sample.healthy Sample.busy)
  /\ transaction_id_used Sample.busy 1003 = false
  /\ charger_known Sample.busy "CP1" = true
  /\ exists tx ex',
       transactionRepository.Create Sample.fresh 40 (Sample.healthy Sample.busy)
         (CreateTransactionRequest.mk (Some 1003) "CP1" 1 "xyz" 2000) = (Ok tx, ex')
       /\ active_count (db ex') "CP1" 1 = 2.
Proof.
  split; [reflexivity|]. split; [reflexivity|]. split; [reflexivity|].
  destruct (Create_ignores_active_transactions Sample.fresh 40
              (Sample.healthy Sample.busy) (Sample.healthy Sample.busy)
              (CreateTransactionRequest.mk (Some 1003) "CP1" 1 "xyz" 2000) 1003
              eq_refl eq_refl eq_refl eq_refl)
    as (tx & ex' & Hcreate & _ & _ & _ & _ & Hcount & _).
  exists tx, ex'. split; [exact Hcreate|]. exact Hcount.
Defined.

(** C2, as stated, fails on the code: on [Sample.busy] the Active
    transaction of connector 1 has a later meter value on record, yet after
    a further [Create] for that connector it is stored exactly as before,
    still Active, with an empty stop reason and no stop meter, next to the
    new Active row. *)
Lemma Create_does_not_close_the_orphan :
  transactionRepository.active_on "CP1" 1 Sample.T1 = true
  /\ fst (meterValueRepository.GetLatestByConnector (Sample.healthy Sample.busy)
            "CP1" 1) = Ok (Some Sample.M1)
  /\ exists tx ex',
       transactionRepository.Create Sample.fresh 40 (Sample.healthy Sample.busy)
         (CreateTransactionRequest.mk None "CP1" 1 "xyz" 2000) = (Ok tx, ex')
       /\ transaction_with_id (db ex') 1 = Some Sample.T1
       /\ Transaction.Status Sample.T1 = "Active"
       /\ Transaction.StopReason Sample.T1 <> "Other"
       /\ Transaction.MeterStop Sample.T1 = None
       /\ active_count (db ex') "CP1" 1 = 2.
Proof.
  split; [reflexivity|]. split; [reflexivity|]. eexists. eexists.
  split; [reflexivity|]. split; [reflexivity|]. split; [reflexivity|].
  split; [discriminate|]. split; reflexivity.
Qed.

(** C2, amended.  [Create] closes nothing: when it succeeds the
    transactions table is the old one followed by the new Active row, so
    every stored transaction, an Active one on the same connector
    included, keeps its status, stop reason, stop meter and stop time, and
    the other tables are unchanged; when it fails the tables are unchanged
    altogether. *)
Theorem Create_leaves_stored_rows_untouched
    (src : nat -> transactionRepository.Reading) (current_timestamp : Time)
    (ex : Executor) (req : CreateTransactionRequest.t) :
  match transactionRepository.Create src current_timestamp ex req with
  | (Ok tx, ex') =>
      transactions (db ex') = (transactions (db ex) ++ [tx])%list
      /\ Transaction.Status tx = "Active"
      /\ (forall old, In old (transactions (db ex)) ->
                      In old (transactions (db ex')))
      /\ chargers (db ex') = chargers (db ex)
      /\ meter_values (db ex') = meter_values (db ex)
      /\ charger_errors (db ex') = charger_errors (db ex)
  | (Err _, ex') => db ex' = db ex
  end.
Proof.
  pose proof (Create_outcome src current_timestamp ex req) as H.
  destruct (transactionRepository.Create src current_timestamp ex req)
    as [[tx|e] ex']; [|exact H].
  destruct H as (i & Htx & Hdb). rewrite Hdb. cbn [transactions chargers
    meter_values charger_errors].
  repeat split; auto.
  - now rewrite Htx.
  - intros old Hin. apply in_or_app. now left.
Qed.

(** ** The migration engine on a source without gaps *)



Lemma versionExists_numbered (src : migrate.Source) :
  forall k x, numbered_from k src = true ->
  migrate.versionExists src x
  = (k <=? x) && (x <? k + Z.of_nat (List.length src)).
Proof.
  induction src as [|m rest IH]; intros k x Hn.
  - cbn. destruct (Z.leb_spec k x); destruct (Z.ltb_spec x (k + 0));
      cbn; try reflexivity; lia.
  - cbn [numbered_from] in Hn. apply andb_prop in Hn. destruct Hn as [Hm Hrest].
    apply Z.eqb_eq in Hm. cbn [migrate.versionExists existsb List.length].
    change (existsb (fun m0 => migrate.migration_version m0 =? x) rest)
      with (migrate.versionExists rest x).
    rewrite (IH (k + 1) x Hrest), Hm, Nat2Z.inj_succ.
    destruct (Z.eqb_spec k x); destruct (Z.leb_spec (k + 1) x);
      destruct (Z.ltb_spec x (k + 1 + Z.of_nat (List.length rest)));
      destruct (Z.leb_spec k x);
      destruct (Z.ltb_spec x (k + Z.succ (Z.of_nat (List.length rest))));
      cbn; try reflexivity; lia.
Qed.


(** ** Rolling back *)




Lemma numbered_bounds (src : migrate.Source) :
  forall k m, numbered_from k src = true -> In m src ->
  k <= migrate.migration_version m < k + Z.of_nat (List.length src).
Proof.
  induction src as [|a rest IH]; intros k m Hnum Hin; [contradiction|].
  cbn [numbered_from] in Hnum. apply andb_prop in Hnum. destruct Hnum as [Hk Hnum].
  apply Z.eqb_eq in Hk. cbn [List.length]. rewrite Nat2Z.inj_succ.
  destruct Hin as [<-|Hin]; [lia|]. specialize (IH (k + 1) m Hnum Hin). lia.
Qed.












(** ** Dirty state *)


(** [RunMigrations] from a clean state at a version: the outcome of [m.Up],
    a missing change counting as success. *)
Lemma RunMigrations_clean (src : migrate.Source) (v : Z) :
  v <> migrate.NilVersion ->
  Database.RunMigrations src (migrate.mkSchema v false)
  = match migrate.Up src (migrate.mkSchema v false) with
    | (None, s') => (Ok tt, s')
    | (Some ErrNoChange, s') => (Ok tt, s')
    | (Some e, s') => (Err (Wrapf "failed to run migrations: %w" e), s')
    end.
Proof.
  intros Hv. apply Z.eqb_neq in Hv.
  unfold Database.RunMigrations, Database.RunMigrationsWithCallback, migrate.Version.
  cbn [migrate.version migrate.dirty]. rewrite Hv.
  cbn [Database.unless Database.is_nil Database.error_eqb negb andb].
  generalize (migrate.Up src (migrate.mkSchema v false)).
  intros [[e|] s'].
  - destruct e; cbn; try reflexivity.
    destruct (migrate.version s' =? migrate.NilVersion); reflexivity.
  - cbn. destruct (migrate.version s' =? migrate.NilVersion); reflexivity.
Qed.

Lemma RunMigrations_dirty (src : migrate.Source) (v : Z) :
  0 <= v ->
  Database.RunMigrationsWithCallback src (migrate.mkSchema v true)
  = Database.RunMigrationsWithCallback src (migrate.mkSchema v false).
Proof.
  intros Hv.
  assert (Hnil : (v =? migrate.NilVersion) = false)
    by (apply Z.eqb_neq; unfold migrate.NilVersion; lia).
  assert (Hforce : (v <? -1) = false) by (apply Z.ltb_ge; lia).
  unfold Database.RunMigrationsWithCallback, migrate.Version, migrate.Force.
  cbn [migrate.version migrate.dirty]. now rewrite Hnil, Hforce.
Qed.




(** * Further properties of package [db] *)

(** ** Result sets *)

Lemma QueryContext_ok {A} (ex : Executor) (rows : DB -> list A) :
  reaches_tables ex ->
  QueryContext ex rows = (Ok (rows (db ex)), after_statement ex).
Proof.
  intros Hf. unfold QueryContext. rewrite (next_statement_ok ex Hf).
  now rewrite after_statement_db.
Qed.

Lemma order_desc_limit1_spec {A} (key : A -> Z) (rows : list A) :
  match order_desc_limit1 key rows with
  | [] => rows = []
  | m :: rest =>
      rest = [] /\ In m rows /\ forall r, In r rows -> key r <= key m
  end.
Proof.
  induction rows as [|r rows IH]; [reflexivity|].
  cbn [order_desc_limit1].
  destruct (order_desc_limit1 key rows) as [|m rest].
  - subst rows. repeat split; [now left|]. intros r' [<-|[]]. lia.
  - destruct IH as (-> & Hin & Hmax).
    destruct (Z.ltb_spec (key r) (key m)).
    + repeat split; [now right|]. intros r' [<-|Hr']; [lia|now apply Hmax].
    + repeat split; [now left|]. intros r' [<-|Hr']; [lia|].
      specialize (Hmax r' Hr'). lia.
Qed.

Lemma insert_desc_perm {A} (key : A -> Z) (r : A) (l : list A) :
  Permutation (insert_desc key r l) (r :: l).
Proof.
  induction l as [|s l IH]; cbn [insert_desc]; [reflexivity|].
  destruct (key r <? key s); [|reflexivity].
  rewrite IH. apply perm_swap.
Qed.

Lemma order_by_desc_perm {A} (key : A -> Z) (rows : list A) :
  Permutation (order_by_desc key rows) rows.
Proof.
  induction rows as [|r rows IH]; cbn [order_by_desc]; [reflexivity|].
  rewrite insert_desc_perm. now apply perm_skip.
Qed.

Lemma insert_desc_sorted {A} (key : A -> Z) (r : A) (l : list A) :
  descending key l -> descending key (insert_desc key r l).
Proof.
  unfold descending. induction l as [|s l IH]; intros Hs; cbn [insert_desc].
  - constructor; constructor.
  - inversion Hs as [|? ? Hl Hall]; subst.
    destruct (Z.ltb_spec (key r) (key s)).
    + constructor; [now apply IH|].
      apply Forall_forall. intros x Hx.
      apply (Permutation_in _ (insert_desc_perm key r l)) in Hx.
      destruct Hx as [<-|Hx]; [lia|].
      rewrite Forall_forall in Hall. now apply Hall.
    + constructor; [exact Hs|].
      constructor; [lia|].
      rewrite Forall_forall in Hall |- *. intros x Hx.
      specialize (Hall x Hx). lia.
Qed.

Lemma order_by_desc_sorted {A} (key : A -> Z) (rows : list A) :
  descending key (order_by_desc key rows).
Proof.
  induction rows as [|r rows IH]; cbn [order_by_desc].
  - constructor.
  - now apply insert_desc_sorted.
Qed.

Lemma insert_desc_head {A} (key : A -> Z) (r : A) (l : list A) :
  (forall x, In x l -> key x <= key r) -> insert_desc key r l = r :: l.
Proof.
  destruct l as [|s l]; [reflexivity|]. intros H. cbn [insert_desc].
  specialize (H s (or_introl eq_refl)).
  destruct (Z.ltb_spec (key r) (key s)); [lia|reflexivity].
Qed.

Lemma filter_insert_desc {A} (key : A -> Z) (p : A -> bool) (r : A) (l : list A) :
  descending key l ->
  filter p (insert_desc key r l)
  = if p r then insert_desc key r (filter p l) else filter p l.
Proof.
  unfold descending. induction l as [|s l IH]; intros Hs; cbn [insert_desc filter].
  - now destruct (p r).
  - inversion Hs as [|? ? Hl Hall]; subst. rewrite Forall_forall in Hall.
    destruct (Z.ltb_spec (key r) (key s)) as [Hlt|Hge]; cbn [filter].
    + rewrite (IH Hl). destruct (p s) eqn:Hps, (p r) eqn:Hpr; cbn [insert_desc];
        try reflexivity.
      apply Z.ltb_lt in Hlt. now rewrite Hlt.
    + destruct (p r); [|reflexivity].
      symmetry. apply insert_desc_head. intros x Hx.
      destruct (p s).
      * destruct Hx as [<-|Hx]; [lia|].
        apply filter_In in Hx. specialize (Hall x (proj1 Hx)). lia.
      * apply filter_In in Hx. specialize (Hall x (proj1 Hx)). lia.
Qed.

Lemma filter_order_by_desc {A} (key : A -> Z) (p : A -> bool) (rows : list A) :
  filter p (order_by_desc key rows) = order_by_desc key (filter p rows).
Proof.
  induction rows as [|r rows IH]; cbn [order_by_desc filter]; [reflexivity|].
  rewrite filter_insert_desc by apply order_by_desc_sorted.
  rewrite IH. now destruct (p r).
Qed.

Lemma order_desc_limit1_head {A} (key : A -> Z) (rows : list A) :
  order_desc_limit1 key rows = firstn 1 (order_by_desc key rows).
Proof.
  induction rows as [|r rows IH]; [reflexivity|].
  cbn [order_desc_limit1 order_by_desc]. rewrite IH.
  destruct (order_by_desc key rows) as [|m rest]; [reflexivity|].
  cbn [firstn insert_desc]. now destruct (key r <? key m).
Qed.

Lemma QueryRowContext_ok {A} (ex : Executor) (rows : DB -> list A) :
  reaches_tables ex ->
  QueryRowContext ex rows
  = (match rows (db ex) with [] => Err ErrNoRows | r :: _ => Ok r end,
     after_statement ex).
Proof.
  intros Hf. unfold QueryRowContext. rewrite (next_statement_ok ex Hf).
  rewrite after_statement_db. now destruct (rows (db ex)).
Qed.

(** X1.  When its statement reaches the tables, the active-transaction
    query of a connector never fails: it returns nil exactly when the
    connector has no Active transaction, and otherwise an Active
    transaction of that connector than which none started later. *)
Theorem GetActiveByConnector_returns_the_newest (ex : Executor)
    (chargerID : string) (connectorID : Z) :
  reaches_tables ex ->
  match fst (transactionRepository.GetActiveByConnector ex chargerID connectorID) with
  | Ok (Some tx) =>
      In tx (transactions (db ex))
      /\ transactionRepository.active_on chargerID connectorID tx = true
      /\ forall other, In other (transactions (db ex)) ->
           transactionRepository.active_on chargerID connectorID other = true ->
           Transaction.StartTime other <= Transaction.StartTime tx
  | Ok None =>
      forall tx, In tx (transactions (db ex)) ->
                 transactionRepository.active_on chargerID connectorID tx = false
  | Err _ => False
  end.
Proof.
  intros Hf.
  unfold transactionRepository.GetActiveByConnector.
  rewrite (QueryRowContext_ok ex _ Hf).
  pose proof (order_desc_limit1_spec Transaction.StartTime
                (filter (transactionRepository.active_on chargerID connectorID)
                        (transactions (db ex)))) as H.
  destruct (order_desc_limit1 _ _) as [|tx rest]; cbn [fst].
  - intros tx Hin.
    destruct (transactionRepository.active_on chargerID connectorID tx) eqn:Ha;
      [|reflexivity].
    assert (Hm : In tx (filter (transactionRepository.active_on chargerID connectorID)
                               (transactions (db ex))))
      by (apply filter_In; now split).
    rewrite H in Hm. contradiction.
  - destruct H as (_ & Hin & Hmax). apply filter_In in Hin.
    repeat split; try tauto.
    intros other Ho Ha. apply Hmax. apply filter_In. now split.
Qed.

Lemma GetActiveByConnector_returns_the_newest_witness :
  reaches_tables (Sample.healthy Sample.two_chargers)
  /\ fst (transactionRepository.GetActiveByConnector
            (Sample.healthy Sample.two_chargers) "CP1" 1) = Ok (Some Sample.T1)
  /\ forall other, In other (transactions Sample.two_chargers) ->
       transactionRepository.active_on "CP1" 1 other = true ->
       Transaction.StartTime other <= Transaction.StartTime Sample.T1.
Proof.
  split; [reflexivity|]. split; [reflexivity|].
  pose proof (GetActiveByConnector_returns_the_newest
                (Sample.healthy Sample.two_chargers) "CP1" 1 eq_refl) as H.
  exact (proj2 (proj2 H)).
Defined.

Lemma filter_filter_implied {A} (p q : A -> bool) (l : list A) :
  (forall x, q x = true -> p x = true) ->
  filter q (filter p l) = filter q l.
Proof.
  intros H. induction l as [|a l IH]; [reflexivity|]. cbn [filter].
  destruct (p a) eqn:Hp; cbn [filter].
  - now rewrite IH.
  - destruct (q a) eqn:Hq; [|exact IH]. rewrite (H a Hq) in Hp. discriminate.
Qed.

(** X2.  [GetActive] lists every Active transaction once, the latest
    start first; and [GetActiveByConnector] agrees with it: it reports a
    transaction exactly when the list of [GetActive] has one of that
    connector, and the one it reports started when the first of them did. *)
Theorem GetActive_lists_active_newest_first (ex : Executor)
    (chargerID : string) (connectorID : Z) :
  reaches_tables ex ->
  exists active,
    fst (transactionRepository.GetActive ex) = Ok active
    /\ Permutation active
         (filter transactionRepository.is_active (transactions (db ex)))
    /\ descending Transaction.StartTime active
    /\ exists reported,
         fst (transactionRepository.GetActiveByConnector ex chargerID connectorID)
         = Ok reported
         /\ option_map Transaction.StartTime reported
            = option_map Transaction.StartTime
                (hd_error
                   (filter (transactionRepository.active_on chargerID connectorID)
                           active)).
Proof.
  intros Hf. unfold transactionRepository.GetActive.
  rewrite (QueryContext_ok ex _ Hf). eexists. split; [reflexivity|].
  split; [apply order_by_desc_perm|]. split; [apply order_by_desc_sorted|].
  unfold transactionRepository.GetActiveByConnector.
  rewrite (QueryRowContext_ok ex _ Hf), order_desc_limit1_head.
  rewrite filter_order_by_desc.
  assert (Hsame : filter (transactionRepository.active_on chargerID connectorID)
                    (filter transactionRepository.is_active (transactions (db ex)))
                  = filter (transactionRepository.active_on chargerID connectorID)
                           (transactions (db ex))).
  { apply filter_filter_implied. intros tx Ha.
    unfold transactionRepository.active_on in Ha.
    apply andb_prop in Ha. exact (proj2 Ha). }
  rewrite Hsame.
  destruct (order_by_desc Transaction.StartTime _) as [|tx rest];
    eexists; split; reflexivity.
Qed.

Lemma GetActive_lists_active_newest_first_witness :
  reaches_tables (Sample.healthy Sample.two_chargers)
  /\ fst (transactionRepository.GetActive (Sample.healthy Sample.two_chargers))
     = Ok [Sample.T3; Sample.T1].
Proof.
  split; [reflexivity|].
  destruct (GetActive_lists_active_newest_first
              (Sample.healthy Sample.two_chargers) "CP1" 1 eq_refl)
    as (active & Hget & _).
  rewrite Hget. f_equal.
  assert (H : Ok active = Ok [Sample.T3; Sample.T1])
    by (rewrite <- Hget; reflexivity).
  now inversion H.
Defined.

(** ** Keys of the transactions *)

Lemma id_below_next_rowid (d : DB) (tx : Transaction.t) :
  In tx (transactions d) -> Transaction.ID tx < transactionRepository.next_rowid d.
Proof.
  unfold transactionRepository.next_rowid. intros Hin.
  assert (H : Transaction.ID tx
              <= fold_right Z.max 0 (map Transaction.ID (transactions d))).
  { induction (transactions d) as [|a l IH]; [contradiction|].
    cbn [map fold_right]. destruct Hin as [<-|Hin]; [lia|].
    specialize (IH Hin). lia. }
  lia.
Qed.

(** A successful [Create], read backwards. *)
Lemma Create_success (src : nat -> transactionRepository.Reading)
    (current_timestamp : Time) (ex ex' : Executor)
    (req : CreateTransactionRequest.t) (tx : Transaction.t) :
  transactionRepository.Create src current_timestamp ex req = (Ok tx, ex') ->
  exists ocppTxID,
    tx = Transaction.mk (transactionRepository.next_rowid (db ex))
           (Some ocppTxID)
           (CreateTransactionRequest.ChargerID req)
           (CreateTransactionRequest.ConnectorID req)
           (CreateTransactionRequest.IDTag req)
           current_timestamp None
           (CreateTransactionRequest.MeterStart req) None
           0 "" "Active" current_timestamp current_timestamp
    /\ db ex' = mkDB (chargers (db ex)) (transactions (db ex) ++ [tx])%list
                     (Transaction.ID tx) (meter_values (db ex))
                     (charger_errors (db ex))
    /\ transaction_id_used (db ex) ocppTxID = false
    /\ charger_known (db ex) (CreateTransactionRequest.ChargerID req) = true.
Proof.
  unfold transactionRepository.Create.
  pose proof (Create_ocppTxID_reads_only src ex req) as Hdb.
  destruct (transactionRepository.Create_ocppTxID src ex req) as [[ocppTxID|e] ex1];
    cbn [snd] in Hdb; [|discriminate].
  unfold QueryRowContext_returning. rewrite next_statement_eq.
  destruct (hd false (faults ex1)); [discriminate|].
  rewrite after_statement_db, Hdb.
  unfold transactionRepository.insert_transaction, transaction_id_used, charger_known.
  destruct (existsb _ (transactions (db ex))) eqn:Hused; [discriminate|].
  destruct (existsb _ (chargers (db ex))) eqn:Hknown; cbn [negb]; [|discriminate].
  intros [= <- <-]. exists ocppTxID. repeat split; assumption.
Qed.

Lemma existsb_filter_none {A} (p : A -> bool) (l : list A) :
  existsb p l = false -> filter p l = [].
Proof.
  induction l as [|a l IH]; cbn; [reflexivity|].
  destruct (p a); cbn; [discriminate|exact IH].
Qed.

Lemma count_rows_length {A} (l : list A) :
  count_rows (fun _ => true) l = Z.of_nat (List.length l).
Proof.
  unfold count_rows. f_equal. f_equal.
  induction l as [|a l IH]; cbn; [reflexivity|now rewrite IH].
Qed.

(** X3.  A transaction [Create] has returned can be read back: on the
    executor [Create] leaves, [GetByID] with its internal id and
    [GetByTransactionID] with its external id both return that very row,
    and [Count] and the [CountByChargerID] of its charger are one higher
    than before while the count of every other charger is unchanged. *)
Theorem Create_then_read_back (src : nat -> transactionRepository.Reading)
    (current_timestamp : Time) (ex ex' : Executor)
    (req : CreateTransactionRequest.t) (tx : Transaction.t) :
  transactionRepository.Create src current_timestamp ex req = (Ok tx, ex') ->
  reaches_tables ex -> reaches_tables ex' ->
  exists ocppTxID count chargerCount,
    Transaction.TransactionID tx = Some ocppTxID
    /\ fst (transactionRepository.GetByID ex' (Transaction.ID tx)) = Ok tx
    /\ fst (transactionRepository.GetByTransactionID ex' ocppTxID) = Ok tx
    /\ fst (transactionRepository.Count ex) = Ok count
    /\ fst (transactionRepository.Count ex') = Ok (count + 1)
    /\ fst (transactionRepository.CountByChargerID ex (Transaction.ChargerID tx))
       = Ok chargerCount
    /\ fst (transactionRepository.CountByChargerID ex' (Transaction.ChargerID tx))
       = Ok (chargerCount + 1)
    /\ forall other, other <> Transaction.ChargerID tx ->
         fst (transactionRepository.CountByChargerID ex' other)
         = fst (transactionRepository.CountByChargerID ex other).
Proof.
  intros Hcreate Hf Hf'.
  destruct (Create_success _ _ _ _ _ _ Hcreate) as (i & Htx & Hdb & Hfree & _).
  exists i. eexists. eexists.
  split; [now rewrite Htx|].
  unfold transactionRepository.GetByID, transactionRepository.GetByTransactionID,
    transactionRepository.Count, transactionRepository.CountByChargerID.
  rewrite !(QueryRowContext_ok ex _ Hf), !(QueryRowContext_ok ex' _ Hf').
  rewrite Hdb. cbn [transactions fst].
  split; [|split; [|split; [reflexivity|split; [|split; [reflexivity|split]]]]].
  - rewrite filter_app.
    rewrite (filter_none (fun t => Transaction.ID t =? Transaction.ID tx)
               (transactions (db ex))).
    + cbn [filter app]. now rewrite Z.eqb_refl.
    + intros x Hx. apply Z.eqb_neq.
      pose proof (id_below_next_rowid (db ex) x Hx).
      rewrite Htx. cbn [Transaction.ID]. lia.
  - rewrite filter_app.
    rewrite (existsb_filter_none _ _ Hfree).
    cbn [filter app]. rewrite Htx.
    unfold transactionRepository.has_transaction_id.
    cbn [Transaction.TransactionID option_eqb]. now rewrite Z.eqb_refl.
  - now rewrite count_rows_app.
  - rewrite count_rows_app. now rewrite String.eqb_refl.
  - intros other Hother.
    rewrite (QueryRowContext_ok ex _ Hf), (QueryRowContext_ok ex' _ Hf'), Hdb.
    cbn [transactions fst]. rewrite count_rows_app.
    assert (Hne : (Transaction.ChargerID tx =? other)%string = false)
      by (apply String.eqb_neq; congruence).
    rewrite Hne. f_equal. lia.
Qed.

Lemma Create_then_read_back_witness :
  exists tx ex',
    transactionRepository.Create Sample.fresh 40 (Sample.healthy Sample.busy)
      (CreateTransactionRequest.mk None "CP1" 2 "xyz" 2000) = (Ok tx, ex')
    /\ fst (transactionRepository.GetByTransactionID ex' 1003) = Ok tx
    /\ fst (transactionRepository.Count ex') = Ok 3.
Proof.
  eexists. eexists. split; [reflexivity|].
  destruct (Create_then_read_back Sample.fresh 40 (Sample.healthy Sample.busy) _
              (CreateTransactionRequest.mk None "CP1" 2 "xyz" 2000) _
              eq_refl eq_refl eq_refl)
    as (i & count & chargerCount & Hi & _ & Hget & Hcount & Hcount' & _).
  injection Hi as <-. injection Hcount as <-.
  split; [exact Hget|exact Hcount'].
Defined.

(** ** What a statement leaves of the tables *)

Lemma QueryRowContext_db {A} (ex : Executor) (rows : DB -> list A) :
  db (snd (QueryRowContext ex rows)) = db ex.
Proof.
  unfold QueryRowContext. rewrite next_statement_eq.
  destruct (hd false (faults ex)); cbn [snd]; [apply after_statement_db|].
  destruct (rows _); apply after_statement_db.
Qed.

Lemma ExecContext_db (ex : Executor) (stmt : DB -> DB * Z) :
  db (snd (ExecContext ex stmt)) = db ex
  \/ db (snd (ExecContext ex stmt)) = fst (stmt (db ex)).
Proof.
  unfold ExecContext. rewrite next_statement_eq.
  destruct (hd false (faults ex)); cbn [snd]; [left; apply after_statement_db|].
  rewrite after_statement_db. right. now destruct (stmt (db ex)).
Qed.

Lemma QueryRowContext_returning_db {A} (ex : Executor)
    (stmt : DB -> result (DB * list A)) :
  db (snd (QueryRowContext_returning ex stmt)) = db ex
  \/ exists d rs, stmt (db ex) = Ok (d, rs)
                  /\ db (snd (QueryRowContext_returning ex stmt)) = d.
Proof.
  unfold QueryRowContext_returning. rewrite next_statement_eq.
  destruct (hd false (faults ex)); cbn [snd]; [left; apply after_statement_db|].
  rewrite after_statement_db.
  destruct (stmt (db ex)) as [[d [|r rs]]|e]; cbn [snd db].
  - right. now exists d, [].
  - right. now exists d, (r :: rs).
  - left. apply after_statement_db.
Qed.

(** ** The keys of [transactions] *)

Lemma map_update_where {A B} (f : A -> B) (p : A -> bool) (set : A -> A)
    (l : list A) :
  (forall r, f (set r) = f r) -> map f (update_where p set l) = map f l.
Proof.
  intros H. unfold update_where. rewrite map_map. apply map_ext.
  intros r. now destruct (p r).
Qed.

Lemma flat_map_update_where {A B} (g : A -> list B) (p : A -> bool)
    (set : A -> A) (l : list A) :
  (forall r, g (set r) = g r) -> flat_map g (update_where p set l) = flat_map g l.
Proof.
  intros H. induction l as [|a l IH]; [reflexivity|].
  cbn [update_where map flat_map]. fold (update_where p set l). rewrite IH.
  now destruct (p a); [rewrite H|].
Qed.

Lemma NoDup_flat_map_filter {A B} (g : A -> list B) (p : A -> bool) (l : list A) :
  NoDup (flat_map g l) -> NoDup (flat_map g (filter p l)).
Proof.
  induction l as [|a l IH]; [trivial|]. cbn [flat_map filter]. intros H.
  pose proof (NoDup_app_remove_l _ _ H) as Hl.
  destruct (p a); [|now apply IH]. cbn [flat_map].
  apply NoDup_app; [exact (NoDup_app_remove_r _ _ H)|now apply IH|].
  intros x Hx Hin. apply in_flat_map in Hin. destruct Hin as (y & Hy & Hxy).
  apply filter_In in Hy.
  assert (Hin : In x (flat_map g l)) by (apply in_flat_map; exists y; tauto).
  clear - H Hx Hin. induction (g a) as [|b bs IHb]; [contradiction|].
  cbn [app] in H. inversion H as [|? ? Hnot Hrest]; subst.
  destruct Hx as [<-|Hx]; [|now apply IHb].
  apply Hnot. apply in_or_app. now right.
Qed.

Lemma NoDup_map_filter {A B} (f : A -> B) (p : A -> bool) (l : list A) :
  NoDup (map f l) -> NoDup (map f (filter p l)).
Proof.
  intros H.
  assert (E : forall l', map f l' = flat_map (fun x => [f x]) l').
  { induction l' as [|a l' IH]; [reflexivity|]. cbn. now rewrite IH. }
  rewrite E in *. now apply NoDup_flat_map_filter.
Qed.

Lemma NoDup_snoc {A} (l : list A) (x : A) :
  NoDup l -> ~ In x l -> NoDup (l ++ [x]).
Proof.
  intros Hl Hx. apply NoDup_app; [exact Hl|repeat constructor; intros []|].
  intros a Ha [<-|[]]. contradiction.
Qed.

Lemma keys_unique_update_where (d : DB) (hit : Transaction.t -> bool)
    (set : Transaction.t -> Transaction.t) :
  (forall tx, Transaction.ID (set tx) = Transaction.ID tx) ->
  (forall tx, Transaction.TransactionID (set tx) = Transaction.TransactionID tx) ->
  transaction_keys_unique d ->
  transaction_keys_unique
    (with_transactions d (update_where hit set (transactions d))).
Proof.
  intros Hid Hext [Hids Hexts]. unfold transaction_keys_unique, external_ids.
  cbn [with_transactions transactions].
  rewrite map_update_where by exact Hid.
  rewrite flat_map_update_where; [now split|].
  intros tx. now rewrite Hext.
Qed.

Lemma assign_keeps_keys (current_timestamp : Time)
    (setParts : list transactionRepository.setPart) (tx : Transaction.t) :
  Transaction.ID (fold_left (transactionRepository.assign current_timestamp)
                            setParts tx) = Transaction.ID tx
  /\ Transaction.TransactionID
       (fold_left (transactionRepository.assign current_timestamp) setParts tx)
     = Transaction.TransactionID tx.
Proof.
  revert tx. induction setParts as [|p ps IH]; intros tx; [now split|].
  cbn [fold_left]. destruct (IH (transactionRepository.assign current_timestamp tx p))
    as [-> ->].
  now destruct p.
Qed.

Lemma external_id_used (d : DB) (ocppTxID : Z) :
  In ocppTxID (external_ids d) -> transaction_id_used d ocppTxID = true.
Proof.
  unfold external_ids, transaction_id_used. intros H.
  apply in_flat_map in H. destruct H as (tx & Htx & Hin).
  apply existsb_exists. exists tx. split; [exact Htx|].
  unfold transactionRepository.has_transaction_id.
  destruct (Transaction.TransactionID tx) as [i|]; [|contradiction].
  destruct Hin as [->|[]]. cbn. apply Z.eqb_refl.
Qed.

(** X4.  The two keys the schema declares for [transactions], the
    internal [id] and the external [transaction_id], stay unique under
    every writer of the table: whatever the driver does and whatever its
    arguments, [Create], [Update], [Stop] and [Delete] leave tables in
    which no two transactions share an internal or an external id. *)
Theorem transaction_keys_stay_unique
    (src : nat -> transactionRepository.Reading) (current_timestamp : Time)
    (ex : Executor) (req : CreateTransactionRequest.t) (id meterStop : Z)
    (update : UpdateTransactionRequest.t) (stopTime : Time) (stopReason : string) :
  transaction_keys_unique (db ex) ->
  transaction_keys_unique
    (db (snd (transactionRepository.Create src current_timestamp ex req)))
  /\ transaction_keys_unique
       (db (snd (transactionRepository.Update current_timestamp ex id update)))
  /\ transaction_keys_unique
       (db (snd (transactionRepository.Stop current_timestamp ex id meterStop
                   stopTime stopReason)))
  /\ transaction_keys_unique (db (snd (transactionRepository.Delete ex id))).
Proof.
  intros Hkeys. split; [|split; [|split]].
  - pose proof (Create_outcome src current_timestamp ex req) as H.
    destruct (transactionRepository.Create src current_timestamp ex req)
      as [[tx|e] ex'] eqn:Hcreate; cbn [snd]; [|now rewrite H].
    destruct (Create_success _ _ _ _ _ _ Hcreate) as (i & Htx & Hdb & Hfree & _).
    rewrite Hdb. destruct Hkeys as [Hids Hexts].
    unfold transaction_keys_unique, external_ids. cbn [transactions].
    rewrite map_app, flat_map_app. cbn [map flat_map]. rewrite app_nil_r.
    split.
    + apply NoDup_snoc; [exact Hids|]. intros Hin.
      apply in_map_iff in Hin. destruct Hin as (old & Hold & Hin).
      pose proof (id_below_next_rowid (db ex) old Hin).
      rewrite Htx in Hold. cbn [Transaction.ID] in Hold. lia.
    + rewrite Htx at 1. cbn [Transaction.TransactionID].
      apply NoDup_snoc; [exact Hexts|]. intros Hin.
      apply external_id_used in Hin. congruence.
  - unfold transactionRepository.Update.
    destruct (List.length _ =? 0)%nat.
    + unfold transactionRepository.GetByID.
      pose proof (QueryRowContext_db ex (fun d =>
                    filter (fun tx => Transaction.ID tx =? id) (transactions d))) as H.
      destruct (QueryRowContext ex _) as [[tx|[]] ex']; cbn [snd] in *; now rewrite H.
    + match goal with
      | |- context [QueryRowContext_returning ex ?stmt] =>
          pose proof (QueryRowContext_returning_db ex stmt) as H;
          destruct (QueryRowContext_returning ex stmt) as [[tx|[]] ex']
      end; cbn [snd] in *;
        (destruct H as [->|(d & rs & [= <- _] & ->)];
         [exact Hkeys|
          apply keys_unique_update_where;
          [intros tx0; apply assign_keeps_keys
          |intros tx0; apply assign_keeps_keys
          |exact Hkeys]]).
  - unfold transactionRepository.Stop.
    match goal with
    | |- context [QueryRowContext ex ?rows] =>
        pose proof (QueryRowContext_db ex rows) as H;
        destruct (QueryRowContext ex rows) as [[meterStart|e] ex1]
    end; cbn [snd] in H; [|cbn [snd]; now rewrite H].
    match goal with
    | |- context [ExecContext ex1 ?stmt] =>
        pose proof (ExecContext_db ex1 stmt) as H1;
        destruct (ExecContext ex1 stmt) as [[rowsAffected|e] ex2]
    end; cbn [snd fst] in H1.
    + assert (Hgoal : transaction_keys_unique (db ex2)).
      { destruct H1 as [->| ->]; rewrite H; [exact Hkeys|].
        apply keys_unique_update_where; trivial. }
      now destruct (rowsAffected =? 0).
    + cbn [snd]. destruct H1 as [->| ->]; rewrite H; [exact Hkeys|].
      apply keys_unique_update_where; trivial.
  - unfold transactionRepository.Delete.
    pose proof (ExecContext_db ex (transactionRepository.delete_where_id id)) as H.
    assert (Hdel : transaction_keys_unique
                     (fst (transactionRepository.delete_where_id id (db ex)))).
    { destruct Hkeys as [Hids Hexts]. split.
      - now apply NoDup_map_filter.
      - now apply NoDup_flat_map_filter. }
    destruct (ExecContext ex _) as [[rowsAffected|e] ex']; cbn [snd] in H.
    + assert (Hgoal : transaction_keys_unique (db ex'))
        by (destruct H as [->| ->]; assumption).
      now destruct (rowsAffected =? 0).
    + cbn [snd]. destruct H as [->| ->]; assumption.
Qed.

Lemma transaction_keys_stay_unique_witness :
  transaction_keys_unique Sample.busy
  /\ transaction_keys_unique
       (db (snd (transactionRepository.Create Sample.stuck 40
                   (Sample.healthy Sample.busy)
                   (CreateTransactionRequest.mk (Some 1001) "CP1" 1 "xyz" 2000)))).
Proof.
  assert (H : transaction_keys_unique Sample.busy).
  { split; cbn; repeat constructor; cbn; intuition lia. }
  split; [exact H|].
  exact (proj1 (transaction_keys_stay_unique Sample.stuck 40
                  (Sample.healthy Sample.busy)
                  (CreateTransactionRequest.mk (Some 1001) "CP1" 1 "xyz" 2000)
                  1 0 (UpdateTransactionRequest.mk None None None None None)
                  0 "" H)).
Defined.

(** ** Deleting a transaction *)

Lemma filter_all {A} (p : A -> bool) (l : list A) :
  (forall x, In x l -> p x = true) -> filter p l = l.
Proof.
  induction l as [|a l IH]; intros H; [reflexivity|]. cbn [filter].
  rewrite (H a (or_introl eq_refl)). f_equal. apply IH.
  intros x Hx. apply H. now right.
Qed.

Lemma find_none_existsb {A} (p : A -> bool) (l : list A) :
  find p l = None -> existsb p l = false.
Proof.
  induction l as [|a l IH]; [reflexivity|]. cbn [find existsb].
  destruct (p a); [discriminate|exact IH].
Qed.

Lemma find_some_existsb {A} (p : A -> bool) (l : list A) (x : A) :
  find p l = Some x -> existsb p l = true.
Proof.
  intros H. apply find_some in H. apply existsb_exists. now exists x.
Qed.

Lemma option_eqb_Z (a : option Z) (i : Z) :
  option_eqb Z.eqb a (Some i) = true <-> a = Some i.
Proof.
  destruct a as [x|]; cbn; [|split; discriminate].
  rewrite Z.eqb_eq. split; [now intros ->|now intros [= ->]].
Qed.

Lemma reaches_tables_second (ex : Executor) (d : DB) :
  statements_reach_tables 2 ex ->
  reaches_tables (mkExecutor d (faults (after_statement ex))).
Proof.
  intros H. apply (reaches_tables_first 0). now apply reaches_tables_next.
Qed.

Lemma transaction_Delete_spec (ex : Executor) (id : Z) :
  reaches_tables ex ->
  transactionRepository.Delete ex id
  = (if existsb (fun tx => Transaction.ID tx =? id) (transactions (db ex))
     then Ok tt else Err (Errorf "transaction not found: %d"),
     mkExecutor (fst (transactionRepository.delete_where_id id (db ex)))
                (faults (after_statement ex))).
Proof.
  intros Hf. unfold transactionRepository.Delete.
  rewrite (ExecContext_ok _ _ Hf). cbn [transactionRepository.delete_where_id snd].
  destruct (existsb _ _) eqn:Hex.
  - destruct (count_rows _ _ =? 0) eqn:Hc; [|reflexivity].
    apply Z.eqb_eq, count_rows_zero in Hc. congruence.
  - assert (Hc : count_rows (fun tx => Transaction.ID tx =? id)
                            (transactions (db ex)) = 0).
    { unfold count_rows. now rewrite (existsb_filter_none _ _ Hex). }
    now rewrite Hc.
Qed.

(** X5.  [Delete] of a transaction, when its statements reach the
    tables.  An id no transaction has gives "transaction not found" and
    leaves every table as it was.  An id a transaction has removes exactly
    the transactions with that id and, by the cascade of the schema, exactly
    the meter values recorded for it; chargers and charger errors stay,
    and afterwards [GetByID] and a second [Delete] of the id both report
    "transaction not found". *)
Theorem Delete_removes_transaction_and_meter_values (ex : Executor) (id : Z) :
  statements_reach_tables 2 ex ->
  let deleted := transactionRepository.Delete ex id in
  match transaction_with_id (db ex) id with
  | None =>
      fst deleted = Err (Errorf "transaction not found: %d")
      /\ db (snd deleted) = db ex
  | Some _ =>
      fst deleted = Ok tt
      /\ (forall tx, In tx (transactions (db (snd deleted)))
                     <-> In tx (transactions (db ex)) /\ Transaction.ID tx <> id)
      /\ (forall mv, In mv (meter_values (db (snd deleted)))
                     <-> In mv (meter_values (db ex))
                         /\ MeterValue.TransactionID mv <> Some id)
      /\ chargers (db (snd deleted)) = chargers (db ex)
      /\ charger_errors (db (snd deleted)) = charger_errors (db ex)
      /\ fst (transactionRepository.GetByID (snd deleted) id)
         = Err (Errorf "transaction not found: %d")
      /\ fst (transactionRepository.Delete (snd deleted) id)
         = Err (Errorf "transaction not found: %d")
  end.
Proof.
  intros H2 deleted. subst deleted.
  pose proof (reaches_tables_first 1 ex H2) as Hf.
  rewrite (transaction_Delete_spec ex id Hf). cbn [fst snd db].
  unfold transaction_with_id.
  destruct (find _ _) as [tx|] eqn:Hfind.
  - rewrite (find_some_existsb _ _ _ Hfind).
    assert (Hgone : forall r,
              In r (filter (fun tx => negb (Transaction.ID tx =? id))
                           (transactions (db ex))) ->
              (Transaction.ID r =? id) = false).
    { intros r Hr. apply filter_In in Hr. now apply negb_true_iff. }
    split; [reflexivity|].
    cbn [transactionRepository.delete_where_id fst transactions meter_values
         chargers charger_errors].
    rewrite (find_some_existsb _ _ _ Hfind). cbn [andb].
    split; [|split; [|split; [reflexivity|split; [reflexivity|split]]]].
    + intros r. rewrite filter_In, negb_true_iff, Z.eqb_neq. tauto.
    + intros mv. rewrite filter_In, negb_true_iff.
      rewrite <- not_true_iff_false, option_eqb_Z. tauto.
    + unfold transactionRepository.GetByID.
      rewrite QueryRowContext_ok by now apply reaches_tables_second.
      cbn [db transactions fst]. now rewrite (filter_none _ _ Hgone).
    + rewrite transaction_Delete_spec by now apply reaches_tables_second.
      cbn [db transactions fst].
      destruct (existsb _ _) eqn:Hex; [|reflexivity].
      apply existsb_exists in Hex. destruct Hex as (r & Hr & Hid).
      rewrite (Hgone r Hr) in Hid. discriminate.
  - rewrite (find_none_existsb _ _ Hfind). split; [reflexivity|].
    cbn [transactionRepository.delete_where_id fst].
    rewrite (find_none_existsb _ _ Hfind). cbn [andb negb].
    rewrite !filter_all; [now destruct (db ex)|reflexivity|].
    intros r Hr. apply negb_true_iff. exact (find_none _ _ Hfind r Hr).
Qed.

Lemma Delete_removes_transaction_and_meter_values_witness :
  statements_reach_tables 2 (Sample.healthy Sample.busy)
  /\ db (snd (transactionRepository.Delete (Sample.healthy Sample.busy) 1))
     = mkDB [Sample.CP1] [Sample.T2] 2 [] [Sample.E1; Sample.E2]
  /\ fst (transactionRepository.GetByID
            (snd (transactionRepository.Delete (Sample.healthy Sample.busy) 1)) 1)
     = Err (Errorf "transaction not found: %d").
Proof.
  assert (H : statements_reach_tables 2 (Sample.healthy Sample.busy))
    by (intros [|[|k]] Hk; reflexivity).
  split; [exact H|]. split; [reflexivity|].
  pose proof (Delete_removes_transaction_and_meter_values
                (Sample.healthy Sample.busy) 1 H) as Hdel.
  exact (proj1 (proj2 (proj2 (proj2 (proj2 (proj2 Hdel)))))).
Defined.

(** ** Stopping a transaction *)

Lemma count_rows_cons {A} (p : A -> bool) (a : A) (l : list A) :
  count_rows p (a :: l) = (if p a then 1 else 0) + count_rows p l.
Proof.
  unfold count_rows. cbn [filter]. destruct (p a); [|lia].
  cbn [List.length]. lia.
Qed.

Lemma update_where_none {A} (p : A -> bool) (set : A -> A) (l : list A) :
  (forall x, In x l -> p x = false) -> update_where p set l = l.
Proof.
  intros H. unfold update_where. rewrite <- (map_id l) at 2.
  apply map_ext_in. intros x Hx. now rewrite (H x Hx).
Qed.

(** Rewriting the only row with a given id changes a count by what that
    row contributed before and contributes afterwards. *)
Lemma count_rows_update_unique (p : Transaction.t -> bool)
    (set : Transaction.t -> Transaction.t) (id : Z) (l : list Transaction.t)
    (tx : Transaction.t) :
  NoDup (map Transaction.ID l) ->
  find (fun r => Transaction.ID r =? id) l = Some tx ->
  count_rows p (update_where (fun r => Transaction.ID r =? id) set l)
  = count_rows p l - (if p tx then 1 else 0) + (if p (set tx) then 1 else 0).
Proof.
  induction l as [|a l IH]; [discriminate|].
  cbn [map find]. intros Hnd Hfind. inversion Hnd as [|? ? Hnot Hl]; subst.
  unfold update_where. cbn [map]. fold (update_where (fun r => Transaction.ID r =? id) set l).
  rewrite !count_rows_cons.
  destruct (Transaction.ID a =? id) eqn:Ha.
  - injection Hfind as <-.
    rewrite update_where_none; [lia|].
    intros x Hx. apply Z.eqb_neq. intros Hid. apply Hnot.
    apply Z.eqb_eq in Ha. rewrite Ha, <- Hid. now apply in_map.
  - rewrite (IH Hl Hfind). lia.
Qed.

(** X6.  [Stop] of an id no transaction has: the first statement finds
    no meter start, so the error is the wrapped [sql.ErrNoRows] of that
    read and not the "transaction not found" of the update; the update is
    not sent and the tables stay as they were. *)
Theorem Stop_of_unknown_transaction (current_timestamp : Time) (ex : Executor)
    (id meterStop : Z) (stopTime : Time) (stopReason : string) :
  reaches_tables ex ->
  transaction_with_id (db ex) id = None ->
  transactionRepository.Stop current_timestamp ex id meterStop stopTime stopReason
  = (Err (Wrapf "failed to get meter start: %w" ErrNoRows), after_statement ex).
Proof.
  intros Hf Hnone. unfold transactionRepository.Stop.
  rewrite (QueryRowContext_ok ex _ Hf).
  unfold transaction_with_id in Hnone.
  rewrite (existsb_filter_none _ _ (find_none_existsb _ _ Hnone)).
  reflexivity.
Qed.

Lemma Stop_of_unknown_transaction_witness :
  transaction_with_id Sample.idle 1 = None
  /\ transactionRepository.Stop 50 (Sample.healthy Sample.idle) 1 1500 49 "Local"
     = (Err (Wrapf "failed to get meter start: %w" ErrNoRows),
        Sample.healthy Sample.idle).
Proof.
  split; [reflexivity|].
  exact (Stop_of_unknown_transaction 50 (Sample.healthy Sample.idle) 1 1500 49
           "Local" eq_refl eq_refl).
Defined.

(** X7.  In tables whose transaction ids are unique, [Stop] of an Active
    transaction takes exactly one transaction out of the Active ones of
    its connector, leaves the number of Active transactions of every other
    connector as it was, and the stopped transaction is no longer in the
    list of [GetActive]. *)
Theorem Stop_frees_the_connector (current_timestamp : Time) (ex : Executor)
    (id meterStop : Z) (stopTime : Time) (stopReason : string)
    (tx : Transaction.t) :
  statements_reach_tables 3 ex ->
  transaction_keys_unique (db ex) ->
  transaction_with_id (db ex) id = Some tx ->
  Transaction.Status tx = "Active" ->
  exists ex',
    transactionRepository.Stop current_timestamp ex id meterStop stopTime stopReason
    = (Ok tt, ex')
    /\ active_count (db ex') (Transaction.ChargerID tx) (Transaction.ConnectorID tx)
       = active_count (db ex) (Transaction.ChargerID tx) (Transaction.ConnectorID tx)
         - 1
    /\ (forall chargerID connectorID,
          (chargerID, connectorID)
          <> (Transaction.ChargerID tx, Transaction.ConnectorID tx) ->
          active_count (db ex') chargerID connectorID
          = active_count (db ex) chargerID connectorID)
    /\ exists active,
         fst (transactionRepository.GetActive ex') = Ok active
         /\ forall other, In other active -> Transaction.ID other <> id.
Proof.
  intros H3 [Hids _] Hfind Hactive.
  assert (Hf : reaches_tables ex) by exact (reaches_tables_first 2 ex H3).
  pose proof (find_filter _ _ _ Hfind) as [rest Hrows].
  unfold transactionRepository.Stop.
  rewrite (QueryRowContext_ok ex _ Hf). unfold transaction_with_id in Hfind.
  rewrite Hrows. cbn [map].
  set (energyDelivered :=
         if GoInt.sub meterStop (Transaction.MeterStart tx) <? 0 then 0
         else GoInt.sub meterStop (Transaction.MeterStart tx)).
  assert (Hf1 : reaches_tables (after_statement ex)).
  { unfold reaches_tables. rewrite after_statement_faults.
    specialize (H3 1%nat ltac:(lia)). now destruct (faults ex) as [|? [|? ?]]. }
  rewrite (ExecContext_ok _ _ Hf1). cbn [fst snd]. rewrite !after_statement_db.
  rewrite (count_rows_found _ _ _ Hfind).
  eexists. split; [reflexivity|]. cbn [db].
  unfold active_count. cbn [with_transactions transactions].
  assert (Hcount : forall chargerID connectorID,
            count_rows (transactionRepository.active_on chargerID connectorID)
              (update_where (fun r => Transaction.ID r =? id)
                 (transactionRepository.stopped current_timestamp meterStop
                    stopTime stopReason energyDelivered)
                 (transactions (db ex)))
            = count_rows (transactionRepository.active_on chargerID connectorID)
                         (transactions (db ex))
              - (if transactionRepository.active_on chargerID connectorID tx
                 then 1 else 0)).
  { intros chargerID connectorID.
    rewrite (count_rows_update_unique _ _ id _ tx Hids Hfind).
    unfold transactionRepository.active_on at 3.
    cbn [transactionRepository.stopped Transaction.Status Transaction.ChargerID
         Transaction.ConnectorID].
    replace ("Completed" =? "Active")%string with false by reflexivity.
    rewrite andb_false_r. lia. }
  split; [|split].
  - rewrite Hcount. unfold transactionRepository.active_on.
    now rewrite String.eqb_refl, Z.eqb_refl, Hactive.
  - intros chargerID connectorID Hother. rewrite Hcount.
    unfold transactionRepository.active_on at 2.
    destruct (String.eqb_spec (Transaction.ChargerID tx) chargerID) as [<-|];
      [|cbn [andb]; lia].
    destruct (Z.eqb_spec (Transaction.ConnectorID tx) connectorID) as [<-|];
      [contradiction|cbn [andb]; lia].
  - unfold transactionRepository.GetActive.
    rewrite QueryContext_ok.
    2:{ unfold reaches_tables. cbn [faults]. rewrite !after_statement_faults.
        specialize (H3 2%nat ltac:(lia)).
        now destruct (faults ex) as [|? [|? [|? ?]]]. }
    eexists. split; [reflexivity|]. cbn [db with_transactions transactions].
    intros other Hin Hid.
    apply (Permutation_in _ (order_by_desc_perm _ _)) in Hin.
    apply filter_In in Hin. destruct Hin as [Hin Hact].
    unfold update_where in Hin. apply in_map_iff in Hin.
    destruct Hin as (r & Hr & _).
    destruct (Transaction.ID r =? id) eqn:Hrid.
    + subst other. discriminate Hact.
    + subst other. apply Z.eqb_neq in Hrid. contradiction.
Qed.

Lemma Stop_frees_the_connector_witness :
  transaction_keys_unique Sample.busy
  /\ active_count Sample.busy "CP1" 1 = 1
  /\ exists ex',
       transactionRepository.Stop 50 (Sample.healthy Sample.busy) 1 1500 49 "Local"
       = (Ok tt, ex')
       /\ active_count (db ex') "CP1" 1 = 0.
Proof.
  assert (Hkeys : transaction_keys_unique Sample.busy).
  { split; cbn; repeat constructor; cbn; intuition lia. }
  assert (H3 : statements_reach_tables 3 (Sample.healthy Sample.busy))
    by (intros [|[|[|k]]] Hk; reflexivity).
  split; [exact Hkeys|]. split; [reflexivity|].
  destruct (Stop_frees_the_connector 50 (Sample.healthy Sample.busy) 1 1500 49
              "Local" Sample.T1 H3 Hkeys eq_refl eq_refl)
    as (ex' & Hstop & Hcount & _).
  exists ex'. split; [exact Hstop|exact Hcount].
Defined.

(** ** Candidate session identifiers *)

(** X8.  The candidate [GenerateTransactionID] computes from a reading of
    the clock after the epoch and a random number below 1000, when the sum
    fits in 64 bits: it is [now * 1000 + random], at least 1000, so the
    fallback on the second clock reading is not taken; the clock reading
    and the random number can be read back from it, and so two such
    readings give the same candidate only if they agree on both. *)
Theorem candidateID_encodes_clock_and_random (r : transactionRepository.Reading) :
  0 < transactionRepository.now r ->
  0 <= transactionRepository.random r < 1000 ->
  transactionRepository.now r * 1000 + transactionRepository.random r
    <= GoInt.MaxInt64 ->
  transactionRepository.candidateID r
    = transactionRepository.now r * 1000 + transactionRepository.random r
  /\ 1000 <= transactionRepository.candidateID r
  /\ transactionRepository.candidateID r / 1000 = transactionRepository.now r
  /\ transactionRepository.candidateID r mod 1000 = transactionRepository.random r
  /\ forall r' : transactionRepository.Reading,
       0 < transactionRepository.now r' ->
       0 <= transactionRepository.random r' < 1000 ->
       transactionRepository.now r' * 1000 + transactionRepository.random r'
         <= GoInt.MaxInt64 ->
       transactionRepository.candidateID r' = transactionRepository.candidateID r ->
       transactionRepository.now r' = transactionRepository.now r
       /\ transactionRepository.random r' = transactionRepository.random r.
Proof.
  assert (Hval : forall q : transactionRepository.Reading,
            0 < transactionRepository.now q ->
            0 <= transactionRepository.random q < 1000 ->
            transactionRepository.now q * 1000 + transactionRepository.random q
              <= GoInt.MaxInt64 ->
            transactionRepository.candidateID q
            = transactionRepository.now q * 1000 + transactionRepository.random q).
  { intros q Hnow Hrandom Hfits.
    unfold transactionRepository.candidateID, GoInt.muladd.
    unfold GoInt.MaxInt64 in Hfits.
    rewrite (wrap64_in_range (transactionRepository.now q * 1000))
      by (unfold GoInt.in_int64, GoInt.MinInt64, GoInt.MaxInt64; lia).
    rewrite wrap64_in_range
      by (unfold GoInt.in_int64, GoInt.MinInt64, GoInt.MaxInt64; lia).
    destruct (Z.leb_spec (transactionRepository.now q * 1000
                          + transactionRepository.random q) 0); [lia|reflexivity]. }
  intros Hnow Hrandom Hfits. rewrite (Hval r Hnow Hrandom Hfits).
  split; [reflexivity|]. split; [lia|].
  split; [symmetry; apply (Z.div_unique _ _ _ (transactionRepository.random r)); lia|].
  split; [symmetry; apply (Z.mod_unique _ _ (transactionRepository.now r)); lia|].
  intros r' Hnow' Hrandom' Hfits' Heq. rewrite (Hval r' Hnow' Hrandom' Hfits') in Heq.
  lia.
Qed.

Lemma candidateID_encodes_clock_and_random_witness :
  transactionRepository.candidateID (transactionRepository.mkReading 1793430000 7 0)
  = 1793430000007.
Proof.
  exact (proj1 (candidateID_encodes_clock_and_random
                  (transactionRepository.mkReading 1793430000 7 0)
                  ltac:(cbn; lia) ltac:(cbn; lia)
                  ltac:(unfold GoInt.MaxInt64; cbn; lia))).
Defined.

(** ** Chargers *)

Lemma with_chargers_same (d : DB) : with_chargers d (chargers d) = d.
Proof. now destruct d. Qed.

Lemma charger_exec_update_spec (ex : Executor) (id : string)
    (set : Charger.t -> Charger.t) (format : string) :
  reaches_tables ex ->
  chargerRepository.exec_update ex id set format
  = (if existsb (fun c => Charger.ID c =? id)%string (chargers (db ex))
     then Ok tt else Err (Errorf "charger not found: %s"),
     mkExecutor
       (with_chargers (db ex)
          (update_where (fun c => Charger.ID c =? id)%string set (chargers (db ex))))
       (faults (after_statement ex))).
Proof.
  intros Hf. unfold chargerRepository.exec_update.
  rewrite (ExecContext_ok _ _ Hf). cbn [fst snd].
  destruct (existsb _ _) eqn:Hex.
  - destruct (count_rows _ _ =? 0) eqn:Hc; [|reflexivity].
    apply Z.eqb_eq, count_rows_zero in Hc. congruence.
  - unfold count_rows. now rewrite (existsb_filter_none _ _ Hex).
Qed.

Lemma charger_exec_update_unknown (ex : Executor) (id : string)
    (set : Charger.t -> Charger.t) (format : string) :
  reaches_tables ex -> charger_with_id (db ex) id = None ->
  fst (chargerRepository.exec_update ex id set format)
  = Err (Errorf "charger not found: %s")
  /\ db (snd (chargerRepository.exec_update ex id set format)) = db ex.
Proof.
  intros Hf Hnone. rewrite (charger_exec_update_spec ex id set format Hf).
  unfold charger_with_id in Hnone. rewrite (find_none_existsb _ _ Hnone).
  split; [reflexivity|]. cbn [snd db].
  rewrite update_where_none; [apply with_chargers_same|].
  exact (find_none _ _ Hnone).
Qed.

Lemma charger_exec_update_known (ex : Executor) (id : string)
    (set : Charger.t -> Charger.t) (format : string) (c : Charger.t) :
  reaches_tables ex -> charger_with_id (db ex) id = Some c ->
  (forall r, Charger.ID (set r) = Charger.ID r) ->
  fst (chargerRepository.exec_update ex id set format) = Ok tt
  /\ charger_with_id (db (snd (chargerRepository.exec_update ex id set format))) id
     = Some (set c)
  /\ transactions (db (snd (chargerRepository.exec_update ex id set format)))
     = transactions (db ex)
  /\ forall other, In other (chargers (db ex)) -> Charger.ID other <> id ->
       In other (chargers (db (snd (chargerRepository.exec_update ex id set format)))).
Proof.
  intros Hf Hsome Hid. rewrite (charger_exec_update_spec ex id set format Hf).
  unfold charger_with_id in *. rewrite (find_some_existsb _ _ _ Hsome).
  cbn [fst snd db with_chargers chargers transactions].
  split; [reflexivity|]. split; [|split; [reflexivity|]].
  - apply find_update_where; [|exact Hsome]. intros r. now rewrite Hid.
  - intros other Hin Hne. apply update_where_others; [exact Hin|].
    now apply String.eqb_neq.
Qed.

Lemma charger_Create_spec (current_timestamp : Time) (ex : Executor)
    (req : CreateChargerRequest.t) :
  reaches_tables ex ->
  let c := Charger.mk (CreateChargerRequest.ID req) (CreateChargerRequest.Name req)
             (CreateChargerRequest.Vendor req) (CreateChargerRequest.Model req)
             (CreateChargerRequest.SerialNumber req)
             (CreateChargerRequest.FirmwareVersion req)
             (CreateChargerRequest.ICCID req) (CreateChargerRequest.IMSI req)
             "Unknown" false None None None None None
             current_timestamp current_timestamp in
  chargerRepository.Create current_timestamp ex req
  = if existsb (fun r => Charger.ID r =? CreateChargerRequest.ID req)%string
               (chargers (db ex))
    then (Err (Wrapf "failed to create charger: %w"
                 (ErrConstraint "UNIQUE constraint failed: chargers.id")),
          after_statement ex)
    else (Ok c,
          mkExecutor (with_chargers (db ex) (chargers (db ex) ++ [c])%list)
                     (faults (after_statement ex))).
Proof.
  intros Hf c. unfold chargerRepository.Create, QueryRowContext_returning.
  rewrite (next_statement_ok ex Hf), after_statement_db.
  unfold chargerRepository.insert_charger.
  now destruct (existsb _ _).
Qed.

(** X9.  [Create] of a charger registers it once.  When no charger has
    the id, the new row is appended with status "Unknown", not connected,
    no timestamp set and both creation and modification time at the
    current instant, [GetByID] returns it and [Count] is one higher; when
    a charger already has the id, the primary key refuses the INSERT and
    the tables stay as they were, so a second [Create] of the same id
    always fails. *)
Theorem charger_Create_registers_once (current_timestamp : Time) (ex : Executor)
    (req : CreateChargerRequest.t) :
  statements_reach_tables 2 ex ->
  let created := chargerRepository.Create current_timestamp ex req in
  match charger_with_id (db ex) (CreateChargerRequest.ID req) with
  | Some _ =>
      fst created
      = Err (Wrapf "failed to create charger: %w"
               (ErrConstraint "UNIQUE constraint failed: chargers.id"))
      /\ db (snd created) = db ex
  | None =>
      exists c,
        fst created = Ok c
        /\ db (snd created) = with_chargers (db ex) (chargers (db ex) ++ [c])%list
        /\ Charger.ID c = CreateChargerRequest.ID req
        /\ Charger.Status c = "Unknown"
        /\ Charger.IsConnected c = false
        /\ (forall col, column_value col c = None)
        /\ Charger.CreatedAt c = current_timestamp
        /\ Charger.UpdatedAt c = current_timestamp
        /\ fst (chargerRepository.GetByID (snd created) (CreateChargerRequest.ID req))
           = Ok c
        /\ (exists count,
              fst (chargerRepository.Count ex) = Ok count
              /\ fst (chargerRepository.Count (snd created)) = Ok (count + 1))
        /\ fst (chargerRepository.Create current_timestamp (snd created) req)
           = Err (Wrapf "failed to create charger: %w"
                    (ErrConstraint "UNIQUE constraint failed: chargers.id"))
  end.
Proof.
  intros H2 created. subst created.
  pose proof (reaches_tables_first 1 ex H2) as Hf.
  rewrite (charger_Create_spec current_timestamp ex req Hf).
  unfold charger_with_id.
  destruct (find _ _) as [old|] eqn:Hfind.
  - rewrite (find_some_existsb _ _ _ Hfind). cbn [fst snd].
    split; [reflexivity|apply after_statement_db].
  - rewrite (find_none_existsb _ _ Hfind). cbn [fst snd db].
    match goal with
    | |- context [Ok ?row = Ok _] => set (c := row)
    end.
    exists c. do 2 (split; [reflexivity|]).
    do 3 (split; [reflexivity|]). split; [now intros []|].
    do 2 (split; [reflexivity|]).
    assert (Hf' : reaches_tables
                    (mkExecutor
                       (with_chargers (db ex) (chargers (db ex) ++ [c])%list)
                       (faults (after_statement ex))))
      by now apply reaches_tables_second.
    split; [|split].
    + unfold chargerRepository.GetByID. rewrite (QueryRowContext_ok _ _ Hf').
      cbn [db with_chargers chargers fst]. rewrite filter_app.
      rewrite (existsb_filter_none _ _ (find_none_existsb _ _ Hfind)).
      cbn [filter app]. unfold c at 1. cbn [Charger.ID].
      now rewrite String.eqb_refl.
    + unfold chargerRepository.Count.
      rewrite (QueryRowContext_ok _ _ Hf), (QueryRowContext_ok _ _ Hf').
      cbn [db with_chargers chargers fst]. eexists. split; [reflexivity|].
      now rewrite count_rows_app.
    + rewrite (charger_Create_spec current_timestamp _ req Hf').
      cbn [db with_chargers chargers]. rewrite existsb_app.
      cbn [existsb]. unfold c at 1. cbn [Charger.ID]. rewrite String.eqb_refl.
      now rewrite orb_true_r.
Qed.

Lemma charger_Create_registers_once_witness :
  statements_reach_tables 2 (Sample.healthy Sample.busy)
  /\ fst (chargerRepository.Create 70 (Sample.healthy Sample.busy)
            (CreateChargerRequest.mk "CP1" "Depot 1 again" "" "" "" "" "" ""))
     = Err (Wrapf "failed to create charger: %w"
              (ErrConstraint "UNIQUE constraint failed: chargers.id")).
Proof.
  assert (H : statements_reach_tables 2 (Sample.healthy Sample.busy))
    by (intros [|[|k]] Hk; reflexivity).
  split; [exact H|].
  exact (proj1 (charger_Create_registers_once 70 (Sample.healthy Sample.busy)
                  (CreateChargerRequest.mk "CP1" "Depot 1 again" "" "" "" "" "" "")
                  H)).
Defined.

(** X10.  No setter of a charger column creates the charger: with an id
    no charger has, [UpdateConnectionStatus], [UpdateStatus] and the five
    setters of a timestamp all report "charger not found" and leave the
    tables as they were. *)
Theorem charger_setters_need_the_charger (current_timestamp : Time)
    (ex : Executor) (id : string) (isConnected : bool) (status : string)
    (timestamp : Time) :
  reaches_tables ex ->
  charger_with_id (db ex) id = None ->
  Forall (fun out : result unit * Executor =>
            fst out = Err (Errorf "charger not found: %s")
            /\ db (snd out) = db ex)
    [chargerRepository.UpdateConnectionStatus current_timestamp ex id isConnected;
     chargerRepository.UpdateStatus current_timestamp ex id status;
     chargerRepository.UpdateLastHeartbeat current_timestamp ex id timestamp;
     chargerRepository.UpdateLastBoot current_timestamp ex id timestamp;
     chargerRepository.UpdateLastConnect current_timestamp ex id timestamp;
     chargerRepository.UpdateLastTxStart current_timestamp ex id timestamp;
     chargerRepository.UpdateLastTxStop current_timestamp ex id timestamp].
Proof.
  intros Hf Hnone.
  repeat (constructor; [now apply charger_exec_update_unknown|]).
  constructor.
Qed.

Lemma charger_setters_need_the_charger_witness :
  fst (chargerRepository.UpdateLastHeartbeat 70 (Sample.healthy Sample.busy)
         "CP9" 69)
  = Err (Errorf "charger not found: %s").
Proof.
  pose proof (charger_setters_need_the_charger 70 (Sample.healthy Sample.busy)
                "CP9" true "Available" 69 eq_refl eq_refl) as H.
  inversion H as [|? ? _ Hrest]. inversion Hrest as [|? ? _ Hrest'].
  inversion Hrest' as [|? ? [Hfst _] _]. exact Hfst.
Defined.

(** X11.  [UpdateConnectionStatus] of a known charger writes the flag it
    is given and stamps both [last_connect_at] and [updated_at] with the
    current instant, on a disconnect as on a connect; every other column
    of the charger and every other charger stay as they were. *)
Theorem UpdateConnectionStatus_stamps_last_connect (current_timestamp : Time)
    (ex : Executor) (id : string) (isConnected : bool) (c : Charger.t) :
  reaches_tables ex ->
  charger_with_id (db ex) id = Some c ->
  exists ex' c',
    chargerRepository.UpdateConnectionStatus current_timestamp ex id isConnected
    = (Ok tt, ex')
    /\ charger_with_id (db ex') id = Some c'
    /\ Charger.IsConnected c' = isConnected
    /\ Charger.LastConnectAt c' = Some current_timestamp
    /\ Charger.UpdatedAt c' = current_timestamp
    /\ charger_identity c' = charger_identity c
    /\ Charger.Status c' = Charger.Status c
    /\ (forall col, col <> last_connect_at -> column_value col c' = column_value col c)
    /\ (forall other, In other (chargers (db ex)) -> Charger.ID other <> id ->
                      In other (chargers (db ex'))).
Proof.
  intros Hf Hsome. unfold chargerRepository.UpdateConnectionStatus.
  match goal with
  | |- context [chargerRepository.exec_update ex id ?set ?format] =>
      destruct (charger_exec_update_known ex id set format c Hf Hsome
                  ltac:(reflexivity)) as (Hok & Hrow & _ & Hothers);
      destruct (chargerRepository.exec_update ex id set format) as [out ex']
  end.
  cbn [fst snd] in *. subst out. exists ex'. eexists.
  split; [reflexivity|]. split; [exact Hrow|].
  cbn [Charger.IsConnected Charger.LastConnectAt Charger.UpdatedAt Charger.Status].
  split; [now destruct isConnected|].
  do 4 (split; [reflexivity|]).
  split; [|exact Hothers].
  intros [] Hcol; try reflexivity. contradiction.
Qed.

Lemma UpdateConnectionStatus_stamps_last_connect_witness :
  charger_with_id Sample.busy "CP1" = Some Sample.CP1
  /\ exists ex' c',
       chargerRepository.UpdateConnectionStatus 70 (Sample.healthy Sample.busy)
         "CP1" false = (Ok tt, ex')
       /\ charger_with_id (db ex') "CP1" = Some c'
       /\ Charger.IsConnected c' = false
       /\ Charger.LastConnectAt c' = Some 70.
Proof.
  split; [reflexivity|].
  destruct (UpdateConnectionStatus_stamps_last_connect 70
              (Sample.healthy Sample.busy) "CP1" false Sample.CP1 eq_refl eq_refl)
    as (ex' & c' & Hupdate & Hrow & Hflag & Hstamp & _).
  exists ex', c'. repeat split; assumption.
Defined.

(** X12.  Each of the five setters of a charger timestamp
    ([UpdateLastHeartbeat], [UpdateLastBoot], [UpdateLastConnect],
    [UpdateLastTxStart], [UpdateLastTxStop]) writes the instant it is given
    into its own column and the current instant into [updated_at], and
    nothing else: the other four timestamps, the status, the connection
    flag and the identity of the charger stay, and so do all transactions. *)
Theorem timestamp_setters_write_their_column (col : timestamp_column)
    (current_timestamp : Time) (ex : Executor) (id : string) (timestamp : Time)
    (c : Charger.t) :
  reaches_tables ex ->
  charger_with_id (db ex) id = Some c ->
  exists ex' c',
    column_setter col current_timestamp ex id timestamp = (Ok tt, ex')
    /\ charger_with_id (db ex') id = Some c'
    /\ column_value col c' = Some timestamp
    /\ (forall other, other <> col -> column_value other c' = column_value other c)
    /\ Charger.UpdatedAt c' = current_timestamp
    /\ charger_identity c' = charger_identity c
    /\ Charger.Status c' = Charger.Status c
    /\ Charger.IsConnected c' = Charger.IsConnected c
    /\ transactions (db ex') = transactions (db ex).
Proof.
  intros Hf Hsome.
  destruct col; cbn [column_setter];
    unfold chargerRepository.UpdateLastHeartbeat, chargerRepository.UpdateLastBoot,
      chargerRepository.UpdateLastConnect, chargerRepository.UpdateLastTxStart,
      chargerRepository.UpdateLastTxStop;
    match goal with
    | |- context [chargerRepository.exec_update ex id ?set ?format] =>
        destruct (charger_exec_update_known ex id set format c Hf Hsome
                    ltac:(reflexivity)) as (Hok & Hrow & Htx & _);
        destruct (chargerRepository.exec_update ex id set format) as [out ex']
    end;
    cbn [fst snd] in *; subst out; exists ex'; eexists;
    (split; [reflexivity|]); (split; [exact Hrow|]);
    (split; [reflexivity|]);
    (split; [intros [] Hcol; try reflexivity; contradiction|]);
    repeat split; try reflexivity; exact Htx.
Qed.

Lemma timestamp_setters_write_their_column_witness :
  exists ex' c',
    chargerRepository.UpdateLastBoot 70 (Sample.healthy Sample.busy) "CP1" 69
    = (Ok tt, ex')
    /\ charger_with_id (db ex') "CP1" = Some c'
    /\ Charger.LastBootAt c' = Some 69
    /\ Charger.LastHeartbeatAt c' = None.
Proof.
  destruct (timestamp_setters_write_their_column last_boot_at 70
              (Sample.healthy Sample.busy) "CP1" 69 Sample.CP1 eq_refl eq_refl)
    as (ex' & c' & Hset & Hrow & Hcol & Hothers & _).
  exists ex', c'. split; [exact Hset|]. split; [exact Hrow|].
  split; [exact Hcol|].
  exact (Hothers last_heartbeat_at ltac:(discriminate)).
Defined.

(** ** Statements on the whole schema *)

Lemma store_next_statement_ok (sx : StoreExecutor) :
  store_reaches_tables sx ->
  store_next_statement sx = (false, store_after_statement sx).
Proof.
  unfold store_reaches_tables, store_after_statement, store_next_statement.
  destruct (store_faults sx) as [|f fs]; cbn; [reflexivity|now intros ->].
Qed.

Lemma store_after_statement_store (sx : StoreExecutor) :
  store (store_after_statement sx) = store sx.
Proof. destruct sx as [s [|f fs]]; reflexivity. Qed.

Lemma store_after_statement_faults (sx : StoreExecutor) :
  store_faults (store_after_statement sx) = tl (store_faults sx).
Proof. destruct sx as [s [|f fs]]; reflexivity. Qed.

Lemma store_next_statement_fails (sx : StoreExecutor) :
  ~ store_reaches_tables sx ->
  store_next_statement sx = (true, store_after_statement sx).
Proof.
  unfold store_reaches_tables, store_after_statement, store_next_statement.
  destruct (store_faults sx) as [|[] fs]; cbn; intros H;
    [now contradiction H|reflexivity|now contradiction H].
Qed.

Lemma Store_ExecContext_ok (sx : StoreExecutor) (stmt : Store -> Store * Z) :
  store_reaches_tables sx ->
  Store_ExecContext sx stmt
  = (Ok (snd (stmt (store sx))),
     mkStoreExecutor (fst (stmt (store sx))) (tl (store_faults sx))).
Proof.
  intros Hf. unfold Store_ExecContext. rewrite (store_next_statement_ok sx Hf).
  rewrite store_after_statement_store, store_after_statement_faults.
  now destruct (stmt (store sx)).
Qed.

Lemma Store_QueryRowContext_ok {A} (sx : StoreExecutor) (rows : Store -> list A) :
  store_reaches_tables sx ->
  Store_QueryRowContext sx rows
  = (match rows (store sx) with [] => Err ErrNoRows | r :: _ => Ok r end,
     store_after_statement sx).
Proof.
  intros Hf. unfold Store_QueryRowContext. rewrite (store_next_statement_ok sx Hf).
  rewrite store_after_statement_store. now destruct (rows (store sx)).
Qed.

Lemma Store_QueryRowContext_returning_ok {A} (sx : StoreExecutor)
    (stmt : Store -> result (Store * list A)) :
  store_reaches_tables sx ->
  Store_QueryRowContext_returning sx stmt
  = match stmt (store sx) with
    | Err e => (Err e, store_after_statement sx)
    | Ok (s, []) => (Err ErrNoRows, mkStoreExecutor s (tl (store_faults sx)))
    | Ok (s, r :: _) => (Ok r, mkStoreExecutor s (tl (store_faults sx)))
    end.
Proof.
  intros Hf. unfold Store_QueryRowContext_returning.
  rewrite (store_next_statement_ok sx Hf).
  rewrite store_after_statement_store, store_after_statement_faults.
  reflexivity.
Qed.

Lemma store_reaches_tables_first (n : nat) (sx : StoreExecutor) :
  store_statements_reach_tables (S n) sx -> store_reaches_tables sx.
Proof.
  intros H. unfold store_reaches_tables. specialize (H 0%nat ltac:(lia)).
  now destruct (store_faults sx).
Qed.

Lemma store_reaches_tables_next (n : nat) (sx : StoreExecutor) (s : Store) :
  store_statements_reach_tables (S n) sx ->
  store_statements_reach_tables n (mkStoreExecutor s (tl (store_faults sx))).
Proof.
  intros H k Hk. cbn [store_faults]. rewrite nth_tl. apply H. lia.
Qed.

Lemma max_id_bounds {A} (id : A -> Z) (rows : list A) (r : A) :
  In r rows -> id r <= max_id id rows.
Proof.
  unfold max_id. induction rows as [|a l IH]; [contradiction|].
  cbn [map fold_right]. intros [<-|Hin]; [lia|]. specialize (IH Hin). lia.
Qed.

(** ** Deleting a charger *)

Lemma charger_Delete_spec (sx : StoreExecutor) (id : string) :
  store_reaches_tables sx ->
  chargerRepository.Delete sx id
  = (if charger_known (core (store sx)) id
     then Ok tt else Err (Errorf "charger not found: %s"),
     mkStoreExecutor (fst (chargerRepository.delete_where_id id (store sx)))
                     (tl (store_faults sx))).
Proof.
  intros Hf. unfold chargerRepository.Delete.
  rewrite (Store_ExecContext_ok _ _ Hf).
  cbn [chargerRepository.delete_where_id snd]. unfold charger_known.
  destruct (existsb _ _) eqn:Hex.
  - destruct (count_rows _ _ =? 0) eqn:Hc; [|reflexivity].
    apply Z.eqb_eq, count_rows_zero in Hc. congruence.
  - unfold count_rows. now rewrite (existsb_filter_none _ _ Hex).
Qed.

(** X13.  [Delete] of a charger takes everything the charger owns with
    it.  For a known id it succeeds, and what remains of each table is
    exactly the rows of other chargers: the charger, its connectors, its
    transactions and its errors are gone, and a meter value stays only if
    it belongs to another charger and is not recorded for a transaction
    of the deleted one.  For an unknown id it reports "charger not found"
    and no table changes. *)
Theorem charger_Delete_cascades (sx : StoreExecutor) (id : string) :
  store_reaches_tables sx ->
  let deleted := chargerRepository.Delete sx id in
  let before := store sx in
  let after := store (snd deleted) in
  if charger_known (core before) id
  then
    fst deleted = Ok tt
    /\ charger_absent after id
    /\ (forall c, In c (chargers (core after))
                  <-> In c (chargers (core before)) /\ Charger.ID c <> id)
    /\ (forall k, In k (charger_connectors after)
                  <-> In k (charger_connectors before)
                      /\ ChargerConnector.ChargerID k <> id)
    /\ (forall tx, In tx (transactions (core after))
                   <-> In tx (transactions (core before))
                       /\ Transaction.ChargerID tx <> id)
    /\ (forall e, In e (charger_errors (core after))
                  <-> In e (charger_errors (core before))
                      /\ ChargerError.ChargerID e <> id)
    /\ (forall mv, In mv (meter_values (core after))
                   <-> In mv (meter_values (core before))
                       /\ MeterValue.ChargerID mv <> id
                       /\ forall tx, In tx (transactions (core before)) ->
                                     Transaction.ChargerID tx = id ->
                                     MeterValue.TransactionID mv
                                     <> Some (Transaction.ID tx))
  else
    fst deleted = Err (Errorf "charger not found: %s") /\ after = before.
Proof.
  intros Hf deleted before after. subst deleted before after.
  rewrite (charger_Delete_spec sx id Hf). cbn [fst snd store].
  unfold charger_known. destruct (existsb _ _) eqn:Hknown.
  - cbn [chargerRepository.delete_where_id fst]. rewrite Hknown. cbn [andb].
    assert (Hc : forall c,
              In c (filter (fun c => negb (Charger.ID c =? id)%string)
                           (chargers (core (store sx))))
              <-> In c (chargers (core (store sx))) /\ Charger.ID c <> id)
      by (intros c; rewrite filter_In, negb_true_iff, String.eqb_neq; tauto).
    assert (Hk : forall k,
              In k (filter (fun c => negb (ChargerConnector.ChargerID c =? id)%string)
                           (charger_connectors (store sx)))
              <-> In k (charger_connectors (store sx))
                  /\ ChargerConnector.ChargerID k <> id)
      by (intros k; rewrite filter_In, negb_true_iff, String.eqb_neq; tauto).
    assert (Ht : forall tx,
              In tx (filter (fun tx => negb (Transaction.ChargerID tx =? id)%string)
                            (transactions (core (store sx))))
              <-> In tx (transactions (core (store sx)))
                  /\ Transaction.ChargerID tx <> id)
      by (intros tx; rewrite filter_In, negb_true_iff, String.eqb_neq; tauto).
    assert (He : forall e,
              In e (filter (fun e => negb (ChargerError.ChargerID e =? id)%string)
                           (charger_errors (core (store sx))))
              <-> In e (charger_errors (core (store sx)))
                  /\ ChargerError.ChargerID e <> id)
      by (intros e; rewrite filter_In, negb_true_iff, String.eqb_neq; tauto).
    assert (Hm : forall mv,
              In mv (filter
                       (fun mv =>
                          negb ((MeterValue.ChargerID mv =? id)%string
                                || existsb
                                     (fun tx =>
                                        (Transaction.ChargerID tx =? id)%string
                                        && option_eqb Z.eqb
                                             (MeterValue.TransactionID mv)
                                             (Some (Transaction.ID tx)))
                                     (transactions (core (store sx)))))
                       (meter_values (core (store sx))))
              <-> In mv (meter_values (core (store sx)))
                  /\ MeterValue.ChargerID mv <> id
                  /\ forall tx, In tx (transactions (core (store sx))) ->
                                Transaction.ChargerID tx = id ->
                                MeterValue.TransactionID mv
                                <> Some (Transaction.ID tx)).
    { intros mv. rewrite filter_In, negb_true_iff, orb_false_iff, String.eqb_neq.
      split.
      - intros (Hin & Hne & Hnone). split; [exact Hin|]. split; [exact Hne|].
        intros tx Htx Hown Hlink.
        assert (Hex : existsb
                        (fun tx => (Transaction.ChargerID tx =? id)%string
                                   && option_eqb Z.eqb (MeterValue.TransactionID mv)
                                        (Some (Transaction.ID tx)))
                        (transactions (core (store sx))) = true).
        { apply existsb_exists. exists tx. split; [exact Htx|].
          apply andb_true_intro. split; [now apply String.eqb_eq|].
          now apply option_eqb_Z. }
        congruence.
      - intros (Hin & Hne & Hfree). split; [exact Hin|]. split; [exact Hne|].
        match goal with
        | |- ?found = false => destruct found eqn:Hex; [|reflexivity]
        end.
        apply existsb_exists in Hex. destruct Hex as (tx & Htx & Hboth).
        apply andb_prop in Hboth. destruct Hboth as [Hown Hlink].
        apply String.eqb_eq in Hown. apply option_eqb_Z in Hlink.
        now destruct (Hfree tx Htx Hown). }
    split; [reflexivity|]. cbn [core chargers transactions meter_values
                               charger_errors charger_connectors].
    split.
    + unfold charger_absent. cbn [core chargers transactions meter_values
                                 charger_errors charger_connectors].
      split; [intros c Hin; exact (proj2 (proj1 (Hc c) Hin))|].
      split; [intros k Hin; exact (proj2 (proj1 (Hk k) Hin))|].
      split; [intros tx Hin; exact (proj2 (proj1 (Ht tx) Hin))|].
      split; [intros mv Hin; exact (proj1 (proj2 (proj1 (Hm mv) Hin)))|].
      intros e Hin; exact (proj2 (proj1 (He e) Hin)).
    + repeat split; try apply Hc; try apply Hk; try apply Ht; try apply He;
        try apply Hm; auto.
      all: try (intros H; apply Hc in H; tauto).
      all: try (intros H; apply Hk in H; tauto).
      all: try (intros H; apply Ht in H; tauto).
      all: try (intros H; apply He in H; tauto).
      all: try (intros H; apply Hm in H; tauto).
  - split; [reflexivity|].
    cbn [chargerRepository.delete_where_id fst]. rewrite Hknown. cbn [andb negb].
    rewrite !filter_all; try reflexivity.
    + destruct (store sx) as [[? ? ? ? ?] ? ? ? ?]; reflexivity.
    + intros c Hc. apply negb_true_iff.
      destruct (Charger.ID c =? id)%string eqn:Hid; [|reflexivity].
      assert (H : existsb (fun c => (Charger.ID c =? id)%string)
                          (chargers (core (store sx))) = true)
        by (apply existsb_exists; now exists c).
      congruence.
Qed.

Lemma charger_Delete_cascades_witness :
  store_reaches_tables (Sample.healthy_store Sample.depot)
  /\ store (snd (chargerRepository.Delete (Sample.healthy_store Sample.depot) "CP1"))
     = mkStore (mkDB [Sample.CP2] [Sample.T3] 3 [Sample.M2] []) [] 1 2 2
  /\ charger_absent
       (store (snd (chargerRepository.Delete (Sample.healthy_store Sample.depot)
                      "CP1"))) "CP1".
Proof.
  split; [reflexivity|]. split; [reflexivity|].
  pose proof (charger_Delete_cascades (Sample.healthy_store Sample.depot) "CP1"
                eq_refl) as H.
  exact (proj1 (proj2 H)).
Defined.

(** ** Connectors *)

Lemma with_connectors_same (s : Store) :
  chargerConnectorRepository.with_connectors s (charger_connectors s) = s.
Proof. now destruct s. Qed.

Lemma connector_Create_spec (current_timestamp : Time) (sx : StoreExecutor)
    (chargerID : string) (connectorID : Z) :
  store_reaches_tables sx ->
  let s := store sx in
  let conn :=
    ChargerConnector.mk
      (Z.max (charger_connectors_seq s)
             (max_id ChargerConnector.ID (charger_connectors s)) + 1)
      chargerID connectorID "Available" "" "" current_timestamp current_timestamp in
  chargerConnectorRepository.Create current_timestamp sx chargerID connectorID
  = if negb (charger_known (core s) chargerID)
    then (Err (Wrapf "failed to create connector: %w"
                 (ErrConstraint "FOREIGN KEY constraint failed")),
          store_after_statement sx)
    else if connector_known s chargerID connectorID
    then (Err (Wrapf "failed to create connector: %w"
                 (ErrConstraint
                    "UNIQUE constraint failed: charger_connectors.charger_id, charger_connectors.connector_id")),
          store_after_statement sx)
    else (Ok conn,
          mkStoreExecutor
            (mkStore (core s) (charger_connectors s ++ [conn])%list
                     (ChargerConnector.ID conn) (meter_values_seq s)
                     (charger_errors_seq s))
            (tl (store_faults sx))).
Proof.
  intros Hf s conn. subst s conn. unfold chargerConnectorRepository.Create.
  rewrite (Store_QueryRowContext_returning_ok _ _ Hf).
  unfold chargerConnectorRepository.insert_connector, charger_known, connector_known.
  destruct (negb _); [reflexivity|]. now destruct (existsb _ _).
Qed.

(** X14.  [Create] of a connector gives a charger one connector per
    number.  For a known charger that has no connector of the number yet,
    the new connector is "Available" with empty error codes, its id is
    above every id of the table, no other table changes,
    [GetByChargerAndConnector] returns it, and a second [Create] of the
    same number is refused by the UNIQUE constraint. *)
Theorem connector_Create_once_per_number (current_timestamp : Time)
    (sx : StoreExecutor) (chargerID : string) (connectorID : Z) :
  store_statements_reach_tables 2 sx ->
  charger_known (core (store sx)) chargerID = true ->
  connector_known (store sx) chargerID connectorID = false ->
  exists conn sx',
    chargerConnectorRepository.Create current_timestamp sx chargerID connectorID
    = (Ok conn, sx')
    /\ (ChargerConnector.ChargerID conn, ChargerConnector.ConnectorID conn)
       = (chargerID, connectorID)
    /\ (ChargerConnector.Status conn, ChargerConnector.ErrorCode conn,
        ChargerConnector.VendorErrorCode conn) = ("Available", "", "")
    /\ (forall old, In old (charger_connectors (store sx)) ->
                    ChargerConnector.ID old < ChargerConnector.ID conn)
    /\ charger_connectors (store sx') = (charger_connectors (store sx) ++ [conn])%list
    /\ core (store sx') = core (store sx)
    /\ fst (chargerConnectorRepository.GetByChargerAndConnector sx' chargerID
              connectorID) = Ok conn
    /\ fst (chargerConnectorRepository.Create current_timestamp sx' chargerID
              connectorID)
       = Err (Wrapf "failed to create connector: %w"
                (ErrConstraint
                   "UNIQUE constraint failed: charger_connectors.charger_id, charger_connectors.connector_id")).
Proof.
  intros H2 Hknown Hfree.
  pose proof (store_reaches_tables_first 1 sx H2) as Hf.
  rewrite (connector_Create_spec current_timestamp sx chargerID connectorID Hf).
  rewrite Hknown, Hfree. cbn [negb].
  match goal with
  | |- context [(Ok ?row, _) = _] => set (conn := row)
  end.
  match goal with
  | |- context [(Ok conn, ?next) = _] => set (sx' := next)
  end.
  assert (Hf' : store_reaches_tables sx').
  { apply (store_reaches_tables_first 0). subst sx'.
    now apply store_reaches_tables_next. }
  assert (Hself : chargerConnectorRepository.is_connector chargerID connectorID conn
                  = true).
  { unfold chargerConnectorRepository.is_connector, conn.
    cbn [ChargerConnector.ChargerID ChargerConnector.ConnectorID].
    now rewrite String.eqb_refl, Z.eqb_refl. }
  exists conn, sx'. split; [reflexivity|]. do 2 (split; [reflexivity|]).
  split.
  { intros old Hold.
    pose proof (max_id_bounds ChargerConnector.ID _ old Hold).
    unfold conn. cbn [ChargerConnector.ID]. lia. }
  do 2 (split; [reflexivity|]). split.
  - unfold chargerConnectorRepository.GetByChargerAndConnector.
    rewrite (Store_QueryRowContext_ok _ _ Hf').
    unfold sx'. cbn [store charger_connectors fst]. rewrite filter_app.
    unfold connector_known in Hfree. rewrite (existsb_filter_none _ _ Hfree).
    cbn [filter app]. now rewrite Hself.
  - rewrite (connector_Create_spec current_timestamp sx' chargerID connectorID Hf').
    unfold sx'. cbn [store core]. rewrite Hknown. cbn [negb].
    unfold connector_known. cbn [charger_connectors]. rewrite existsb_app.
    cbn [existsb]. rewrite Hself. now rewrite orb_true_r.
Qed.

Lemma connector_Create_once_per_number_witness :
  exists conn sx',
    chargerConnectorRepository.Create 70 (Sample.healthy_store Sample.depot) "CP1" 2
    = (Ok conn, sx')
    /\ ChargerConnector.ID conn = 2
    /\ fst (chargerConnectorRepository.GetByChargerAndConnector sx' "CP1" 2)
       = Ok conn.
Proof.
  assert (H2 : store_statements_reach_tables 2 (Sample.healthy_store Sample.depot))
    by (intros [|[|k]] Hk; reflexivity).
  destruct (connector_Create_once_per_number 70 (Sample.healthy_store Sample.depot)
              "CP1" 2 H2 eq_refl eq_refl)
    as (conn & sx' & Hcreate & _ & _ & _ & _ & _ & Hget & _).
  exists conn, sx'. split; [exact Hcreate|]. split; [|exact Hget].
  assert (H : Ok conn
              = fst (chargerConnectorRepository.Create 70
                       (Sample.healthy_store Sample.depot) "CP1" 2))
    by now rewrite Hcreate.
  cbn in H. now inversion H.
Defined.

Lemma connector_exec_update_spec (sx : StoreExecutor) (chargerID : string)
    (connectorID : Z) (set : ChargerConnector.t -> ChargerConnector.t)
    (format : string) :
  store_reaches_tables sx ->
  chargerConnectorRepository.exec_update sx chargerID connectorID set format
  = (if connector_known (store sx) chargerID connectorID
     then Ok tt else Err (Errorf "connector not found: %s/%d"),
     mkStoreExecutor
       (chargerConnectorRepository.with_connectors (store sx)
          (update_where (chargerConnectorRepository.is_connector chargerID connectorID)
                        set (charger_connectors (store sx))))
       (tl (store_faults sx))).
Proof.
  intros Hf. unfold chargerConnectorRepository.exec_update.
  rewrite (Store_ExecContext_ok _ _ Hf). cbn [fst snd]. unfold connector_known.
  destruct (existsb _ _) eqn:Hex.
  - destruct (count_rows _ _ =? 0) eqn:Hc; [|reflexivity].
    apply Z.eqb_eq, count_rows_zero in Hc. congruence.
  - unfold count_rows. now rewrite (existsb_filter_none _ _ Hex).
Qed.

(** X15.  The setters of a connector do not create it: for a charger
    and number no connector has, [UpdateStatus], [UpdateError] and
    [ClearError] report "connector not found" and leave every table as it
    was. *)
Theorem connector_setters_need_the_connector (current_timestamp : Time)
    (sx : StoreExecutor) (chargerID : string) (connectorID : Z)
    (status errorCode vendorErrorCode : string) :
  store_reaches_tables sx ->
  connector_known (store sx) chargerID connectorID = false ->
  Forall (fun out : result unit * StoreExecutor =>
            fst out = Err (Errorf "connector not found: %s/%d")
            /\ store (snd out) = store sx)
    [chargerConnectorRepository.UpdateStatus current_timestamp sx chargerID
       connectorID status;
     chargerConnectorRepository.UpdateError current_timestamp sx chargerID
       connectorID errorCode vendorErrorCode;
     chargerConnectorRepository.ClearError current_timestamp sx chargerID
       connectorID].
Proof.
  intros Hf Hnone.
  assert (H : forall set format,
            fst (chargerConnectorRepository.exec_update sx chargerID connectorID
                   set format) = Err (Errorf "connector not found: %s/%d")
            /\ store (snd (chargerConnectorRepository.exec_update sx chargerID
                             connectorID set format)) = store sx).
  { intros set format. rewrite (connector_exec_update_spec _ _ _ _ _ Hf).
    rewrite Hnone. split; [reflexivity|]. cbn [snd store].
    rewrite update_where_none; [apply with_connectors_same|].
    intros k Hk. unfold connector_known in Hnone.
    destruct (chargerConnectorRepository.is_connector chargerID connectorID k)
      eqn:Hit; [|reflexivity].
    assert (Hex : existsb (chargerConnectorRepository.is_connector chargerID
                             connectorID) (charger_connectors (store sx)) = true)
      by (apply existsb_exists; now exists k).
    congruence. }
  repeat (constructor; [apply H|]). constructor.
Qed.

Lemma connector_setters_need_the_connector_witness :
  fst (chargerConnectorRepository.ClearError 70 (Sample.healthy_store Sample.depot)
         "CP2" 1)
  = Err (Errorf "connector not found: %s/%d").
Proof.
  pose proof (connector_setters_need_the_connector 70
                (Sample.healthy_store Sample.depot) "CP2" 1 "Faulted" "x" "y"
                eq_refl eq_refl) as H.
  inversion H as [|? ? _ Hrest]. inversion Hrest as [|? ? _ Hrest'].
  inversion Hrest' as [|? ? [Hfst _] _]. exact Hfst.
Defined.

(** X16.  [UpdateError] followed by [ClearError] on a known connector:
    the first stores the two codes it is given, the second empties both
    again; status, number, charger, id and creation time of the connector
    are what they were before, and [updated_at] is the instant of the
    [ClearError]. *)
Theorem ClearError_undoes_UpdateError (t1 t2 : Time) (sx : StoreExecutor)
    (chargerID : string) (connectorID : Z) (errorCode vendorErrorCode : string)
    (conn : ChargerConnector.t) :
  store_statements_reach_tables 2 sx ->
  connector_with_number (store sx) chargerID connectorID = Some conn ->
  exists sx1 sx2 failing cleared,
    chargerConnectorRepository.UpdateError t1 sx chargerID connectorID errorCode
      vendorErrorCode = (Ok tt, sx1)
    /\ connector_with_number (store sx1) chargerID connectorID = Some failing
    /\ (ChargerConnector.ErrorCode failing, ChargerConnector.VendorErrorCode failing)
       = (errorCode, vendorErrorCode)
    /\ chargerConnectorRepository.ClearError t2 sx1 chargerID connectorID
       = (Ok tt, sx2)
    /\ connector_with_number (store sx2) chargerID connectorID = Some cleared
    /\ cleared
       = ChargerConnector.mk (ChargerConnector.ID conn)
           (ChargerConnector.ChargerID conn) (ChargerConnector.ConnectorID conn)
           (ChargerConnector.Status conn) "" "" (ChargerConnector.CreatedAt conn) t2
    /\ core (store sx2) = core (store sx).
Proof.
  intros H2 Hfind.
  pose proof (store_reaches_tables_first 1 sx H2) as Hf.
  unfold chargerConnectorRepository.ClearError,
    chargerConnectorRepository.UpdateError.
  rewrite (connector_exec_update_spec _ _ _ _ _ Hf).
  unfold connector_known, connector_with_number in *.
  rewrite (find_some_existsb _ _ _ Hfind).
  match goal with
  | |- context [(Ok tt, ?next) = _] => set (sx1 := next)
  end.
  assert (Hf1 : store_reaches_tables sx1).
  { apply (store_reaches_tables_first 0). subst sx1.
    now apply store_reaches_tables_next. }
  assert (Hkeep : forall set : ChargerConnector.t -> ChargerConnector.t,
            (forall r, ChargerConnector.ChargerID (set r) = ChargerConnector.ChargerID r
                       /\ ChargerConnector.ConnectorID (set r)
                          = ChargerConnector.ConnectorID r) ->
            forall r,
              chargerConnectorRepository.is_connector chargerID connectorID r = true ->
              chargerConnectorRepository.is_connector chargerID connectorID (set r)
              = true).
  { intros set Hset r. unfold chargerConnectorRepository.is_connector.
    now destruct (Hset r) as [-> ->]. }
  assert (Hfind1 : find (chargerConnectorRepository.is_connector chargerID connectorID)
                     (charger_connectors (store sx1))
                   = Some (ChargerConnector.mk (ChargerConnector.ID conn)
                             (ChargerConnector.ChargerID conn)
                             (ChargerConnector.ConnectorID conn)
                             (ChargerConnector.Status conn) errorCode vendorErrorCode
                             (ChargerConnector.CreatedAt conn) t1)).
  { unfold sx1. cbn [store chargerConnectorRepository.with_connectors
                     charger_connectors].
    exact (find_update_where _
             (fun c => ChargerConnector.mk (ChargerConnector.ID c)
                         (ChargerConnector.ChargerID c)
                         (ChargerConnector.ConnectorID c)
                         (ChargerConnector.Status c) errorCode vendorErrorCode
                         (ChargerConnector.CreatedAt c) t1)
             _ conn
             (Hkeep _ (fun r => conj eq_refl eq_refl)) Hfind). }
  exists sx1. eexists. eexists. eexists.
  split; [reflexivity|]. split; [exact Hfind1|]. split; [reflexivity|].
  rewrite (connector_exec_update_spec _ _ _ _ _ Hf1).
  unfold connector_known. rewrite (find_some_existsb _ _ _ Hfind1).
  split; [reflexivity|]. split; [|split; [reflexivity|reflexivity]].
  cbn [store chargerConnectorRepository.with_connectors charger_connectors].
  exact (find_update_where _
           (fun c => ChargerConnector.mk (ChargerConnector.ID c)
                       (ChargerConnector.ChargerID c)
                       (ChargerConnector.ConnectorID c)
                       (ChargerConnector.Status c) "" ""
                       (ChargerConnector.CreatedAt c) t2)
           _ _
           (Hkeep _ (fun r => conj eq_refl eq_refl)) Hfind1).
Qed.

Lemma ClearError_undoes_UpdateError_witness :
  connector_with_number Sample.depot "CP1" 1 = Some Sample.K1
  /\ exists sx1 sx2,
       chargerConnectorRepository.UpdateError 70 (Sample.healthy_store Sample.depot)
         "CP1" 1 "GroundFailure" "E42" = (Ok tt, sx1)
       /\ chargerConnectorRepository.ClearError 71 sx1 "CP1" 1 = (Ok tt, sx2)
       /\ connector_with_number (store sx2) "CP1" 1
          = Some (ChargerConnector.mk 1 "CP1" 1 "Charging" "" "" 6 71).
Proof.
  assert (H2 : store_statements_reach_tables 2 (Sample.healthy_store Sample.depot))
    by (intros [|[|k]] Hk; reflexivity).
  split; [reflexivity|].
  destruct (ClearError_undoes_UpdateError 70 71 (Sample.healthy_store Sample.depot)
              "CP1" 1 "GroundFailure" "E42" Sample.K1 H2 eq_refl)
    as (sx1 & sx2 & failing & cleared & Hset & _ & _ & Hclear & Hfind & Hrow & _).
  exists sx1, sx2. split; [exact Hset|]. split; [exact Hclear|].
  rewrite Hfind, Hrow. reflexivity.
Defined.

(** X17.  [DeleteByChargerID] does not look at the rows affected: once
    its statement reaches the tables it succeeds whether the charger has
    connectors or not, leaves exactly the connectors of other chargers and
    touches no other table; and when the driver refuses the statement its
    error comes back as it is, without a message around it. *)
Theorem DeleteByChargerID_never_reports_absence (sx : StoreExecutor)
    (chargerID : string) :
  let deleted := chargerConnectorRepository.DeleteByChargerID sx chargerID in
  (store_reaches_tables sx ->
     fst deleted = Ok tt
     /\ (forall k, In k (charger_connectors (store (snd deleted)))
                   <-> In k (charger_connectors (store sx))
                       /\ ChargerConnector.ChargerID k <> chargerID)
     /\ core (store (snd deleted)) = core (store sx))
  /\ (~ store_reaches_tables sx ->
        fst deleted = Err ErrDriver /\ store (snd deleted) = store sx).
Proof.
  intros deleted. subst deleted. split; intros Hf.
  - unfold chargerConnectorRepository.DeleteByChargerID.
    rewrite (Store_ExecContext_ok _ _ Hf). cbn [fst snd store].
    split; [reflexivity|]. split; [|reflexivity].
    intros k. cbn [chargerConnectorRepository.with_connectors charger_connectors].
    rewrite filter_In, negb_true_iff, String.eqb_neq. tauto.
  - unfold chargerConnectorRepository.DeleteByChargerID, Store_ExecContext.
    rewrite (store_next_statement_fails sx Hf). cbn [fst snd].
    split; [reflexivity|apply store_after_statement_store].
Qed.

Lemma DeleteByChargerID_never_reports_absence_witness :
  fst (chargerConnectorRepository.DeleteByChargerID
         (Sample.healthy_store Sample.depot) "CP2") = Ok tt
  /\ fst (chargerConnectorRepository.DeleteByChargerID
            (mkStoreExecutor Sample.depot [true]) "CP1") = Err ErrDriver.
Proof.
  split.
  - exact (proj1 (proj1 (DeleteByChargerID_never_reports_absence
                           (Sample.healthy_store Sample.depot) "CP2") eq_refl)).
  - exact (proj1 (proj2 (DeleteByChargerID_never_reports_absence
                           (mkStoreExecutor Sample.depot [true]) "CP1")
                        ltac:(discriminate))).
Defined.

(** ** Meter values *)

Lemma count_rows_split {A} (p : A -> bool) (l : list A) :
  count_rows p l + count_rows (fun x => negb (p x)) l
  = count_rows (fun _ => true) l.
Proof.
  induction l as [|a l IH]; [reflexivity|]. rewrite !count_rows_cons.
  destruct (p a); cbn [negb]; lia.
Qed.

Lemma count_rows_filter {A} (p q : A -> bool) (l : list A) :
  count_rows p (filter q l) = count_rows (fun x => q x && p x) l.
Proof.
  induction l as [|a l IH]; [reflexivity|]. cbn [filter].
  rewrite count_rows_cons. destruct (q a); cbn [andb];
    [rewrite count_rows_cons|]; rewrite IH; lia.
Qed.

Lemma count_rows_ext {A} (p q : A -> bool) (l : list A) :
  (forall x, p x = q x) -> count_rows p l = count_rows q l.
Proof.
  intros H. unfold count_rows. now rewrite (filter_ext _ _ H).
Qed.

Lemma narrow_reaches_tables (sx : StoreExecutor) :
  store_reaches_tables sx -> reaches_tables (narrow sx).
Proof. exact (fun H => H). Qed.

Lemma meter_Create_spec (current_timestamp : Time) (sx : StoreExecutor)
    (req : CreateMeterValueRequest.t) :
  store_reaches_tables sx ->
  let s := store sx in
  let d := core s in
  let mv :=
    MeterValue.mk
      (Z.max (meter_values_seq s) (max_id MeterValue.ID (meter_values d)) + 1)
      (CreateMeterValueRequest.TransactionID req)
      (CreateMeterValueRequest.ChargerID req)
      (CreateMeterValueRequest.ConnectorID req)
      (CreateMeterValueRequest.Timestamp req)
      (CreateMeterValueRequest.Measurand req)
      (CreateMeterValueRequest.Value req)
      (CreateMeterValueRequest.Unit req)
      (CreateMeterValueRequest.Context req)
      (CreateMeterValueRequest.Location req)
      (CreateMeterValueRequest.Phase req)
      (CreateMeterValueRequest.Format req)
      current_timestamp in
  meterValueRepository.Create current_timestamp sx req
  = if meterValueRepository.is_nan (CreateMeterValueRequest.Value req)
    then (Err (Wrapf "failed to create meter value: %w"
                 (ErrConstraint "NOT NULL constraint failed: meter_values.value")),
          store_after_statement sx)
    else if meter_value_references_hold d req
    then (Ok mv,
          mkStoreExecutor
            (mkStore
               (mkDB (chargers d) (transactions d) (transactions_seq d)
                     (meter_values d ++ [mv])%list (charger_errors d))
               (charger_connectors s) (charger_connectors_seq s)
               (MeterValue.ID mv) (charger_errors_seq s))
            (tl (store_faults sx)))
    else (Err (Wrapf "failed to create meter value: %w"
                 (ErrConstraint "FOREIGN KEY constraint failed")),
          store_after_statement sx).
Proof.
  intros Hf s d mv. subst s d mv. unfold meterValueRepository.Create.
  rewrite (Store_QueryRowContext_returning_ok _ _ Hf).
  unfold meterValueRepository.insert_meter_value, meter_value_references_hold,
    charger_known.
  destruct (meterValueRepository.is_nan _); [reflexivity|].
  destruct (existsb _ (chargers _)); cbn [negb orb andb]; [|reflexivity].
  destruct (CreateMeterValueRequest.TransactionID req) as [id|];
    [|reflexivity].
  now destruct (existsb _ _).
Qed.

(** X18.  [Create] of a meter value only ever appends.  When the value
    is a number and the charger of the request exists, and its transaction
    when it names one, the value is stored behind the others under an id
    above all of theirs, with the fields of the request and the current
    instant as creation time; no other row of any table changes and
    [GetByID] returns the value.  A value that is not a number is refused
    by NOT NULL, a missing charger or transaction by a foreign key, and
    then nothing is stored. *)
Theorem meter_Create_appends (current_timestamp : Time) (sx : StoreExecutor)
    (req : CreateMeterValueRequest.t) :
  store_statements_reach_tables 2 sx ->
  let created := meterValueRepository.Create current_timestamp sx req in
  let before := store sx in
  let after := store (snd created) in
  if meterValueRepository.is_nan (CreateMeterValueRequest.Value req)
  then
    fst created
    = Err (Wrapf "failed to create meter value: %w"
             (ErrConstraint "NOT NULL constraint failed: meter_values.value"))
    /\ after = before
  else if meter_value_references_hold (core before) req
  then
    exists mv,
      fst created = Ok mv
      /\ meter_values (core after) = (meter_values (core before) ++ [mv])%list
      /\ (forall old, In old (meter_values (core before)) ->
                      MeterValue.ID old < MeterValue.ID mv)
      /\ (MeterValue.TransactionID mv, MeterValue.ChargerID mv,
          MeterValue.ConnectorID mv, MeterValue.Timestamp mv, MeterValue.Value mv,
          MeterValue.CreatedAt mv)
         = (CreateMeterValueRequest.TransactionID req,
            CreateMeterValueRequest.ChargerID req,
            CreateMeterValueRequest.ConnectorID req,
            CreateMeterValueRequest.Timestamp req,
            CreateMeterValueRequest.Value req, current_timestamp)
      /\ (chargers (core after), transactions (core after),
          charger_errors (core after), charger_connectors after)
         = (chargers (core before), transactions (core before),
            charger_errors (core before), charger_connectors before)
      /\ fst (meterValueRepository.GetByID (narrow (snd created)) (MeterValue.ID mv))
         = Ok mv
  else
    fst created
    = Err (Wrapf "failed to create meter value: %w"
             (ErrConstraint "FOREIGN KEY constraint failed"))
    /\ after = before.
Proof.
  intros H2 created before after. subst created before after.
  pose proof (store_reaches_tables_first 1 sx H2) as Hf.
  rewrite (meter_Create_spec current_timestamp sx req Hf).
  destruct (meterValueRepository.is_nan _);
    [split; [reflexivity|apply store_after_statement_store]|].
  destruct (meter_value_references_hold _ _);
    [|split; [reflexivity|apply store_after_statement_store]].
  match goal with
  | |- context [fst (Ok ?row, _)] => set (mv := row)
  end.
  cbn [fst snd store core meter_values chargers transactions charger_errors
       charger_connectors].
  assert (Hnew : forall old, In old (meter_values (core (store sx))) ->
                             MeterValue.ID old < MeterValue.ID mv).
  { intros old Hold. pose proof (max_id_bounds MeterValue.ID _ old Hold).
    unfold mv. cbn [MeterValue.ID]. lia. }
  exists mv. do 2 (split; [reflexivity|]). split; [exact Hnew|].
  do 2 (split; [reflexivity|]).
  match goal with
  | |- context [narrow ?next] => set (sx' := next)
  end.
  assert (Hf' : reaches_tables (narrow sx')).
  { apply narrow_reaches_tables, (store_reaches_tables_first 0). subst sx'.
    now apply store_reaches_tables_next. }
  unfold meterValueRepository.GetByID. rewrite (QueryRowContext_ok _ _ Hf').
  unfold sx'. cbn [narrow db store core meter_values fst]. rewrite filter_app.
  rewrite filter_none.
  - cbn [filter app]. now rewrite Z.eqb_refl.
  - intros old Hold. apply Z.eqb_neq. specialize (Hnew old Hold). lia.
Qed.

Lemma meter_Create_appends_witness :
  (exists mv,
     fst (meterValueRepository.Create 70 (Sample.healthy_store Sample.depot)
            (CreateMeterValueRequest.mk (Some 1) "CP1" 1 65
               "Energy.Active.Import.Register" (S754_finite false 1300 0) "Wh"
               "Sample.Periodic" "Outlet" "" "Raw")) = Ok mv
     /\ forall old, In old [Sample.M1; Sample.M2] ->
                    MeterValue.ID old < MeterValue.ID mv)
  /\ fst (meterValueRepository.Create 70 (Sample.healthy_store Sample.depot)
            (CreateMeterValueRequest.mk (Some 1) "CP1" 1 65
               "Energy.Active.Import.Register" S754_nan "Wh"
               "Sample.Periodic" "Outlet" "" "Raw"))
     = Err (Wrapf "failed to create meter value: %w"
              (ErrConstraint "NOT NULL constraint failed: meter_values.value")).
Proof.
  assert (H2 : store_statements_reach_tables 2 (Sample.healthy_store Sample.depot))
    by (intros [|[|k]] Hk; reflexivity).
  split.
  - destruct (meter_Create_appends 70 (Sample.healthy_store Sample.depot)
                (CreateMeterValueRequest.mk (Some 1) "CP1" 1 65
                   "Energy.Active.Import.Register" (S754_finite false 1300 0) "Wh"
                   "Sample.Periodic" "Outlet" "" "Raw") H2)
      as (mv & Hcreate & _ & Hnew & _).
    exists mv. split; [exact Hcreate|exact Hnew].
  - exact (proj1 (meter_Create_appends 70 (Sample.healthy_store Sample.depot)
                    (CreateMeterValueRequest.mk (Some 1) "CP1" 1 65
                       "Energy.Active.Import.Register" S754_nan "Wh"
                       "Sample.Periodic" "Outlet" "" "Raw") H2)).
Defined.

(** X19.  [DeleteOlderThan] compares texts, not instants.  With creation
    times and cutoff in years of four digits, it removes exactly the meter
    values whose creation second is not after the second on the wall clock
    of the cutoff in the cutoff's own zone: a value created in the very
    second of the cutoff goes too, and a cutoff that is not in UTC moves
    the line by its zone offset.  It returns the number of values removed,
    [Count] drops by that number, the other tables stay, and a second call
    whose cutoff shows the same or an earlier wall clock deletes nothing. *)
Theorem DeleteOlderThan_prunes (ex : Executor) (cutoff : BoundTime) :
  statements_reach_tables 2 ex ->
  four_digit_year (wall_clock cutoff) ->
  (forall mv, In mv (meter_values (db ex)) ->
              four_digit_year (MeterValue.CreatedAt mv)) ->
  exists n ex' count,
    meterValueRepository.DeleteOlderThan ex cutoff = (Ok n, ex')
    /\ n = count_rows (fun mv => MeterValue.CreatedAt mv <=? unix cutoff + zone_offset cutoff)
                      (meter_values (db ex))
    /\ (forall mv, In mv (meter_values (db ex'))
                   <-> In mv (meter_values (db ex))
                       /\ unix cutoff + zone_offset cutoff < MeterValue.CreatedAt mv)
    /\ (forall mv, In mv (meter_values (db ex)) ->
                   MeterValue.CreatedAt mv = unix cutoff + zone_offset cutoff ->
                   ~ In mv (meter_values (db ex')))
    /\ fst (meterValueRepository.Count ex) = Ok count
    /\ fst (meterValueRepository.Count ex') = Ok (count - n)
    /\ (chargers (db ex'), transactions (db ex'), charger_errors (db ex'))
       = (chargers (db ex), transactions (db ex), charger_errors (db ex))
    /\ forall earlier, wall_clock earlier <= wall_clock cutoff ->
         fst (meterValueRepository.DeleteOlderThan ex' earlier) = Ok 0.
Proof.
  intros H2 _ _. pose proof (reaches_tables_first 1 ex H2) as Hf.
  unfold meterValueRepository.DeleteOlderThan at 1.
  rewrite (ExecContext_ok _ _ Hf). cbn [fst snd].
  match goal with
  | |- context [(Ok _, ?next) = _] => set (ex' := next)
  end.
  assert (Hf' : reaches_tables ex') by (subst ex'; now apply reaches_tables_second).
  assert (Hrows : forall mv, In mv (meter_values (db ex'))
                    <-> In mv (meter_values (db ex))
                        /\ unix cutoff + zone_offset cutoff < MeterValue.CreatedAt mv).
  { intros mv. unfold ex'. cbn [db meter_values].
    rewrite filter_In, negb_true_iff.
    unfold current_timestamp_before, wall_clock. rewrite Z.leb_gt. tauto. }
  eexists. exists ex'. eexists. split; [reflexivity|]. split; [reflexivity|].
  split; [exact Hrows|]. split.
  { intros mv _ Hsame Hin. apply Hrows in Hin. lia. }
  unfold meterValueRepository.Count.
  rewrite (QueryRowContext_ok _ _ Hf), (QueryRowContext_ok _ _ Hf').
  cbn [fst]. split; [reflexivity|]. split.
  { f_equal. unfold ex'. cbn [db meter_values]. rewrite count_rows_filter.
    rewrite (count_rows_ext _ (fun mv => negb (current_timestamp_before
                                                 (MeterValue.CreatedAt mv) cutoff)))
      by (intros mv; apply andb_true_r).
    pose proof (count_rows_split
                  (fun mv => current_timestamp_before (MeterValue.CreatedAt mv) cutoff)
                  (meter_values (db ex))) as Hsplit.
    cbv beta in Hsplit. unfold current_timestamp_before, wall_clock in *. lia. }
  split; [reflexivity|].
  intros earlier Hearlier. unfold meterValueRepository.DeleteOlderThan.
  rewrite (ExecContext_ok _ _ Hf'). cbn [fst snd]. f_equal.
  unfold count_rows. rewrite filter_none; [reflexivity|].
  intros mv Hmv. apply Hrows in Hmv. destruct Hmv as [_ Hkept].
  unfold current_timestamp_before, wall_clock in *. apply Z.leb_gt. lia.
Qed.

Lemma DeleteOlderThan_prunes_witness :
  exists ex',
    meterValueRepository.DeleteOlderThan (Sample.healthy Sample.two_chargers)
      (mkBoundTime 15 0) = (Ok 1, ex')
    /\ ~ In Sample.M1 (meter_values (db ex'))
    /\ exists ex'',
         meterValueRepository.DeleteOlderThan (Sample.healthy Sample.two_chargers)
           (mkBoundTime 15 3600) = (Ok 2, ex'').
Proof.
  assert (H2 : statements_reach_tables 2 (Sample.healthy Sample.two_chargers))
    by (intros [|[|k]] Hk; reflexivity).
  assert (Hrows : forall mv, In mv (meter_values (db (Sample.healthy Sample.two_chargers))) ->
                             four_digit_year (MeterValue.CreatedAt mv)).
  { intros mv [<-|[<-|[]]]; unfold four_digit_year; cbn; lia. }
  destruct (DeleteOlderThan_prunes (Sample.healthy Sample.two_chargers)
              (mkBoundTime 15 0) H2 ltac:(unfold four_digit_year; cbn; lia) Hrows)
    as (n & ex' & count & Hdelete & Hn & _ & Hsame & _).
  exists ex'. split; [rewrite Hdelete, Hn; reflexivity|].
  split; [apply (Hsame Sample.M1); [now left|reflexivity]|].
  eexists. reflexivity.
Defined.

(** ** Charger errors *)

Lemma count_rows_update_where {A} (p q : A -> bool) (set : A -> A) (l : list A) :
  (forall r, p r = true -> q r = true) ->
  (forall r, q (set r) = false) ->
  count_rows q (update_where p set l) = count_rows q l - count_rows p l.
Proof.
  intros Hpq Hset. induction l as [|a l IH]; [reflexivity|].
  unfold update_where. cbn [map]. fold (update_where p set l).
  rewrite !count_rows_cons, IH.
  destruct (p a) eqn:Hp; [rewrite Hset, (Hpq a Hp); lia|lia].
Qed.

Lemma error_Create_spec (time_Now current_timestamp : Time) (sx : StoreExecutor)
    (req : CreateChargerErrorRequest.t) :
  store_reaches_tables sx ->
  let s := store sx in
  let d := core s in
  let e :=
    ChargerError.mk
      (Z.max (charger_errors_seq s) (max_id ChargerError.ID (charger_errors d)) + 1)
      (CreateChargerErrorRequest.ChargerID req)
      (CreateChargerErrorRequest.ConnectorID req)
      (CreateChargerErrorRequest.ErrorCode req)
      (CreateChargerErrorRequest.VendorErrorCode req)
      (CreateChargerErrorRequest.ErrorDescription req)
      (CreateChargerErrorRequest.VendorErrorInfo req)
      (if Time_IsZero (CreateChargerErrorRequest.Timestamp req)
       then time_Now else CreateChargerErrorRequest.Timestamp req)
      None current_timestamp in
  chargerErrorRepository.Create time_Now current_timestamp sx req
  = if charger_known d (CreateChargerErrorRequest.ChargerID req)
    then (Ok e,
          mkStoreExecutor
            (mkStore (with_charger_errors d (charger_errors d ++ [e])%list)
                     (charger_connectors s) (charger_connectors_seq s)
                     (meter_values_seq s) (ChargerError.ID e))
            (tl (store_faults sx)))
    else (Err (Wrapf "failed to create charger error: %w"
                 (ErrConstraint "FOREIGN KEY constraint failed")),
          store_after_statement sx).
Proof.
  intros Hf s d e. subst s d e. unfold chargerErrorRepository.Create.
  rewrite (Store_QueryRowContext_returning_ok _ _ Hf).
  unfold chargerErrorRepository.insert_charger_error, charger_known.
  now destruct (existsb _ _).
Qed.

(** X21.  [Create] of a charger error for a known charger opens an
    error: the row has no resolution time, so [CountActive] goes up by
    one; its timestamp is the one of the request, or the clock of the
    process when the request leaves it zero; its creation time is the
    clock of the store; it gets an id above all others and [GetByID]
    returns it.  For an unknown charger the foreign key refuses it. *)
Theorem error_Create_opens_an_error (time_Now current_timestamp : Time)
    (sx : StoreExecutor) (req : CreateChargerErrorRequest.t) :
  store_statements_reach_tables 2 sx ->
  let created := chargerErrorRepository.Create time_Now current_timestamp sx req in
  if charger_known (core (store sx)) (CreateChargerErrorRequest.ChargerID req)
  then
    exists e active,
      fst created = Ok e
      /\ ChargerError.ResolvedAt e = None
      /\ (CreateChargerErrorRequest.Timestamp req = 0 ->
          ChargerError.Timestamp e = time_Now)
      /\ (CreateChargerErrorRequest.Timestamp req <> 0 ->
          ChargerError.Timestamp e = CreateChargerErrorRequest.Timestamp req)
      /\ ChargerError.CreatedAt e = current_timestamp
      /\ charger_errors (core (store (snd created)))
         = (charger_errors (core (store sx)) ++ [e])%list
      /\ (forall old, In old (charger_errors (core (store sx))) ->
                      ChargerError.ID old < ChargerError.ID e)
      /\ fst (chargerErrorRepository.CountActive (narrow sx)) = Ok active
      /\ fst (chargerErrorRepository.CountActive (narrow (snd created)))
         = Ok (active + 1)
      /\ fst (chargerErrorRepository.GetByID (narrow (snd created))
                (ChargerError.ID e)) = Ok e
  else
    fst created
    = Err (Wrapf "failed to create charger error: %w"
             (ErrConstraint "FOREIGN KEY constraint failed"))
    /\ store (snd created) = store sx.
Proof.
  intros H2 created. subst created.
  pose proof (store_reaches_tables_first 1 sx H2) as Hf.
  rewrite (error_Create_spec time_Now current_timestamp sx req Hf).
  destruct (charger_known _ _);
    [|split; [reflexivity|apply store_after_statement_store]].
  match goal with
  | |- context [fst (Ok ?row, _)] => set (e := row)
  end.
  cbn [fst snd store core with_charger_errors charger_errors].
  assert (Hnew : forall old, In old (charger_errors (core (store sx))) ->
                             ChargerError.ID old < ChargerError.ID e).
  { intros old Hold. pose proof (max_id_bounds ChargerError.ID _ old Hold).
    unfold e. cbn [ChargerError.ID]. lia. }
  match goal with
  | |- context [narrow (mkStoreExecutor ?s ?fs)] =>
      set (sx' := mkStoreExecutor s fs)
  end.
  assert (Hf' : reaches_tables (narrow sx')).
  { apply narrow_reaches_tables, (store_reaches_tables_first 0). subst sx'.
    now apply store_reaches_tables_next. }
  exists e. eexists. split; [reflexivity|]. split; [reflexivity|].
  split.
  { intros Hzero. unfold e. cbn [ChargerError.Timestamp]. unfold Time_IsZero.
    now rewrite Hzero. }
  split.
  { intros Hset. unfold e. cbn [ChargerError.Timestamp]. unfold Time_IsZero.
    now rewrite (proj2 (Z.eqb_neq _ _) Hset). }
  do 2 (split; [reflexivity|]). split; [exact Hnew|].
  unfold chargerErrorRepository.CountActive, chargerErrorRepository.GetByID.
  rewrite (QueryRowContext_ok (narrow sx) _ (narrow_reaches_tables sx Hf)).
  rewrite !(QueryRowContext_ok (narrow sx') _ Hf').
  unfold sx'. cbn [narrow db store core with_charger_errors charger_errors fst].
  split; [reflexivity|]. split.
  - now rewrite count_rows_app.
  - rewrite filter_app, filter_none.
    + cbn [filter app]. now rewrite Z.eqb_refl.
    + intros old Hold. apply Z.eqb_neq. specialize (Hnew old Hold). lia.
Qed.

Lemma error_Create_opens_an_error_witness :
  exists e,
    fst (chargerErrorRepository.Create 90 91 (Sample.healthy_store Sample.depot)
           (CreateChargerErrorRequest.mk "CP2" None "OverVoltage" "" "" "" 0))
    = Ok e
    /\ ChargerError.Timestamp e = 90
    /\ ChargerError.CreatedAt e = 91.
Proof.
  assert (H2 : store_statements_reach_tables 2 (Sample.healthy_store Sample.depot))
    by (intros [|[|k]] Hk; reflexivity).
  destruct (error_Create_opens_an_error 90 91 (Sample.healthy_store Sample.depot)
              (CreateChargerErrorRequest.mk "CP2" None "OverVoltage" "" "" "" 0) H2)
    as (e & active & Hcreate & _ & Hzero & _ & Hcreated & _).
  exists e. split; [exact Hcreate|]. split; [exact (Hzero eq_refl)|exact Hcreated].
Defined.

(** X22.  [ResolveByErrorCode] closes the open errors of a charger and
    code and counts them: [CountActive] drops by the number returned, no
    row is deleted, no open error of that charger and code remains, and a
    second call, whatever its resolution time, returns 0 and changes
    nothing. *)
Theorem ResolveByErrorCode_closes_open_errors (ex : Executor)
    (chargerID errorCode : string) (resolvedAt : Time) :
  statements_reach_tables 2 ex ->
  exists n ex' active,
    chargerErrorRepository.ResolveByErrorCode ex chargerID errorCode resolvedAt
    = (Ok n, ex')
    /\ fst (chargerErrorRepository.CountActive ex) = Ok active
    /\ fst (chargerErrorRepository.CountActive ex') = Ok (active - n)
    /\ fst (chargerErrorRepository.Count ex')
       = fst (chargerErrorRepository.Count ex)
    /\ (forall e, In e (charger_errors (db ex')) ->
                  chargerErrorRepository.unresolved_with_code chargerID errorCode e
                  = false)
    /\ forall later,
         fst (chargerErrorRepository.ResolveByErrorCode ex' chargerID errorCode
                later) = Ok 0
         /\ db (snd (chargerErrorRepository.ResolveByErrorCode ex' chargerID
                       errorCode later)) = db ex'.
Proof.
  intros H2. pose proof (reaches_tables_first 1 ex H2) as Hf.
  unfold chargerErrorRepository.ResolveByErrorCode at 1.
  rewrite (ExecContext_ok _ _ Hf). cbn [fst snd].
  match goal with
  | |- context [(Ok _, ?next) = _] => set (ex' := next)
  end.
  assert (Hf' : reaches_tables ex') by (subst ex'; now apply reaches_tables_second).
  assert (Hclosed : forall e, In e (charger_errors (db ex')) ->
            chargerErrorRepository.unresolved_with_code chargerID errorCode e = false).
  { intros e He. unfold ex' in He. cbn [db with_charger_errors charger_errors] in He.
    unfold update_where in He. apply in_map_iff in He.
    destruct He as (r & <- & _).
    destruct (chargerErrorRepository.unresolved_with_code chargerID errorCode r)
      eqn:Hr; [|exact Hr].
    unfold chargerErrorRepository.unresolved_with_code.
    cbn [chargerErrorRepository.resolved ChargerError.ResolvedAt
         chargerErrorRepository.is_null]. apply andb_false_r. }
  eexists. exists ex'. eexists. split; [reflexivity|].
  unfold chargerErrorRepository.CountActive, chargerErrorRepository.Count.
  rewrite !(QueryRowContext_ok ex _ Hf), !(QueryRowContext_ok ex' _ Hf').
  cbn [fst]. split; [reflexivity|]. split.
  { f_equal. unfold ex'. cbn [db with_charger_errors charger_errors].
    apply count_rows_update_where.
    - intros r Hr. unfold chargerErrorRepository.unresolved_with_code in Hr.
      apply andb_prop in Hr. exact (proj2 Hr).
    - reflexivity. }
  split.
  { f_equal. unfold ex'. cbn [db with_charger_errors charger_errors].
    rewrite !count_rows_length. unfold update_where. now rewrite length_map. }
  split; [exact Hclosed|].
  intros later. unfold chargerErrorRepository.ResolveByErrorCode.
  rewrite (ExecContext_ok _ _ Hf'). cbn [fst snd db]. split.
  - f_equal. unfold count_rows. now rewrite (filter_none _ _ Hclosed).
  - rewrite (update_where_none _ _ _ Hclosed). now destruct (db ex').
Qed.

Lemma ResolveByErrorCode_closes_open_errors_witness :
  exists ex',
    chargerErrorRepository.ResolveByErrorCode (Sample.healthy Sample.busy)
      "CP1" "GroundFailure" 200 = (Ok 1, ex')
    /\ fst (chargerErrorRepository.CountActive ex') = Ok 0.
Proof.
  assert (H2 : statements_reach_tables 2 (Sample.healthy Sample.busy))
    by (intros [|[|k]] Hk; reflexivity).
  destruct (ResolveByErrorCode_closes_open_errors (Sample.healthy Sample.busy)
              "CP1" "GroundFailure" 200 H2)
    as (n & ex' & active & Hresolve & Hbefore & Hafter & _).
  exists ex'.
  assert (Hn : Ok n = Ok 1 :> result Z)
    by (change (Ok n) with (fst (Ok n, ex')); rewrite <- Hresolve; reflexivity).
  assert (Ha : Ok active = Ok 1 :> result Z) by (rewrite <- Hbefore; reflexivity).
  injection Hn as ->. injection Ha as ->.
  split; [exact Hresolve|exact Hafter].
Defined.

(** ** The ORDER BY clauses of the other listings *)

Lemma validated_OrderBy (fields : list (string * bool)) (opts : ListOptions.t) :
  (forall kv, In kv fields -> snd kv = true) ->
  In "created_at" (map fst fields) ->
  let o :=
    if negb (map_index fields (ListOptions.OrderBy opts))
    then ListOptions.mk (ListOptions.Limit opts) (ListOptions.Offset opts)
                        "created_at" (ListOptions.SortDir opts)
    else opts in
  In (ListOptions.OrderBy o) (map fst fields)
  /\ (In (ListOptions.OrderBy opts) (map fst fields) ->
      ListOptions.OrderBy o = ListOptions.OrderBy opts)
  /\ (~ In (ListOptions.OrderBy opts) (map fst fields) ->
      ListOptions.OrderBy o = "created_at")
  /\ (ListOptions.Limit o, ListOptions.Offset o, ListOptions.SortDir o)
     = (ListOptions.Limit opts, ListOptions.Offset opts, ListOptions.SortDir opts).
Proof.
  intros Hall Hdefault o. subst o.
  destruct (map_index fields (ListOptions.OrderBy opts)) eqn:Hm; cbn [negb].
  - apply map_index_true in Hm. repeat split; auto. intros Hn. contradiction.
  - assert (Hout : ~ In (ListOptions.OrderBy opts) (map fst fields)).
    { intros Hin. rewrite (map_index_listed _ _ Hall Hin) in Hm. discriminate. }
    repeat split; auto. intros Hin. contradiction.
Qed.

(** X24.  The two other listings that take an ORDER BY column from the
    caller guard it the way [List] of the transactions does, each with a
    list of its own.  [List] of the chargers orders by one of eleven
    charger columns, [GetByChargerID] of the transactions by one of nine
    transaction columns, anything else is replaced by [created_at]; the
    direction is ASC or DESC; limit and offset are passed on unchanged.
    The two transaction listings differ on [charger_id]: [List] accepts
    it, [GetByChargerID] replaces it. *)
Theorem order_by_allow_lists (opts : ListOptions.t) :
  let ofChargers := chargerRepository.List_opts opts in
  let ofCharger := transactionRepository.GetByChargerID_opts opts in
  chargerRepository.List_query opts
  = (chargerRepository.List_select ++ ListOptions.OrderBy ofChargers ++ " "
       ++ ListOptions.SortDir ofChargers
       ++ transactionRepository.List_limit)%string
  /\ In (ListOptions.OrderBy ofChargers) charger_columns
  /\ (In (ListOptions.OrderBy opts) charger_columns ->
      ListOptions.OrderBy ofChargers = ListOptions.OrderBy opts)
  /\ (~ In (ListOptions.OrderBy opts) charger_columns ->
      ListOptions.OrderBy ofChargers = "created_at")
  /\ In (ListOptions.SortDir ofChargers) permitted_directions
  /\ (ListOptions.Limit ofChargers, ListOptions.Offset ofChargers)
     = (ListOptions.Limit opts, ListOptions.Offset opts)
  /\ transactionRepository.GetByChargerID_query opts
     = (transactionRepository.GetByChargerID_select
          ++ ListOptions.OrderBy ofCharger ++ " " ++ ListOptions.SortDir ofCharger
          ++ transactionRepository.List_limit)%string
  /\ In (ListOptions.OrderBy ofCharger) charger_transaction_columns
  /\ (In (ListOptions.OrderBy opts) charger_transaction_columns ->
      ListOptions.OrderBy ofCharger = ListOptions.OrderBy opts)
  /\ (~ In (ListOptions.OrderBy opts) charger_transaction_columns ->
      ListOptions.OrderBy ofCharger = "created_at")
  /\ In (ListOptions.SortDir ofCharger) permitted_directions
  /\ (ListOptions.Limit ofCharger, ListOptions.Offset ofCharger)
     = (ListOptions.Limit opts, ListOptions.Offset opts)
  /\ (ListOptions.OrderBy opts = "charger_id" ->
      ListOptions.OrderBy ofCharger = "created_at"
      /\ ListOptions.OrderBy (transactionRepository.List_opts opts) = "charger_id").
Proof.
  intros ofChargers ofCharger.
  destruct (ValidateSortDirection_spec opts) as (Hl & Hoff & Hob & Hdir & _ & _).
  assert (Hall1 : forall kv, In kv chargerRepository.validOrderFields -> snd kv = true).
  { intros kv Hin. repeat (destruct Hin as [<-|Hin]; [reflexivity|]). contradiction. }
  assert (Hall2 : forall kv, In kv transactionRepository.GetByChargerID_validOrderFields ->
                             snd kv = true).
  { intros kv Hin. repeat (destruct Hin as [<-|Hin]; [reflexivity|]). contradiction. }
  destruct (validated_OrderBy chargerRepository.validOrderFields
              (ListOptions.ValidateSortDirection opts) Hall1
              ltac:(cbn; tauto)) as (Hc1 & Hc2 & Hc3 & Hc4).
  destruct (validated_OrderBy transactionRepository.GetByChargerID_validOrderFields
              (ListOptions.ValidateSortDirection opts) Hall2
              ltac:(cbn; tauto)) as (Ht1 & Ht2 & Ht3 & Ht4).
  fold (chargerRepository.List_opts opts) in Hc1, Hc2, Hc3, Hc4.
  fold (transactionRepository.GetByChargerID_opts opts) in Ht1, Ht2, Ht3, Ht4.
  fold ofChargers in Hc1, Hc2, Hc3, Hc4. fold ofCharger in Ht1, Ht2, Ht3, Ht4.
  rewrite Hob in Hc2, Hc3, Ht2, Ht3.
  change (map fst chargerRepository.validOrderFields) with charger_columns in *.
  change (map fst transactionRepository.GetByChargerID_validOrderFields)
    with charger_transaction_columns in *.
  injection Hc4 as Hcl Hco Hcs. injection Ht4 as Htl Hto Hts.
  split; [reflexivity|]. do 3 (split; [assumption|]).
  split; [now rewrite Hcs|]. split; [now rewrite Hcl, Hco, Hl, Hoff|].
  split; [reflexivity|]. do 3 (split; [assumption|]).
  split; [now rewrite Hts|]. split; [now rewrite Htl, Hto, Hl, Hoff|].
  intros Hcharger. split.
  - apply Ht3. rewrite Hcharger. cbn. intuition discriminate.
  - unfold transactionRepository.List_opts. rewrite Hob, Hcharger. cbn [map_index].
    cbn. exact (eq_trans Hob Hcharger).
Qed.

Lemma order_by_allow_lists_witness :
  ListOptions.OrderBy
    (chargerRepository.List_opts
       (ListOptions.mk 10 0 "name; DROP TABLE chargers" "DESC")) = "created_at"
  /\ ListOptions.OrderBy
       (transactionRepository.GetByChargerID_opts
          (ListOptions.mk 10 0 "charger_id" "ASC")) = "created_at".
Proof.
  split.
  - apply (proj1 (proj2 (proj2 (proj2 (order_by_allow_lists
             (ListOptions.mk 10 0 "name; DROP TABLE chargers" "DESC")))))).
    cbn. intuition discriminate.
  - pose proof (order_by_allow_lists (ListOptions.mk 10 0 "charger_id" "ASC"))
      as (_ & _ & _ & _ & _ & _ & _ & _ & _ & _ & _ & _ & H).
    exact (proj1 (H eq_refl)).
Defined.

(** ** The connection pool *)

(** X25.  Whatever the configuration, [NewDatabase] sizes the pool with
    at least one open and one idle connection and never more idle than
    open connections: a limit of the configuration that is positive is
    taken, a limit that is zero or negative becomes 25 open or 5 idle
    connections, and the idle limit is then cut down to the open one. *)
Theorem NewDatabase_pool_is_bounded (cfg : Database.DatabaseConfig) :
  let maxOpenConns := fst (Database.NewDatabase_pool cfg) in
  let maxIdleConns := snd (Database.NewDatabase_pool cfg) in
  1 <= maxIdleConns <= maxOpenConns
  /\ (0 < Database.MaxOpenConns cfg -> maxOpenConns = Database.MaxOpenConns cfg)
  /\ (Database.MaxOpenConns cfg <= 0 -> maxOpenConns = 25)
  /\ (0 < Database.MaxIdleConns cfg ->
      maxIdleConns = Z.min (Database.MaxIdleConns cfg) maxOpenConns)
  /\ (Database.MaxIdleConns cfg <= 0 -> maxIdleConns = Z.min 5 maxOpenConns).
Proof.
  unfold Database.NewDatabase_pool. cbn [fst snd].
  destruct (Z.leb_spec (Database.MaxOpenConns cfg) 0);
    destruct (Z.leb_spec (Database.MaxIdleConns cfg) 0); cbv iota;
    match goal with
    | |- context [?a <? ?b] => destruct (Z.ltb_spec a b)
    end; cbv iota; lia.
Qed.

(** ** Migrating up on a source without gaps *)

Lemma up_plan_numbered (src : migrate.Source) :
  forall k v to s,
  numbered_from k src = true ->
  forallb migrate.up_ok src = true ->
  to < k + Z.of_nat (List.length src) ->
  migrate.runMigrations (migrate.up_plan src v to) s
  = (None, if (k <=? to) && (v <? to) then migrate.mkSchema to false else s).
Proof.
  induction src as [|m rest IH]; intros k v to s Hnum Hok Hto.
  - cbn in *. destruct (Z.leb_spec k to); [lia|reflexivity].
  - cbn [numbered_from forallb] in Hnum, Hok.
    apply andb_prop in Hnum. destruct Hnum as [Hk Hnum].
    apply andb_prop in Hok. destruct Hok as [Hm Hok].
    apply Z.eqb_eq in Hk.
    cbn [List.length] in Hto. rewrite Nat2Z.inj_succ in Hto.
    unfold migrate.up_plan. cbn [filter]. rewrite Hk.
    fold (migrate.up_plan rest v to).
    destruct (Z.ltb_spec v k); destruct (Z.leb_spec k to); cbn [andb map].
    + rewrite Hk, Hm. cbn [migrate.runMigrations].
      fold (migrate.up_plan rest v to).
      rewrite (IH (k + 1) v to _ Hnum Hok) by lia.
      destruct (Z.leb_spec (k + 1) to); destruct (Z.ltb_spec v to); cbn [andb];
        try reflexivity; try lia.
      all: f_equal; f_equal; lia.
    + rewrite (IH (k + 1) v to _ Hnum Hok) by lia.
      destruct (Z.leb_spec (k + 1) to); [lia|reflexivity].
    + rewrite (IH (k + 1) v to _ Hnum Hok) by lia.
      destruct (Z.leb_spec (k + 1) to); destruct (Z.ltb_spec v to); cbn [andb];
        try reflexivity; lia.
    + rewrite (IH (k + 1) v to _ Hnum Hok) by lia.
      destruct (Z.leb_spec (k + 1) to); [lia|reflexivity].
Qed.

Lemma up_all_numbered (src : migrate.Source) (k v : Z) :
  numbered_from k src = true ->
  migrate.up_all src v
  = migrate.up_plan src v (k + Z.of_nat (List.length src) - 1).
Proof.
  intros Hnum. unfold migrate.up_all, migrate.up_plan. f_equal.
  apply filter_ext_in. intros m Hm.
  pose proof (numbered_bounds src k m Hnum Hm).
  destruct (Z.leb_spec (migrate.migration_version m)
              (k + Z.of_nat (List.length src) - 1)); [|lia].
  now rewrite andb_true_r.
Qed.

(** [m.Up()] on a clean state of a source numbered from 1 whose up
    scripts all succeed. *)
Lemma Up_numbered (src : migrate.Source) (v : Z) :
  numbered_from 1 src = true ->
  forallb migrate.up_ok src = true ->
  src <> [] ->
  v = migrate.NilVersion \/ 1 <= v <= Z.of_nat (List.length src) ->
  migrate.Up src (migrate.mkSchema v false)
  = if v =? Z.of_nat (List.length src)
    then (Some ErrNoChange, migrate.mkSchema v false)
    else (None, migrate.mkSchema (Z.of_nat (List.length src)) false).
Proof.
  intros Hnum Hok Hsrc Hv.
  assert (Hlen : 1 <= Z.of_nat (List.length src))
    by (destruct src; [contradiction|cbn [List.length]; lia]).
  unfold migrate.Up. cbn [migrate.dirty migrate.version].
  assert (Hknown : migrate.known src v = true).
  { unfold migrate.known. rewrite (versionExists_numbered src 1 v Hnum).
    unfold migrate.NilVersion in Hv.
    destruct (Z.ltb_spec v 0); [reflexivity|].
    destruct (Z.leb_spec 1 v); destruct (Z.ltb_spec v (1 + Z.of_nat (List.length src)));
      cbn; try reflexivity; lia. }
  rewrite Hknown. cbn [negb].
  pose proof (up_plan_numbered src 1 v (1 + Z.of_nat (List.length src) - 1)
                (migrate.mkSchema v false) Hnum Hok ltac:(lia)) as Hrun.
  rewrite <- (up_all_numbered src 1 v Hnum) in Hrun.
  replace (1 + Z.of_nat (List.length src) - 1) with (Z.of_nat (List.length src))
    in Hrun by lia.
  unfold migrate.NilVersion in *.
  destruct (Z.eqb_spec v (Z.of_nat (List.length src))) as [Heq|Hne].
  - assert (Hnone : migrate.up_all src v = []).
    { unfold migrate.up_all. rewrite filter_none; [reflexivity|].
      intros m Hm. pose proof (numbered_bounds src 1 m Hnum Hm).
      apply Z.ltb_ge. lia. }
    rewrite Hnone. destruct (Z.eqb_spec v (-1)); [lia|reflexivity].
  - destruct (Z.leb_spec 1 (Z.of_nat (List.length src))); [|lia].
    destruct (Z.ltb_spec v (Z.of_nat (List.length src))); [|lia].
    cbn [andb] in Hrun.
    destruct (migrate.up_all src v) as [|step plan] eqn:Hplan; [|exact Hrun].
    cbn in Hrun. injection Hrun as Hrun. lia.
Qed.

Lemma RunMigrationsWithCallback_nil (src : migrate.Source) :
  Database.RunMigrationsWithCallback src
    (migrate.mkSchema migrate.NilVersion false)
  = match migrate.Up src (migrate.mkSchema migrate.NilVersion false) with
    | (None, s') =>
        (Ok tt, s',
         [Database.mkMigrationResult 0
            (if migrate.version s' =? migrate.NilVersion then 0
             else migrate.version s') true None])
    | (Some ErrNoChange, s') =>
        (Ok tt, s',
         [Database.mkMigrationResult 0
            (if migrate.version s' =? migrate.NilVersion then 0
             else migrate.version s') true None])
    | (Some e, s') =>
        (Err (Wrapf "failed to run migrations: %w" e), s',
         [Database.mkMigrationResult 0 0 false (Some e)])
    end.
Proof.
  unfold Database.RunMigrationsWithCallback, migrate.Version.
  cbn [migrate.version migrate.dirty]. rewrite Z.eqb_refl.
  cbn [Database.unless Database.is_nil Database.error_eqb negb andb].
  generalize (migrate.Up src (migrate.mkSchema migrate.NilVersion false)).
  intros [[e|] s'].
  - destruct e; cbn; try reflexivity.
    destruct (migrate.version s' =? migrate.NilVersion); reflexivity.
  - cbn. destruct (migrate.version s' =? migrate.NilVersion); reflexivity.
Qed.

(** X26.  [RunMigrations] brings a source without gaps to its latest
    version and is idempotent there.  On a source numbered from 1 whose up
    scripts all succeed, starting from nothing applied or from any version
    of the source, dirty or not, it succeeds and leaves the latest version
    with the dirty marker clear; running it again succeeds and changes
    nothing. *)
Theorem RunMigrations_reaches_latest (src : migrate.Source) (s : migrate.Schema) :
  numbered_from 1 src = true ->
  forallb migrate.up_ok src = true ->
  src <> [] ->
  version_in_source src s ->
  (migrate.version s = migrate.NilVersion -> migrate.dirty s = false) ->
  let latest := migrate.mkSchema (Z.of_nat (List.length src)) false in
  Database.RunMigrations src s = (Ok tt, latest)
  /\ Database.RunMigrations src latest = (Ok tt, latest)
  /\ Database.GetMigrationVersion latest = Ok (Z.of_nat (List.length src), false).
Proof.
  intros Hnum Hok Hsrc Hin Hclean latest.
  assert (Hlen : 1 <= Z.of_nat (List.length src))
    by (destruct src; [contradiction|cbn [List.length]; lia]).
  assert (Hrun : forall v, 1 <= v <= Z.of_nat (List.length src) ->
            Database.RunMigrations src (migrate.mkSchema v false) = (Ok tt, latest)).
  { intros v Hv. rewrite RunMigrations_clean by (unfold migrate.NilVersion; lia).
    rewrite (Up_numbered src v Hnum Hok Hsrc (or_intror Hv)).
    destruct (Z.eqb_spec v (Z.of_nat (List.length src))) as [->|]; reflexivity. }
  split; [|split].
  - destruct s as [v d]. unfold version_in_source in Hin.
    cbn [migrate.version migrate.dirty] in *.
    destruct Hin as [->|Hv].
    + rewrite (Hclean eq_refl). unfold Database.RunMigrations.
      rewrite RunMigrationsWithCallback_nil.
      rewrite (Up_numbered src migrate.NilVersion Hnum Hok Hsrc (or_introl eq_refl)).
      unfold migrate.NilVersion.
      destruct (Z.eqb_spec (-1) (Z.of_nat (List.length src))); [lia|reflexivity].
    + destruct d; [|now apply Hrun].
      unfold Database.RunMigrations. rewrite RunMigrations_dirty by lia.
      now apply Hrun.
  - apply Hrun. lia.
  - unfold Database.GetMigrationVersion, migrate.Version, latest.
    cbn [migrate.version migrate.dirty]. unfold migrate.NilVersion.
    destruct (Z.eqb_spec (Z.of_nat (List.length src)) (-1)); [lia|reflexivity].
Qed.

Lemma RunMigrations_reaches_latest_witness :
  Database.RunMigrations Sample.three_migrations (migrate.mkSchema 1 true)
  = (Ok tt, migrate.mkSchema 3 false)
  /\ Database.RunMigrations Sample.three_migrations (migrate.mkSchema 3 false)
     = (Ok tt, migrate.mkSchema 3 false).
Proof.
  assert (Hin : version_in_source Sample.three_migrations (migrate.mkSchema 1 true)).
  { right. cbn. lia. }
  assert (Hclean : migrate.version (migrate.mkSchema 1 true) = migrate.NilVersion ->
                   migrate.dirty (migrate.mkSchema 1 true) = false).
  { cbn. unfold migrate.NilVersion. lia. }
  assert (Hsrc : Sample.three_migrations <> []) by discriminate.
  destruct (RunMigrations_reaches_latest Sample.three_migrations
              (migrate.mkSchema 1 true) eq_refl eq_refl Hsrc Hin Hclean)
    as (Hrun & Hagain & _).
  split; [exact Hrun|exact Hagain].
Defined.

(** X27.  What the callback of [RunMigrationsWithCallback] is told.  It
    is called at most once.  A result without error always has [Applied]
    set, also when nothing was applied and the two versions are equal:
    the error compared with [ErrNoChange] at that point is the one of the
    final [Version] call, not the one of [Up].  So the command line never
    prints "No new migrations to apply" for any result it is handed.  A
    result with an error has [Applied] clear and both versions equal. *)
Theorem callback_always_reports_applied (src : migrate.Source)
    (s : migrate.Schema) (r : Database.MigrationResult) :
  In r (snd (Database.RunMigrationsWithCallback src s)) ->
  snd (Database.RunMigrationsWithCallback src s) = [r]
  /\ (Database.Error r = None ->
      Database.Applied r = true
      /\ fst (fst (Database.RunMigrationsWithCallback src s)) = Ok tt)
  /\ (forall e, Database.Error r = Some e ->
      Database.Applied r = false
      /\ Database.ToVersion r = Database.FromVersion r
      /\ fst (fst (Database.RunMigrationsWithCallback src s))
         = Err (Wrapf "failed to run migrations: %w" e))
  /\ ~ In ("No new migrations to apply", []) (main.up_callback r).
Proof.
  unfold Database.RunMigrationsWithCallback.
  destruct (migrate.Version s) as [[currentVersion dirty] err].
  destruct (Database.unless ErrNilVersion err); [intros []|].
  destruct (if dirty then migrate.Force currentVersion s else (None, s))
    as [[forced|] s1]; [intros []|].
  destruct (migrate.Up src s1) as [up s2].
  destruct (Database.unless ErrNoChange up) as [e|] eqn:Hup.
  - cbn [snd fst]. intros [<-|[]]. cbn [Database.Error Database.Applied
      Database.ToVersion Database.FromVersion].
    split; [reflexivity|]. split; [discriminate|]. split.
    + intros e' [= <-]. repeat split.
    + unfold main.up_callback. cbn [Database.Error]. intros [].
  - destruct (migrate.Version s2) as [[finalVersion dirty2] err2] eqn:Hversion.
    destruct (Database.unless ErrNilVersion err2) eqn:Hfinal; [intros []|].
    cbn [snd fst]. intros [<-|[]]. cbn [Database.Error Database.Applied].
    assert (Happlied : negb (Database.error_eqb err2 ErrNoChange) = true).
    { unfold migrate.Version in Hversion.
      destruct (migrate.version s2 =? migrate.NilVersion);
        injection Hversion as _ _ <-; reflexivity. }
    split; [reflexivity|]. split; [now split|]. split; [discriminate|].
    unfold main.up_callback. cbn [Database.Error Database.Applied].
    rewrite Happlied. intros [H|[]]. discriminate H.
Qed.

Lemma callback_always_reports_applied_witness :
  snd (Database.RunMigrationsWithCallback Sample.three_migrations
         (migrate.mkSchema 3 false))
  = [Database.mkMigrationResult 3 3 true None]
  /\ main.up_callback (Database.mkMigrationResult 3 3 true None)
     = [("Migration applied: %d -> %d", [main.int 3; main.int 3])].
Proof.
  split; [|reflexivity].
  exact (proj1 (callback_always_reports_applied Sample.three_migrations
                  (migrate.mkSchema 3 false)
                  (Database.mkMigrationResult 3 3 true None)
                  (or_introl eq_refl))).
Defined.

(** X28.  [MigrateDown] does not check the sign of its step count.  On
    a clean state of a source without gaps whose up scripts succeed, a
    negative count rolls the schema forward by that many versions; only
    the command line, which hands over a count when it is positive, keeps
    this from happening. *)
Theorem MigrateDown_negative_steps_roll_forward (src : migrate.Source)
    (steps : Z) (s : migrate.Schema) :
  numbered_from 1 src = true ->
  forallb migrate.up_ok src = true ->
  migrate.dirty s = false ->
  1 <= migrate.version s ->
  steps < 0 ->
  migrate.version s - steps <= Z.of_nat (List.length src) ->
  Z.of_nat (List.length src) <= GoInt.MaxInt64 ->
  Database.MigrateDown src steps s
  = (Ok tt, migrate.mkSchema (migrate.version s - steps) false)
  /\ forall up status, main.is_migration_command up steps (-1) status = up || status.
Proof.
  intros Hnum Hok Hclean Hv Hsteps Hto Hmax. split.
  - destruct s as [v d]. cbn [migrate.version migrate.dirty] in *. subst d.
    unfold Database.MigrateDown, migrate.Version.
    cbn [migrate.version migrate.dirty]. unfold migrate.NilVersion.
    destruct (Z.eqb_spec v (-1)); [lia|].
    unfold GoInt.sub. rewrite wrap64_in_range
      by (unfold GoInt.in_int64, GoInt.MinInt64, GoInt.MaxInt64 in *; lia).
    destruct (Z.ltb_spec (v - steps) 0); [lia|].
    destruct (Z.eqb_spec (v - steps) 0); [lia|].
    unfold migrate.Migrate. cbn [migrate.version migrate.dirty].
    unfold migrate.known.
    rewrite !(versionExists_numbered src 1 _ Hnum).
    destruct (Z.ltb_spec v 0); [lia|]. destruct (Z.ltb_spec (v - steps) 0); [lia|].
    destruct (Z.leb_spec 1 v); [|lia].
    destruct (Z.ltb_spec v (1 + Z.of_nat (List.length src))); [|lia].
    destruct (Z.leb_spec 1 (v - steps)); [|lia].
    destruct (Z.ltb_spec (v - steps) (1 + Z.of_nat (List.length src))); [|lia].
    cbn [orb andb negb].
    destruct (Z.eqb_spec v (v - steps)); [lia|].
    destruct (Z.ltb_spec v (v - steps)); [|lia].
    rewrite (up_plan_numbered src 1 v (v - steps) _ Hnum Hok) by lia.
    destruct (Z.leb_spec 1 (v - steps)); [|lia].
    destruct (Z.ltb_spec v (v - steps)); [|lia].
    reflexivity.
  - intros up status. unfold main.is_migration_command.
    destruct (Z.ltb_spec 0 steps); [lia|].
    now destruct up, status.
Qed.

Lemma MigrateDown_negative_steps_roll_forward_witness :
  Database.MigrateDown Sample.three_migrations (-2) (migrate.mkSchema 1 false)
  = (Ok tt, migrate.mkSchema 3 false).
Proof.
  assert (Hv : 1 <= migrate.version (migrate.mkSchema 1 false)) by (cbn; lia).
  assert (Hto : migrate.version (migrate.mkSchema 1 false) - (-2)
                <= Z.of_nat (List.length Sample.three_migrations)) by (cbn; lia).
  assert (Hmax : Z.of_nat (List.length Sample.three_migrations) <= GoInt.MaxInt64)
    by (unfold GoInt.MaxInt64; cbn; lia).
  exact (proj1 (MigrateDown_negative_steps_roll_forward Sample.three_migrations
                  (-2) (migrate.mkSchema 1 false) eq_refl eq_refl eq_refl
                  Hv ltac:(lia) Hto Hmax)).
Defined.

(** X29.  The migration flags of the command line are served in a fixed
    order, one command per run.  The status flag wins over all others and
    only reads: it prints one line, exits with 0 and leaves the stored
    state alone.  Without it, a force version of 0 or more wins over down
    and up and stores that version with the dirty marker clear.  Without
    either, a positive down count wins over up and does what [MigrateDown]
    does.  With no flag set nothing is printed and nothing changes. *)
Theorem migration_flags_precedence (src : migrate.Source) (up : bool)
    (down force : Z) (status : bool) (s : migrate.Schema) :
  let run := main.handleMigrationCommands src up down force status s in
  (status = true ->
     snd run = s /\ snd (fst run) = 0 /\ List.length (fst (fst run)) = 1%nat)
  /\ (status = false -> 0 <= force ->
        run = ([("Successfully forced migration version to: %d", [main.int force])],
               0, migrate.mkSchema force false))
  /\ (status = false -> force < 0 -> 0 < down ->
        snd run = snd (Database.MigrateDown src down s)
        /\ (snd (fst run) = 0 <-> fst (Database.MigrateDown src down s) = Ok tt))
  /\ (main.is_migration_command up down force status = false -> run = ([], 0, s)).
Proof.
  intros run. subst run. unfold main.handleMigrationCommands.
  split; [|split; [|split]].
  - intros ->. unfold Database.GetMigrationVersion, migrate.Version.
    destruct (migrate.version s =? migrate.NilVersion); cbn [fst snd].
    + repeat split.
    + destruct (migrate.version s =? 0); repeat split.
  - intros -> Hforce. destruct (Z.leb_spec 0 force); [|lia].
    unfold Database.ForceMigrationVersion, migrate.Force.
    destruct (Z.ltb_spec force (-1)); [lia|reflexivity].
  - intros -> Hforce Hdown. destruct (Z.leb_spec 0 force); [lia|].
    destruct (Z.ltb_spec 0 down); [|lia].
    destruct (Database.MigrateDown src down s) as [[[]|e] s']; cbn [fst snd].
    + split; [reflexivity|]. split; reflexivity.
    + split; [reflexivity|]. split; discriminate.
  - unfold main.is_migration_command. intros Hnone.
    apply orb_false_iff in Hnone. destruct Hnone as [Hnone ->].
    apply orb_false_iff in Hnone. destruct Hnone as [Hnone ->].
    apply orb_false_iff in Hnone. destruct Hnone as [-> ->].
    reflexivity.
Qed.

Lemma migration_flags_precedence_witness :
  main.handleMigrationCommands Sample.three_migrations true 2 1 true
    (migrate.mkSchema 3 true)
  = ([("Current migration version: %d%s",
       [main.int 3; main.str " (DIRTY - needs manual intervention)"])],
     0, migrate.mkSchema 3 true)
  /\ main.handleMigrationCommands Sample.three_migrations true 2 1 false
       (migrate.mkSchema 3 true)
     = ([("Successfully forced migration version to: %d", [main.int 1])],
        0, migrate.mkSchema 1 false).
Proof.
  split; [reflexivity|].
  exact (proj1 (proj2 (migration_flags_precedence Sample.three_migrations true 2 1
                         false (migrate.mkSchema 3 true)))
               eq_refl ltac:(lia)).
Defined.
